(** * easy-static-host: the story synchronizer, the test-case generator,
      the report statistics and the tracker transforms, embedded and verified

    The development follows the TypeScript sources:
    - [UserStories] component: [extractTextFromJiraContent],
      [syncFromIntegrations], [generateTestCases], [deleteUserStory],
      [handleAddStory], [getAccessibleProjects], [filteredStories];
    - [TestCases] component: the steps of [loadTestCases], the
      validation and the story matching of [handleFileUpload];
    - edge functions: [generate-test-cases], [generate-test-report],
      [azure-devops-integration], [jira-integration].

    JavaScript values that the code receives as [any] are modelled by a JSON
    value type together with the few coercions the code applies to them
    (truthiness, property access, [join], [trim], [toLowerCase]).  The
    relational store is a pair of tables; a write statement of the storage
    client either takes effect or reports an [error], as decided by a
    script of faults carried in the state, and a look-up is answered from
    the table.  Strings are Latin-1 text. *)

From Stdlib Require Import List String Ascii ZArith Lia Bool Arith.
From Stdlib Require Import DecimalString SpecFloat.
Import ListNotations.
Local Open Scope string_scope.
Local Open Scope list_scope.

(* ================================================================== *)
(** * JavaScript values and coercions *)
(* ================================================================== *)

Module JS.

(** Exceptions the modelled code can raise. *)
Inductive exn : Type :=
| TypeError                (* property access on null, call of a non-function *)
| FetchError               (* fetch rejected, or the response body is not JSON *)
| ThrownError (msg : string).  (* throw new Error(msg), throw of a storage error *)

Inductive result (A : Type) : Type :=
| Ok (a : A)
| Raise (e : exn).
Arguments Ok {A} a.
Arguments Raise {A} e.

Definition rbind {A B} (r : result A) (k : A -> result B) : result B :=
  match r with
  | Ok a => k a
  | Raise e => Raise e
  end.

(** A parsed JSON value.  A number is modelled by an integer: the code
    modelled here only tests numbers for being zero, for being equal to
    1, 2 or 3, and prints them inside [join]; an object is the list of
    its own properties, looked up by first match. *)
#[warnings="-register-all"]
Inductive json : Type :=
| JNull
| JBool (b : bool)
| JNum (n : Z)
| JStr (s : string)
| JArr (xs : list json)
| JObj (props : list (string * json)).

(** [undefined] is the absence of a value: an expression that may be
    undefined has type [option json]. *)
Definition jsval := option json.

Fixpoint assoc (k : string) (ps : list (string * json)) : jsval :=
  match ps with
  | [] => None
  | (k', v) :: rest => if String.eqb k' k then Some v else assoc k rest
  end.

(** [v.k] for the property names used by the sources ([type], [text],
    [content], [title], ...): none of them is a built-in property of a
    string, number, boolean or array, so only objects answer. *)
Definition prop (k : string) (v : json) : result jsval :=
  match v with
  | JNull => Raise TypeError
  | JObj ps => Ok (assoc k ps)
  | _ => Ok None
  end.

(** [v?.k] *)
Definition prop_opt (k : string) (v : jsval) : jsval :=
  match v with
  | Some (JObj ps) => assoc k ps
  | _ => None
  end.

Definition truthy (v : json) : bool :=
  match v with
  | JNull => false
  | JBool b => b
  | JNum n => negb (n =? 0)%Z
  | JStr s => negb (String.eqb s "")
  | JArr _ | JObj _ => true
  end.

Definition truthy_opt (v : jsval) : bool :=
  match v with
  | None => false
  | Some v => truthy v
  end.

(** [a || b] *)
Definition or_js (a b : jsval) : jsval := if truthy_opt a then a else b.

(** [v === 'lit'] and [v === n] *)
Definition is_str (lit : string) (v : jsval) : bool :=
  match v with
  | Some (JStr s) => String.eqb s lit
  | _ => false
  end.

Definition is_num (n : Z) (v : jsval) : bool :=
  match v with
  | Some (JNum m) => (m =? n)%Z
  | _ => false
  end.

(** ** Strings

    A string is the sequence of its code units, taken in the Latin-1
    range U+0000..U+00FF. *)

Definition is_space (c : ascii) : bool :=
  let n := nat_of_ascii c in
  (((9 <=? n) && (n <=? 13)) || (n =? 32) || (n =? 160))%nat.

Fixpoint trimStart (s : string) : string :=
  match s with
  | EmptyString => EmptyString
  | String c r => if is_space c then trimStart r else s
  end.

(** [trimEnd s] drops the trailing white space: a character is kept when
    something that is not white space follows or it is not white space
    itself. *)
Fixpoint trimEnd (s : string) : string :=
  match s with
  | EmptyString => EmptyString
  | String c r =>
      match trimEnd r with
      | EmptyString => if is_space c then EmptyString else String c EmptyString
      | r' => String c r'
      end
  end.

Definition trim (s : string) : string := trimEnd (trimStart s).

(** [toLowerCase] on Latin-1 text: there the method maps each character
    on its own (A-Z and the accented capitals U+00C0..U+00DE, without the
    multiplication sign).  Beyond Latin-1 it does not: U+0130 lowers to
    two code units and a capital sigma lowers by its position in the
    word.  A property that needs the letterwise mapping (a length, a
    substring that survives the lowering) is therefore a property of
    Latin-1 text only, and says so. *)
Definition lower_char (c : ascii) : ascii :=
  let n := nat_of_ascii c in
  if (((65 <=? n) && (n <=? 90))
      || ((192 <=? n) && (n <=? 222) && negb (n =? 215)))%nat
  then ascii_of_nat (n + 32) else c.

Fixpoint toLowerCase (s : string) : string :=
  match s with
  | EmptyString => EmptyString
  | String c r => String (lower_char c) (toLowerCase r)
  end.

(** [s.replace(' ', '-')]: the first occurrence only. *)
Fixpoint replace_first (a b : ascii) (s : string) : string :=
  match s with
  | EmptyString => EmptyString
  | String c r => if Ascii.eqb c a then String b r else String c (replace_first a b r)
  end.

(** Number::toString for an integer below 10^21 in magnitude. *)
Definition decimal (n : Z) : string := NilZero.string_of_int (Z.to_int n).

(** ToString of a value; inside an array [null] prints as the empty
    string, as [Array.prototype.join] has it. *)
Fixpoint to_string (v : json) : string :=
  match v with
  | JNull => "null"
  | JBool true => "true"
  | JBool false => "false"
  | JNum n => decimal n
  | JStr s => s
  | JArr xs =>
      String.concat ","
        (map (fun x => match x with JNull => "" | _ => to_string x end) xs)
  | JObj _ => "[object Object]"
  end.

Definition join_elem (v : json) : string :=
  match v with
  | JNull => ""
  | _ => to_string v
  end.

(** [xs.join(sep)] *)
Definition join (sep : string) (xs : list json) : string :=
  String.concat sep (map join_elem xs).

(** [String(n).padStart(3, '0')] *)
Definition padStart3 (s : string) : string :=
  match String.length s with
  | 0%nat => "000" ++ s
  | 1%nat => "00" ++ s
  | 2%nat => "0" ++ s
  | _ => s
  end.

End JS.
Import JS.

Notation "'let?' x ':=' c 'in' k" := (rbind c (fun x => k))
  (at level 10, x name, c at level 100, k at level 200).

(* ================================================================== *)
(** * Rich-text unwrapping: [extractTextFromJiraContent] *)
(* ================================================================== *)

Definition placeholder : string := "No description available".

(** The inner [extractText(node)] closure; [textParts] is the array the
    closure pushes to.  The look-up of [node.content] is written as a walk
    over the properties so that the recursion is structural; lemma
    [extractText_obj] restates it with [assoc]. *)
Fixpoint extractText (node : json) (textParts : list json) : result (list json) :=
  match node with
  | JNull => Raise TypeError
  | JObj ps =>
      if is_str "text" (assoc "type" ps) && truthy_opt (assoc "text" ps) then
        match assoc "text" ps with
        | Some t => Ok (textParts ++ [t])
        | None => Ok textParts
        end
      else
        (fix content_of (qs : list (string * json)) : result (list json) :=
           match qs with
           | [] => Ok textParts
           | (k, v) :: rest =>
               if String.eqb k "content" then
                 match v with
                 | JArr cs =>
                     (fix forEach (cs : list json) (acc : list json) : result (list json) :=
                        match cs with
                        | [] => Ok acc
                        | c :: cs' => let? acc' := extractText c acc in forEach cs' acc'
                        end) cs textParts
                 | _ => Ok textParts
                 end
               else content_of rest
           end) ps
  | _ => Ok textParts
  end.

(** [nodes.forEach(extractText)] *)
Fixpoint forEach_extractText (cs : list json) (acc : list json) : result (list json) :=
  match cs with
  | [] => Ok acc
  | c :: cs' => let? acc' := extractText c acc in forEach_extractText cs' acc'
  end.

Definition extractTextFromJiraContent (content : jsval) : result string :=
  match content with
  | Some (JStr s) => Ok s
  | _ =>
      if negb (truthy_opt content) then Ok placeholder
      else
        match prop_opt "content" content with
        | Some (JArr cs) =>
            let? textParts := forEach_extractText cs [] in
            let t := trim (join " " textParts) in
            Ok (if String.eqb t "" then placeholder else t)
        | _ => Ok placeholder
        end
  end.

(** ** Documents made of text leaves *)

(** A document of the tracker's rich-text format: a text leaf with its
    optional marks, or a node of some type with its optional attributes
    and its children. *)
#[warnings="-register-all"]
Inductive adf : Type :=
| AText (text : string) (marks : jsval)
| ANode (type : string) (attrs : jsval) (content : list adf).

(** An optional property of an object literal. *)
Definition optional (k : string) (v : jsval) : list (string * json) :=
  match v with
  | Some x => [(k, x)]
  | None => []
  end.

Fixpoint adf_json (d : adf) : json :=
  match d with
  | AText s marks =>
      JObj ([("type", JStr "text"); ("text", JStr s)] ++ optional "marks" marks)
  | ANode ty attrs cs =>
      JObj ([("type", JStr ty)] ++ optional "attrs" attrs
            ++ [("content", JArr (map adf_json cs))])
  end.

(** The root of a document: [{ version, type: 'doc', content }]. *)
Definition doc_json (version : Z) (content : list adf) : json :=
  JObj [("version", JNum version); ("type", JStr "doc");
        ("content", JArr (map adf_json content))].

(** The leaf texts, in document order. *)
Fixpoint leaf_texts (d : adf) : list string :=
  match d with
  | AText s _ => [s]
  | ANode _ _ cs => flat_map leaf_texts cs
  end.

Definition nonempty (s : string) : bool := negb (String.eqb s "").

(** The unwrapping as the specification words it: the leaf texts joined
    by single spaces, trimmed. *)
Definition spec_unwrap (d : adf) : string :=
  trim (String.concat " " (leaf_texts d)).

(** The input is empty in the code's own sense: [!content]. *)
Definition empty_input (content : jsval) : bool := negb (truthy_opt content).

(** The input is not of a recognized shape: neither a string nor an
    object with a [content] array. *)
Definition unrecognized (content : jsval) : bool :=
  match content with
  | Some (JStr _) => false
  | Some (JObj ps) => match assoc "content" ps with Some (JArr _) => false | _ => true end
  | _ => true
  end.

(* ================================================================== *)
(** * Work-item tracker transform ([azure-devops-integration]) *)
(* ================================================================== *)

Record AzureDevOpsWorkItem : Type := {
  wi_id : Z;
  wi_fields : list (string * json)
}.

Record TrackerStory : Type := {
  ts_id : string;
  ts_title : jsval;
  ts_description : jsval;
  ts_acceptanceCriteria : jsval;
  ts_priority : string;
  ts_status : jsval;
  ts_issueType : jsval;
  ts_azureDevOpsId : Z;
  ts_source : string
}.

(** The nested conditional on ['Microsoft.VSTS.Common.Priority']. *)
Definition priorityLabel (p : jsval) : string :=
  if truthy_opt p then
    if is_num 1 p then "high"
    else if is_num 2 p then "medium"
    else if is_num 3 p then "low"
    else "medium"
  else "medium".

(** [v?.toLowerCase()]: undefined and null short-circuit, a string is
    lowered, anything else has no such method. *)
Definition toLowerCase_opt (v : jsval) : result jsval :=
  match v with
  | None | Some JNull => Ok None
  | Some (JStr s) => Ok (Some (JStr (toLowerCase s)))
  | Some _ => Raise TypeError
  end.

(** The callback of [data.value?.map(...)]. *)
Definition transformWorkItem (workItem : AzureDevOpsWorkItem) : result TrackerStory :=
  let f := wi_fields workItem in
  let? state := toLowerCase_opt (assoc "System.State" f) in
  Ok {| ts_id := decimal (wi_id workItem);
        ts_title := or_js (assoc "System.Title" f) (Some (JStr "Untitled"));
        ts_description := or_js (assoc "System.Description" f)
                                (Some (JStr "No description available"));
        ts_acceptanceCriteria :=
          or_js (assoc "Microsoft.VSTS.Common.AcceptanceCriteria" f) (Some (JStr ""));
        ts_priority := priorityLabel (assoc "Microsoft.VSTS.Common.Priority" f);
        ts_status := or_js state (Some (JStr "new"));
        ts_issueType := or_js (assoc "System.WorkItemType" f) (Some (JStr "User Story"));
        ts_azureDevOpsId := wi_id workItem;
        ts_source := "azure-devops" |}.

(* ================================================================== *)
(** * The relational store and the component's effects *)
(* ================================================================== *)

(** Row identifiers are generated by the store; they are modelled by
    natural numbers handed out from a counter. *)
Definition uuid := nat.

(** A [user_stories] row.  The payload columns hold the values the client
    sent. *)
Record UserStoryRow : Type := {
  us_id : uuid;
  us_project_id : uuid;
  us_title : string;
  us_description : jsval;
  us_acceptance_criteria : jsval;
  us_priority : jsval;
  us_status : jsval
}.

(** A [test_cases] row. *)
Record TestCaseRow : Type := {
  tc_id : uuid;
  tc_project_id : uuid;
  tc_user_story_id : option uuid;
  tc_title : jsval;
  tc_description : jsval;
  tc_steps : jsval;
  tc_expected_result : jsval;
  tc_priority : string;
  tc_status : string
}.

(** An [ai_usage_logs] row (the token, cost and timing columns are not
    tracked). *)
Record UsageLog : Type := {
  ul_user_id : string;
  ul_project_id : jsval;
  ul_feature_type : string;
  ul_success : bool
}.

Record Toast : Type := {
  toast_title : string;
  toast_description : string;
  toast_destructive : bool
}.

(** An entry of the story list held in the component's state. *)
Record UserStory : Type := {
  st_id : uuid;
  st_title : string;
  st_description : string;
  st_acceptanceCriteria : string;
  st_priority : string;
  st_status : string;
  st_testCasesGenerated : nat
}.

(** Everything the modelled operations read and write.  [faults] scripts
    the storage errors: the head says whether the next write statement
    reports an [error] (and then changes nothing); an exhausted script
    means no error. *)
Record World : Type := {
  user_stories : list UserStoryRow;
  test_cases : list TestCaseRow;
  ai_usage_logs : list UsageLog;
  next_id : uuid;
  faults : list bool;
  console : list string;
  toasts : list Toast
}.

Definition set_user_stories (f : list UserStoryRow -> list UserStoryRow) (w : World) : World :=
  {| user_stories := f (user_stories w); test_cases := test_cases w;
     ai_usage_logs := ai_usage_logs w; next_id := next_id w; faults := faults w;
     console := console w; toasts := toasts w |}.

Definition set_test_cases (f : list TestCaseRow -> list TestCaseRow) (w : World) : World :=
  {| user_stories := user_stories w; test_cases := f (test_cases w);
     ai_usage_logs := ai_usage_logs w; next_id := next_id w; faults := faults w;
     console := console w; toasts := toasts w |}.

Definition set_ai_usage_logs (f : list UsageLog -> list UsageLog) (w : World) : World :=
  {| user_stories := user_stories w; test_cases := test_cases w;
     ai_usage_logs := f (ai_usage_logs w); next_id := next_id w; faults := faults w;
     console := console w; toasts := toasts w |}.

Definition set_next_id (n : uuid) (w : World) : World :=
  {| user_stories := user_stories w; test_cases := test_cases w;
     ai_usage_logs := ai_usage_logs w; next_id := n; faults := faults w;
     console := console w; toasts := toasts w |}.

Definition set_faults (fs : list bool) (w : World) : World :=
  {| user_stories := user_stories w; test_cases := test_cases w;
     ai_usage_logs := ai_usage_logs w; next_id := next_id w; faults := fs;
     console := console w; toasts := toasts w |}.

(** [console.error(msg, ...)] and [toast({...})] append to their logs. *)
Definition console_error (msg : string) (w : World) : World :=
  {| user_stories := user_stories w; test_cases := test_cases w;
     ai_usage_logs := ai_usage_logs w; next_id := next_id w; faults := faults w;
     console := console w ++ [msg]; toasts := toasts w |}.

Definition toast (t : Toast) (w : World) : World :=
  {| user_stories := user_stories w; test_cases := test_cases w;
     ai_usage_logs := ai_usage_logs w; next_id := next_id w; faults := faults w;
     console := console w; toasts := toasts w ++ [t] |}.

(** ** A state-and-exception monad for the asynchronous functions

    An exception leaves the state as it was when it was thrown. *)
Definition M (A : Type) : Type := World -> result A * World.

Definition ret {A} (a : A) : M A := fun w => (Ok a, w).

Definition bind {A B} (m : M A) (k : A -> M B) : M B :=
  fun w =>
    match m w with
    | (Ok a, w') => k a w'
    | (Raise e, w') => (Raise e, w')
    end.

Definition throw {A} (e : exn) : M A := fun w => (Raise e, w).

Definition lift {A} (r : result A) : M A := fun w => (r, w).

Definition effect (f : World -> World) : M unit := fun w => (Ok tt, f w).

Notation "x <- c ;; k" := (bind c (fun x => k))
  (at level 61, c at next level, right associativity).
Notation "c ;;; k" := (bind c (fun _ => k))
  (at level 61, right associativity).

(** ** The storage client *)

(** A write statement: consult the fault script, then either report the
    error or apply the change.  The answer is the statement's [error]. *)
Definition write (change : World -> World) : M bool :=
  fun w =>
    let w0 := set_faults (tl (faults w)) w in
    if hd false (faults w) then (Ok true, w0) else (Ok false, change w0).

(** [.single()]: the data is the row when the query matches exactly one
    row, and [null] (with an error the callers do not look at) when it
    matches none or several. *)
Definition single {A} (rows : list A) : option A :=
  match rows with
  | [r] => Some r
  | _ => None
  end.

Definition story_matches (project : uuid) (title : string) (r : UserStoryRow) : bool :=
  Nat.eqb (us_project_id r) project && String.eqb (us_title r) title.

(** The row that [.eq('project_id', p).eq('title', t).single()] finds. *)
Definition existing_story (project : uuid) (title : string) (w : World)
    : option UserStoryRow :=
  single (filter (story_matches project title) (user_stories w)).

(** [from('user_stories').select('id').eq('project_id', p).eq('title', t).single()]
    for a request that the store answers.  The callers read [data] only,
    so a request that fails would give them [null] as well, and the story
    would be inserted; the fault script covers the write statements, not
    this look-up, and a property that needs the look-ups to be answered
    says so. *)
Definition select_story_by_title (project : uuid) (title : string) : M (option uuid) :=
  fun w => (Ok (option_map us_id (existing_story project title w)), w).

(** The columns a synchronization writes. *)
Record StoryPayload : Type := {
  sp_description : jsval;
  sp_acceptance_criteria : jsval;
  sp_priority : jsval;
  sp_status : jsval
}.

Definition apply_payload (p : StoryPayload) (r : UserStoryRow) : UserStoryRow :=
  {| us_id := us_id r; us_project_id := us_project_id r; us_title := us_title r;
     us_description := sp_description p;
     us_acceptance_criteria := sp_acceptance_criteria p;
     us_priority := sp_priority p;
     us_status := sp_status p |}.

(** [from('user_stories').update({...}).eq('id', id)] *)
Definition update_story (id : uuid) (p : StoryPayload) : M bool :=
  write (set_user_stories
           (map (fun r => if Nat.eqb (us_id r) id then apply_payload p r else r))).

(** [from('user_stories').insert({project_id, title, ...})]: the store
    generates the identifier. *)
Definition insert_story (project : uuid) (title : string) (p : StoryPayload) : M bool :=
  write (fun w =>
           set_next_id (S (next_id w))
             (set_user_stories
                (fun rows =>
                   rows ++ [{| us_id := next_id w; us_project_id := project;
                               us_title := title;
                               us_description := sp_description p;
                               us_acceptance_criteria := sp_acceptance_criteria p;
                               us_priority := sp_priority p;
                               us_status := sp_status p |}]) w)).

(* ================================================================== *)
(** * Synchronization: [syncFromIntegrations] *)
(* ================================================================== *)

(** A story as the integration functions return it. *)
Record FetchedStory : Type := {
  fs_title : string;
  fs_description : jsval;
  fs_acceptanceCriteria : jsval;
  fs_priority : jsval;
  fs_status : jsval
}.

(** What [fetch] followed by [response.json()] gives: the call throws,
    or there is a body with its [success] flag (by truthiness) and its
    [stories], if any. *)
Inductive Reply : Type :=
| Failed
| Data (success : bool) (stories : option (list FetchedStory)).

Record JiraConfig : Type := {
  jira_enabled : bool;
  jira_url : string;
  jira_email : string;
  jira_apiToken : string;
  jira_projectKey : string
}.

Record AzureDevOpsConfig : Type := {
  az_enabled : bool;
  az_organizationUrl : string;
  az_projectName : string;
  az_personalAccessToken : string
}.

Record OpenAIConfig : Type := {
  oa_endpoint : string;
  oa_apiKey : string;
  oa_deploymentId : string;
  oa_apiVersion : string
}.

(** The value of [loadSavedConfigurations()]. *)
Record SavedConfigs : Type := {
  cfg_jira : option JiraConfig;
  cfg_azure_devops : option AzureDevOpsConfig;
  cfg_openai : option OpenAIConfig
}.

(** [s.replace(' ', '-')] under the optional chain. *)
Definition replace_space_opt (v : jsval) : jsval :=
  match v with
  | Some (JStr s) => Some (JStr (replace_first " "%char "-"%char s))
  | _ => v
  end.

(** The column values of the Jira branch; the description is unwrapped,
    priority and status are lowered. *)
Definition jira_payload (story : FetchedStory) : result StoryPayload :=
  let? description := extractTextFromJiraContent (fs_description story) in
  let? priority := toLowerCase_opt (fs_priority story) in
  let? status := toLowerCase_opt (fs_status story) in
  Ok {| sp_description := Some (JStr description);
        sp_acceptance_criteria := or_js (fs_acceptanceCriteria story) (Some (JStr ""));
        sp_priority := or_js priority (Some (JStr "medium"));
        sp_status := or_js (replace_space_opt status) (Some (JStr "draft")) |}.

(** The column values of the Azure DevOps branch. *)
Definition azure_payload (story : FetchedStory) : result StoryPayload :=
  Ok {| sp_description := fs_description story;
        sp_acceptance_criteria := or_js (fs_acceptanceCriteria story) (Some (JStr ""));
        sp_priority := or_js (fs_priority story) (Some (JStr "medium"));
        sp_status := or_js (fs_status story) (Some (JStr "draft")) |}.

(** The body of [for (const story of data.stories)]; the answer says
    whether [syncedCount] is incremented. *)
Definition sync_story (payload : FetchedStory -> result StoryPayload)
    (currentProject : uuid) (story : FetchedStory) : M bool :=
  existingStory <- select_story_by_title currentProject (fs_title story) ;;
  match existingStory with
  | Some id =>
      p <- lift (payload story) ;;
      error <- update_story id p ;;
      ret (negb error)
  | None =>
      p <- lift (payload story) ;;
      error <- insert_story currentProject (fs_title story) p ;;
      ret (negb error)
  end.

(** The loop, with the counter it increments; an exception ends it and
    is handed to the enclosing [catch], the counter and the store keep
    what was done before. *)
Fixpoint sync_stories (payload : FetchedStory -> result StoryPayload)
    (currentProject : uuid) (fetched : list FetchedStory) (syncedCount : nat)
    (w : World) : nat * option exn * World :=
  match fetched with
  | [] => (syncedCount, None, w)
  | story :: rest =>
      match sync_story payload currentProject story w with
      | (Ok touched, w') =>
          sync_stories payload currentProject rest
            (if touched then S syncedCount else syncedCount) w'
      | (Raise e, w') => (syncedCount, Some e, w')
      end
  end.

(** One provider's [try { fetch; loop } catch { console.error }]. *)
Definition sync_provider (failure : string)
    (payload : FetchedStory -> result StoryPayload)
    (currentProject : uuid) (reply : Reply) (syncedCount : nat) (w : World)
    : nat * World :=
  match reply with
  | Failed => (syncedCount, console_error failure w)
  | Data true (Some fetched) =>
      match sync_stories payload currentProject fetched syncedCount w with
      | (n, None, w') => (n, w')
      | (n, Some _, w') => (n, console_error failure w')
      end
  | Data _ _ => (syncedCount, w)
  end.

Definition jira_ready (c : SavedConfigs) : bool :=
  match cfg_jira c with
  | Some j =>
      jira_enabled j && nonempty (jira_url j) && nonempty (jira_email j)
      && nonempty (jira_apiToken j) && nonempty (jira_projectKey j)
  | None => false
  end.

Definition azure_ready (c : SavedConfigs) : bool :=
  match cfg_azure_devops c with
  | Some a =>
      az_enabled a && nonempty (az_organizationUrl a) && nonempty (az_projectName a)
      && nonempty (az_personalAccessToken a)
  | None => false
  end.

Definition toast_not_logged_in : Toast :=
  {| toast_title := "Error";
     toast_description := "Please make sure you're logged in and have a project";
     toast_destructive := true |}.

Definition toast_sync_complete (syncedCount : nat) : Toast :=
  {| toast_title := "Sync Complete";
     toast_description :=
       "Synced " ++ decimal (Z.of_nat syncedCount) ++ " user stories from external systems";
     toast_destructive := false |}.

Definition toast_no_changes : Toast :=
  {| toast_title := "No Changes";
     toast_description := "No new stories to sync from external systems";
     toast_destructive := false |}.

(** The two provider blocks in sequence, sharing [syncedCount]. *)
Definition sync_providers (currentProject : uuid) (savedConfigs : SavedConfigs)
    (jiraReply azureReply : Reply) (w : World) : nat * World :=
  let '(n1, w1) :=
    if jira_ready savedConfigs
    then sync_provider "Failed to sync Jira stories:" jira_payload
           currentProject jiraReply 0 w
    else (0, w) in
  if azure_ready savedConfigs
  then sync_provider "Failed to sync Azure DevOps stories:" azure_payload
         currentProject azureReply n1 w1
  else (n1, w1).



(** Title equality under case-insensitive comparison. *)
Definition same_title_ci (a b : string) : bool :=
  String.eqb (toLowerCase a) (toLowerCase b).

(** [syncFromIntegrations].  [logged_in] is [session?.user?.id]; the two
    replies are what the integration endpoints answer during this run.
    Each provider block catches its own exceptions, so the outer [catch]
    ("Sync Failed") is never entered.  The embedding ends with the
    report: the awaited [loadStoriesFromDatabase()] that follows "Sync
    Complete" is left out.  That reload writes no story and no test
    case; when it fails it shows an "Error" toast of its own after the
    report.  Statements about the toasts of a run therefore fix the
    report and leave open what is shown after it. *)
Definition syncFromIntegrations (logged_in : bool) (currentProject : option uuid)
    (savedConfigs : SavedConfigs) (jiraReply azureReply : Reply) (w : World) : World :=
  match logged_in, currentProject with
  | true, Some project =>
      let '(syncedCount, w') :=
        sync_providers project savedConfigs jiraReply azureReply w in
      if (0 <? syncedCount)%nat
      then toast (toast_sync_complete syncedCount) w'
      else toast toast_no_changes w'
  | _, _ => toast toast_not_logged_in w
  end.

(* ================================================================== *)
(** * Object literals *)
(* ================================================================== *)

(** [{ ...v }]: the own enumerable properties of a value. *)
Definition indexed (xs : list json) : list (string * json) :=
  combine (map (fun i => decimal (Z.of_nat i)) (seq 0 (List.length xs))) xs.

Definition spread (v : json) : list (string * json) :=
  match v with
  | JObj ps => ps
  | JArr xs => indexed xs
  | JStr s => indexed (map (fun c => JStr (String c EmptyString)) (list_ascii_of_string s))
  | _ => []
  end.

(** [{ ...o, k: v }] as the serialized response shows it: the property is
    replaced, and left out when the value is [undefined]. *)
Definition set_prop (k : string) (v : jsval) (ps : list (string * json))
    : list (string * json) :=
  let others := filter (fun kv => negb (String.eqb (fst kv) k)) ps in
  match v with
  | Some x => others ++ [(k, x)]
  | None => others
  end.

(** A template literal's [${v}]. *)
Definition template (v : jsval) : string :=
  match v with
  | None => "undefined"
  | Some x => to_string x
  end.

(* ================================================================== *)
(** * Test-case generation, client side: [generateTestCases] *)
(* ================================================================== *)

(** The optional image: reading it as a data URL gives the URL, or
    rejects. *)
Inductive ImageRead : Type :=
| ReadOk (dataUrl type : string)
| ReadRejected.

(** The object built for one generated test case, before the store
    gives it an identifier. *)
Record TestCaseInsert : Type := {
  ti_project_id : uuid;
  ti_user_story_id : uuid;
  ti_title : jsval;
  ti_description : jsval;
  ti_steps : jsval;
  ti_expected_result : jsval;
  ti_priority : string;
  ti_status : string
}.

Definition newline : string := String "010"%char EmptyString.

(** [steps ? (Array.isArray(steps) ? steps.join('\n') : steps) : ''] *)
Definition steps_text (steps : jsval) : jsval :=
  if truthy_opt steps then
    match steps with
    | Some (JArr xs) => Some (JStr (join newline xs))
    | _ => steps
    end
  else Some (JStr "").

(** [v.toLowerCase()] on a value known to be truthy. *)
Definition toLowerCase_of (v : jsval) : result string :=
  match v with
  | Some (JStr s) => Ok (toLowerCase s)
  | _ => Raise TypeError
  end.

(** The callback of [data.testCases.map(...)]. *)
Definition testCaseToInsert (currentProject storyId : uuid) (testCase : json)
    : result TestCaseInsert :=
  let? title := prop "title" testCase in
  let? name := prop "name" testCase in
  let? description := prop "description" testCase in
  let? steps := prop "steps" testCase in
  let? expectedResult := prop "expectedResult" testCase in
  let? expected := prop "expected" testCase in
  let? priority0 := prop "priority" testCase in
  let? priority := toLowerCase_of (or_js priority0 (Some (JStr "medium"))) in
  Ok {| ti_project_id := currentProject;
        ti_user_story_id := storyId;
        ti_title := or_js title (or_js name (Some (JStr "Test Case")));
        ti_description := or_js description (Some (JStr ""));
        ti_steps := steps_text steps;
        ti_expected_result := or_js expectedResult (or_js expected (Some (JStr "")));
        ti_priority := priority;
        ti_status := "draft" |}.

Fixpoint map_result {A B} (f : A -> result B) (xs : list A) : result (list B) :=
  match xs with
  | [] => Ok []
  | x :: rest =>
      let? y := f x in
      let? ys := map_result f rest in
      Ok (y :: ys)
  end.

(** [v.map(f)]: only an array has the method. *)
Definition js_map {B} (f : json -> result B) (v : jsval) : result (list B) :=
  match v with
  | Some (JArr xs) => map_result f xs
  | _ => Raise TypeError
  end.

(** [v.length] of an array or a string. *)
Definition js_length (v : jsval) : option nat :=
  match v with
  | Some (JArr xs) => Some (List.length xs)
  | Some (JStr s) => Some (String.length s)
  | _ => None
  end.

Definition stored_row (id : uuid) (t : TestCaseInsert) : TestCaseRow :=
  {| tc_id := id;
     tc_project_id := ti_project_id t;
     tc_user_story_id := Some (ti_user_story_id t);
     tc_title := ti_title t;
     tc_description := ti_description t;
     tc_steps := ti_steps t;
     tc_expected_result := ti_expected_result t;
     tc_priority := ti_priority t;
     tc_status := ti_status t |}.

(** The rows of a bulk insert, numbered from the store's counter. *)
Fixpoint stored_rows (first : uuid) (ts : list TestCaseInsert) : list TestCaseRow :=
  match ts with
  | [] => []
  | t :: rest => stored_row first t :: stored_rows (S first) rest
  end.

Definition of_story (storyId : uuid) (r : TestCaseRow) : bool :=
  match tc_user_story_id r with
  | Some s => Nat.eqb s storyId
  | None => false
  end.

Definition of_story_in_project (storyId project : uuid) (r : TestCaseRow) : bool :=
  of_story storyId r && Nat.eqb (tc_project_id r) project.

(** [from('test_cases').delete().eq('user_story_id', s).eq('project_id', p)] *)
Definition delete_test_cases_of (storyId project : uuid) : M bool :=
  write (set_test_cases (filter (fun r => negb (of_story_in_project storyId project r)))).

(** [from('test_cases').insert(rows)]: one statement for all the rows. *)
Definition insert_test_cases (ts : list TestCaseInsert) : M bool :=
  write (fun w =>
           set_next_id (next_id w + List.length ts)
             (set_test_cases (fun rows => rows ++ stored_rows (next_id w) ts) w)).

(** [from('user_stories').update({ status: 'completed' }).eq('id', s).eq('project_id', p)] *)
Definition complete_story (storyId project : uuid) : M bool :=
  write (set_user_stories
           (map (fun r =>
                   if Nat.eqb (us_id r) storyId && Nat.eqb (us_project_id r) project
                   then {| us_id := us_id r; us_project_id := us_project_id r;
                           us_title := us_title r; us_description := us_description r;
                           us_acceptance_criteria := us_acceptance_criteria r;
                           us_priority := us_priority r;
                           us_status := Some (JStr "completed") |}
                   else r))).

Definition openai_ready (c : SavedConfigs) : bool :=
  match cfg_openai c with
  | Some o => nonempty (oa_endpoint o) && nonempty (oa_apiKey o) && nonempty (oa_deploymentId o)
  | None => false
  end.

Definition toast_authentication : Toast :=
  {| toast_title := "Authentication Error";
     toast_description := "Please log in to generate test cases";
     toast_destructive := true |}.

Definition toast_not_configured : Toast :=
  {| toast_title := "Azure OpenAI Not Configured";
     toast_description := "Please configure Azure OpenAI in integrations first";
     toast_destructive := true |}.

Definition toast_generated (n : nat) : Toast :=
  {| toast_title := "Test Cases Generated & Saved";
     toast_description :=
       "Generated and saved " ++ decimal (Z.of_nat n) ++ " test cases for this story";
     toast_destructive := false |}.

Definition toast_generation_failed : Toast :=
  {| toast_title := "Generation Failed";
     toast_description := "Failed to generate test cases. Please try again.";
     toast_destructive := true |}.

(** The update of the component's list after a successful generation. *)
Definition mark_generated (storyId : uuid) (n : nat) (s : UserStory) : UserStory :=
  if Nat.eqb (st_id s) storyId
  then {| st_id := st_id s; st_title := st_title s; st_description := st_description s;
          st_acceptanceCriteria := st_acceptanceCriteria s; st_priority := st_priority s;
          st_status := "completed"; st_testCasesGenerated := n |}
  else s.

Definition openai_json (o : OpenAIConfig) : json :=
  JObj [("endpoint", JStr (oa_endpoint o)); ("apiKey", JStr (oa_apiKey o));
        ("deploymentId", JStr (oa_deploymentId o));
        ("apiVersion", JStr (oa_apiVersion o))].

(** An identifier as it travels in a request. *)
Definition uuid_json (id : uuid) : json := JStr (decimal (Z.of_nat id)).

(** The [requestBody] as serialized: absent values are left out. *)
Definition requestBody (currentProject : option uuid) (story : UserStory)
    (azureConfig : OpenAIConfig) (customPrompt : option string)
    (image : option (string * string)) : json :=
  JObj
    (set_prop "imageType" (option_map (fun i => JStr (snd i)) image)
    (set_prop "imageData" (option_map (fun i => JStr (fst i)) image)
    (set_prop "customPrompt" (option_map JStr customPrompt)
       [("story",
         JObj (set_prop "project_id" (option_map uuid_json currentProject)
                 [("id", uuid_json (st_id story));
                  ("title", JStr (st_title story));
                  ("description", JStr (st_description story));
                  ("acceptanceCriteria", JStr (st_acceptanceCriteria story));
                  ("priority", JStr (st_priority story));
                  ("issueType", JStr "Story")]));
        ("azureConfig", openai_json azureConfig)]))).

(** The [try] block of [generateTestCases]; the answer is the component's
    story list afterwards.  [fetch] is the call of the generation
    endpoint with the request body, followed by [response.json()]. *)
Definition generate_try (fetch : json -> M json) (currentProject : option uuid)
    (azureConfig : OpenAIConfig) (stories : list UserStory) (story : UserStory)
    (storyId : uuid) (customPrompt : option string) (imageFile : option ImageRead)
    : M (list UserStory) :=
  image <- match imageFile with
           | Some ReadRejected => throw FetchError
           | Some (ReadOk dataUrl type) => ret (Some (dataUrl, type))
           | None => ret None
           end ;;
  data <- fetch (requestBody currentProject story azureConfig customPrompt image) ;;
  success <- lift (prop "success" data) ;;
  testCases <- lift (prop "testCases" data) ;;
  if truthy_opt success && truthy_opt testCases then
    match currentProject with
    | None => throw (ThrownError "No project selected")
    | Some project =>
        delete_test_cases_of storyId project ;;;
        testCasesToInsert <-
          lift (js_map (testCaseToInsert project storyId) testCases) ;;
        insertError <- insert_test_cases testCasesToInsert ;;
        if insertError then throw (ThrownError "insertError")
        else
          complete_story storyId project ;;;
          effect (toast (toast_generated (List.length testCasesToInsert))) ;;;
          ret (map (mark_generated storyId (List.length testCasesToInsert)) stories)
    end
  else ret stories.

(** [generateTestCases(storyId, customPrompt, imageFile)].  [has_token]
    is [session?.access_token]; [stories] is the component's list. *)
Definition generateTestCases (fetch : json -> M json) (has_token : bool)
    (currentProject : option uuid) (savedConfigs : SavedConfigs)
    (stories : list UserStory) (storyId : uuid) (customPrompt : option string)
    (imageFile : option ImageRead) : World -> list UserStory * World :=
  fun w =>
    match find (fun s => Nat.eqb (st_id s) storyId) stories with
    | None => (stories, w)
    | Some story =>
        if negb has_token then (stories, toast toast_authentication w)
        else
          match cfg_openai savedConfigs with
          | Some azureConfig =>
              if openai_ready savedConfigs then
                match generate_try fetch currentProject azureConfig stories story
                        storyId customPrompt imageFile w with
                | (Ok stories', w') => (stories', w')
                | (Raise _, w') =>
                    (stories,
                     toast toast_generation_failed
                       (console_error "Error generating test cases:" w'))
                end
              else (stories, toast toast_not_configured w)
          | None => (stories, toast toast_not_configured w)
          end
    end.

(** An endpoint that is given by its answer: the call throws, or there
    is a decoded body. *)
Inductive GenReply : Type :=
| GenFailed
| GenData (data : json).

Definition fetch_reply (reply : GenReply) : json -> M json :=
  fun _ =>
    match reply with
    | GenFailed => throw FetchError
    | GenData data => ret data
    end.

(* ================================================================== *)
(** * Story deletion: [deleteUserStory] *)
(* ================================================================== *)

Definition dquote : string := String "034"%char EmptyString.

Definition toast_deleted (storyTitle : string) : Toast :=
  {| toast_title := "User Story Deleted";
     toast_description :=
       dquote ++ storyTitle ++ dquote
       ++ " and its test cases have been deleted successfully";
     toast_destructive := false |}.

Definition toast_delete_failed : Toast :=
  {| toast_title := "Delete Failed";
     toast_description := "Failed to delete user story";
     toast_destructive := true |}.

(** [from('test_cases').delete().eq('user_story_id', s)] *)
Definition delete_test_cases_by_story (storyId : uuid) : M bool :=
  write (set_test_cases (filter (fun r => negb (of_story storyId r)))).

(** [from('user_stories').delete().eq('id', s)] *)
Definition delete_story (storyId : uuid) : M bool :=
  write (set_user_stories (filter (fun r => negb (Nat.eqb (us_id r) storyId)))).

Definition delete_try (stories : list UserStory) (storyId : uuid) (storyTitle : string)
    : M (list UserStory) :=
  testCasesError <- delete_test_cases_by_story storyId ;;
  if testCasesError then throw (ThrownError "testCasesError")
  else
    error <- delete_story storyId ;;
    if error then throw (ThrownError "error")
    else
      effect (toast (toast_deleted storyTitle)) ;;;
      ret (filter (fun s => negb (Nat.eqb (st_id s) storyId)) stories).

(** [deleteUserStory(storyId, storyTitle)] *)
Definition deleteUserStory (stories : list UserStory) (storyId : uuid)
    (storyTitle : string) : World -> list UserStory * World :=
  fun w =>
    match delete_try stories storyId storyTitle w with
    | (Ok stories', w') => (stories', w')
    | (Raise _, w') =>
        (stories,
         toast toast_delete_failed (console_error "Error deleting user story:" w'))
    end.

(* ================================================================== *)
(** * Edge functions *)
(* ================================================================== *)

Fixpoint map_result_from {A B} (index : nat) (f : nat -> A -> result B) (xs : list A)
    : result (list B) :=
  match xs with
  | [] => Ok []
  | x :: rest =>
      let? y := f index x in
      let? ys := map_result_from (S index) f rest in
      Ok (y :: ys)
  end.

(** [v.map((x, index) => ...)] *)
Definition js_map_indexed {B} (f : nat -> json -> result B) (v : jsval) : result (list B) :=
  match v with
  | Some (JArr xs) => map_result_from 0 f xs
  | _ => Raise TypeError
  end.

Record Response : Type := {
  resp_status : nat;
  resp_body : json
}.

Definition json_response (status : nat) (body : list (string * json)) : Response :=
  {| resp_status := status; resp_body := JObj body |}.

(** What the completion endpoint does: the call (or the decoding of its
    body, or the selection of the first choice) throws, it answers with
    an HTTP error status, or it answers with a text. *)
Inductive Completion : Type :=
| CompletionThrows
| CompletionError (status : nat)
| CompletionText (content : string).

Section GenerateTestCases.

(** [JSON.parse]: [None] is a [SyntaxError]. *)
Variable JSON_parse : string -> option json.

(** [error.message] *)
Variable error_message : exn -> string.

(** A request: the Authorization header, the user the token resolves
    to (none on an authentication error), and the decoded body (none
    when the body is not JSON). *)
Record GenRequest : Type := {
  gr_authorization : option string;
  gr_user : option string;
  gr_body : option json
}.

(** [story.description = story.description.substring(0, 5000) + '... [truncated]']
    when the description is longer than 5000. *)
Definition truncate_description (story : jsval) : result jsval :=
  let description := prop_opt "description" story in
  if truthy_opt description then
    match js_length description with
    | Some n =>
        if (5000 <? n)%nat then
          match description, story with
          | Some (JStr s), Some (JObj ps) =>
              Ok (Some (JObj (set_prop "description"
                                (Some (JStr (String.substring 0 5000 s ++ "... [truncated]")))
                                ps)))
          | _, _ => Raise TypeError
          end
        else Ok story
    | None => Ok story
    end
  else Ok story.

(** [customPrompt && customPrompt.trim()] *)
Definition custom_prompt_text (customPrompt : jsval) : result string :=
  if truthy_opt customPrompt then
    match customPrompt with
    | Some (JStr s) => Ok (trim s)
    | _ => Raise TypeError
    end
  else Ok "".

(** The image parts of the user message: [imageData.map(img => img.data)]
    when [imageData] is a non-empty array. *)
Definition image_urls (imageData : jsval) : result (list jsval) :=
  match imageData with
  | Some (JArr (img :: imgs)) => map_result (prop "data") (img :: imgs)
  | _ => Ok []
  end.

(** The object built for one parsed test case. *)
Definition enrich (story azureConfig : jsval) (now : string) (index : nat)
    (testCase : json) : result json :=
  let? id := prop "id" testCase in
  Ok (JObj
        (set_prop "source"
           (Some (JStr ("Azure OpenAI " ++ template (prop_opt "deploymentId" azureConfig))))
        (set_prop "generatedAt" (Some (JStr now))
        (set_prop "storyTitle" (prop_opt "title" story)
        (set_prop "storyId" (prop_opt "id" story)
        (set_prop "id"
           (or_js id (Some (JStr ("TC" ++ padStart3 (decimal (Z.of_nat (index + 1)))))))
           (spread testCase))))))).

Definition usage_log (user : string) (story : jsval) (success : bool) : M bool :=
  write (set_ai_usage_logs
           (fun rows =>
              rows ++ [{| ul_user_id := user;
                          ul_project_id := prop_opt "project_id" story;
                          ul_feature_type := "test_case_generation";
                          ul_success := success |}])).

(** The response of the [catch (parseError)] branch. *)
Definition parse_failure_response (content : string) : Response :=
  json_response 500
    [("error", JStr "Failed to parse generated test cases");
     ("details", JStr "Azure OpenAI response was not valid JSON");
     ("rawContent", JStr content)].

(** The block [try { JSON.parse(content) ... } catch (parseError) { ... }]:
    parse the completion text and answer. *)
Definition parse_branch (user : string) (story azureConfig : jsval) (now : string)
    (content : string) : M Response :=
  let attempt :=
    match JSON_parse content with
    | Some testCases => js_map_indexed (enrich story azureConfig now) (Some testCases)
    | None => Raise (ThrownError "SyntaxError")
    end in
  match attempt with
  | Ok enrichedTestCases =>
      ret (json_response 200
             (set_prop "story" story
                [("success", JBool true); ("testCases", JArr enrichedTestCases)]))
  | Raise _ =>
      effect (console_error "Failed to parse OpenAI response as JSON:") ;;;
      usage_log user story false ;;;
      ret (parse_failure_response content)
  end.

Definition bad_request (msg : string) : Response :=
  json_response 400 [("error", JStr msg)].

(** The outcome of the checks that precede the completion call: a
    response that ends the request, or the user, the story (with its
    description truncated) and the configuration to go on with. *)
Inductive Screening : Type :=
| Refused (response : Response)
| Accepted (user : string) (story azureConfig : jsval).

(** The handler up to the completion call (after the CORS pre-flight).
    The text of the prompt does not influence the modelled answer of
    the completion endpoint and is not built; the two places where
    building the request can throw are kept. *)
Definition screen_request (req : GenRequest) : M Screening :=
  match gr_authorization req with
  | None =>
      ret (Refused (json_response 401 [("error", JStr "Authorization header missing")]))
  | Some _ =>
  match gr_user req with
  | None =>
      effect (console_error "Auth error:") ;;;
      ret (Refused (json_response 401 [("error", JStr "Unauthorized")]))
  | Some user =>
  match gr_body req with
  | None => throw FetchError
  | Some body =>
      story <- lift (prop "story" body) ;;
      azureConfig <- lift (prop "azureConfig" body) ;;
      customPrompt <- lift (prop "customPrompt" body) ;;
      imageData <- lift (prop "imageData" body) ;;
      if negb (truthy_opt story) || negb (truthy_opt (prop_opt "title" story)) then
        ret (Refused (bad_request "Story data with title is required"))
      else if match js_length (prop_opt "title" story) with
              | Some n => (255 <? n)%nat
              | None => false
              end then
        ret (Refused
               (bad_request "Story title exceeds maximum length of 255 characters"))
      else
        story <- lift (truncate_description story) ;;
        if negb (truthy_opt azureConfig)
           || negb (truthy_opt (prop_opt "endpoint" azureConfig))
           || negb (truthy_opt (prop_opt "apiKey" azureConfig))
           || negb (truthy_opt (prop_opt "deploymentId" azureConfig)) then
          ret (Refused
                 (bad_request
                    "Azure OpenAI configuration is required (endpoint, apiKey, deploymentId)"))
        else
          lift (custom_prompt_text customPrompt) ;;;
          lift (image_urls imageData) ;;;
          ret (Accepted user story azureConfig)
  end end end.

(** The handler from the completion call on. *)
Definition answer_completion (user : string) (story azureConfig : jsval)
    (completion : Completion) (now : string) : M Response :=
  match completion with
  | CompletionThrows => throw FetchError
  | CompletionError status =>
      effect (console_error "Azure OpenAI API error:") ;;;
      ret (json_response status
             [("error", JStr ("Azure OpenAI API error: " ++ decimal (Z.of_nat status)))])
  | CompletionText content =>
      usage_log user story true ;;;
      parse_branch user story azureConfig now content
  end.

(** The [try] block of the handler; [now] is the clock's ISO time. *)
Definition generate_test_cases_try (req : GenRequest) (completion : Completion)
    (now : string) : M Response :=
  screening <- screen_request req ;;
  match screening with
  | Refused response => ret response
  | Accepted user story azureConfig =>
      answer_completion user story azureConfig completion now
  end.

(** The handler of [generate-test-cases]. *)
Definition generate_test_cases (req : GenRequest) (completion : Completion)
    (now : string) : World -> Response * World :=
  fun w =>
    match generate_test_cases_try req completion now w with
    | (Ok response, w') => (response, w')
    | (Raise e, w') =>
        (json_response 500
           [("error", JStr "Failed to generate test cases");
            ("details", JStr (error_message e))],
         console_error "Error in generate-test-cases function:" w')
    end.

(** The endpoint as the component calls it: the request carries the
    bearer token, [user] is the user the token resolves to. *)
Definition fetch_generate_test_cases (user : option string)
    (completion : Completion) (now : string) : json -> M json :=
  fun body w =>
    let '(response, w') :=
      generate_test_cases
        {| gr_authorization := Some "Bearer token"; gr_user := user;
           gr_body := Some body |}
        completion now w in
    (Ok (resp_body response), w').

End GenerateTestCases.

(* ================================================================== *)
(** * Report statistics: [generate-test-report] *)
(* ================================================================== *)

(** IEEE 754 double precision, as JavaScript numbers are. *)
Definition binary64 : Type := spec_float.
Definition b64_of_Z (n : Z) : binary64 := binary_normalize 53 1024 n 0 false.
Definition b64_div : binary64 -> binary64 -> binary64 := SFdiv 53 1024.
Definition b64_mul : binary64 -> binary64 -> binary64 := SFmul 53 1024.

(** [x.toFixed(1)], the decimal it prints given by its number of tenths:
    the integer [n] for which [n / 10 - x] is closest to zero, the larger
    one when there are two.  (No value for NaN and the infinities, which
    print no decimal.) *)
Definition toFixed1 (x : binary64) : option Z :=
  match x with
  | S754_zero _ => Some 0%Z
  | S754_finite s m e =>
      let n :=
        match e with
        | Zneg k => ((20 * Zpos m + 2 ^ Zpos k) / (2 * 2 ^ Zpos k))%Z
        | _ => (10 * Zpos m * 2 ^ e)%Z
        end in
      Some (if s then (- n)%Z else n)
  | _ => None
  end.

(** The value of [passRate]: the string of [toFixed(1)], or the number 0. *)
Inductive PassRate : Type :=
| Fixed1 (tenths : option Z)
| Zero.

(** [parseFloat(passRate)]: the double nearest to the printed decimal. *)
Definition parseFloat (r : PassRate) : binary64 :=
  match r with
  | Fixed1 (Some n) => b64_div (b64_of_Z n) (b64_of_Z 10)
  | Fixed1 None => S754_nan
  | Zero => S754_zero false
  end.

Record Statistics : Type := {
  totalTests : nat;
  passedTests : nat;
  failedTests : nat;
  blockedTests : nat;
  pendingTests : nat;
  passRate : binary64
}.

(** [testCases.filter(tc => tc.status === status).length] *)
Fixpoint count_status (status : string) (testCases : list json) : result nat :=
  match testCases with
  | [] => Ok 0%nat
  | tc :: rest =>
      let? st := prop "status" tc in
      let? n := count_status status rest in
      Ok (if is_str status st then S n else n)
  end.

(** [totalTests > 0 ? ((passedTests / totalTests) * 100).toFixed(1) : 0] *)
Definition passRate_of (passedTests totalTests : nat) : PassRate :=
  if (0 <? totalTests)%nat then
    Fixed1 (toFixed1 (b64_mul (b64_div (b64_of_Z (Z.of_nat passedTests))
                                       (b64_of_Z (Z.of_nat totalTests)))
                              (b64_of_Z 100)))
  else Zero.

(** The "Calculate statistics" block. *)
Definition statistics (testCases : list json) : result Statistics :=
  let totalTests := List.length testCases in
  let? passedTests := count_status "passed" testCases in
  let? failedTests := count_status "failed" testCases in
  let? blockedTests := count_status "blocked" testCases in
  let? pendingTests := count_status "pending" testCases in
  Ok {| totalTests := totalTests;
        passedTests := passedTests;
        failedTests := failedTests;
        blockedTests := blockedTests;
        pendingTests := pendingTests;
        passRate := parseFloat (passRate_of passedTests totalTests) |}.

(** The response of the report handler: the report with its statistics,
    or an error with its status. *)
Inductive ReportResponse : Type :=
| ReportOk (testReport : jsval) (stats : Statistics)
| ReportError (status : nat) (error : string).

Record ReportRequest : Type := {
  rr_authorization : option string;
  rr_user : option string;
  rr_body : option json
}.

(** What the completion call of the report gives: it throws (the call,
    the decoding, a non-2xx status, the selection of the first choice),
    or there is the narrative. *)
Inductive ReportCompletion : Type :=
| NarrativeThrows (e : exn)
| Narrative (testReport : jsval).

(** The defect block: [azureDevOpsData.defects.slice(0, 10).map(...)],
    entered when both [defects] and [metrics] are truthy. *)
Definition defect_lines (azureDevOpsData : jsval) : result unit :=
  if truthy_opt (prop_opt "defects" azureDevOpsData)
     && truthy_opt (prop_opt "metrics" azureDevOpsData) then
    match prop_opt "defects" azureDevOpsData with
    | Some (JArr defects) =>
        let? _ := map_result (prop "title") (firstn 10 defects) in Ok tt
    | _ => Raise TypeError
    end
  else Ok tt.

(** [openAIConfig.baseURL && openAIConfig.baseURL.includes('openai.azure.com')]:
    only a string or an array has [includes]. *)
Definition base_url_check (openAIConfig : jsval) : result unit :=
  let baseURL := prop_opt "baseURL" openAIConfig in
  if truthy_opt baseURL then
    match baseURL with
    | Some (JStr _) | Some (JArr _) => Ok tt
    | _ => Raise TypeError
    end
  else Ok tt.

Definition is_report_type (reportType : jsval) : bool :=
  is_str "executive" reportType || is_str "detailed" reportType
  || is_str "summary" reportType.

Definition report_usage_log (user : string) (projectId : jsval) : M bool :=
  write (set_ai_usage_logs
           (fun rows =>
              rows ++ [{| ul_user_id := user;
                          ul_project_id := projectId;
                          ul_feature_type := "test_report_generation";
                          ul_success := true |}])).

(** The [try] block of the report handler.  The prompt text and the
    request sent to the completion endpoint are not built; the places
    where building them can throw are kept. *)
Definition generate_test_report_try (req : ReportRequest) (completion : ReportCompletion)
    : M ReportResponse :=
  match rr_authorization req with
  | None => throw TypeError
  | Some _ =>
  match rr_user req with
  | None =>
      effect (console_error "Auth error:") ;;;
      ret (ReportError 401 "Unauthorized")
  | Some user =>
  match rr_body req with
  | None => throw FetchError
  | Some body =>
      testCases <- lift (prop "testCases" body) ;;
      projectName <- lift (prop "projectName" body) ;;
      reportType <- lift (prop "reportType" body) ;;
      projectId <- lift (prop "projectId" body) ;;
      azureDevOpsData <- lift (prop "azureDevOpsData" body) ;;
      openAIConfig <- lift (prop "openAIConfig" body) ;;
      if negb (truthy_opt openAIConfig) || negb (truthy_opt (prop_opt "apiKey" openAIConfig))
      then ret (ReportError 400 "OpenAI configuration is required")
      else
        match testCases with
        | Some (JArr (tc :: tcs)) =>
            match projectName with
            | Some (JStr name) =>
                if negb (nonempty name) || (255 <? String.length name)%nat then
                  ret (ReportError 400
                         "Project name is required and must be less than 255 characters")
                else if truthy_opt reportType && negb (is_report_type reportType) then
                  ret (ReportError 400
                         "Report type must be one of: executive, detailed, summary")
                else if (200 <? List.length (tc :: tcs))%nat then
                  ret (ReportError 400 "Maximum 200 test cases allowed per request")
                else
                  stats <- lift (statistics (tc :: tcs)) ;;
                  lift (defect_lines azureDevOpsData) ;;;
                  lift (base_url_check openAIConfig) ;;;
                  match completion with
                  | NarrativeThrows e => throw e
                  | Narrative testReport =>
                      report_usage_log user projectId ;;;
                      ret (ReportOk testReport stats)
                  end
            | _ =>
                ret (ReportError 400
                       "Project name is required and must be less than 255 characters")
            end
        | _ => ret (ReportError 400 "Test cases array is required")
        end
  end end end.

Section GenerateTestReport.

Variable error_message : exn -> string.

(** The handler of [generate-test-report]. *)
Definition generate_test_report (req : ReportRequest) (completion : ReportCompletion)
    : World -> ReportResponse * World :=
  fun w =>
    match generate_test_report_try req completion w with
    | (Ok response, w') => (response, w')
    | (Raise e, w') =>
        (ReportError 500 (error_message e),
         console_error "Error in generate-test-report function:" w')
    end.

End GenerateTestReport.

(* ================================================================== *)
(** * The story list of the [UserStories] component *)
(* ================================================================== *)

(** [s.startsWith(sub)] *)
Fixpoint starts_with (sub s : string) : bool :=
  match sub with
  | EmptyString => true
  | String a sub' =>
      match s with
      | EmptyString => false
      | String b s' => Ascii.eqb a b && starts_with sub' s'
      end
  end.

(** [s.includes(sub)]: [sub] starts at some position of [s]. *)
Fixpoint includes (s sub : string) : bool :=
  starts_with sub s
  || match s with
     | EmptyString => false
     | String _ r => includes r sub
     end.

(** An entry of the list with its [source] tag. *)
Record ListedStory : Type := {
  ls_story : UserStory;
  ls_source : string
}.

(** The filter states of the component. *)
Record StoryFilters : Type := {
  searchTerm : string;
  priorityFilter : string;
  statusFilter : string;
  sourceFilter : string
}.

(** The callback of [stories.filter(...)]. *)
Definition matchesFilters (f : StoryFilters) (story : ListedStory) : bool :=
  let matchesSearch :=
    includes (toLowerCase (st_title (ls_story story))) (toLowerCase (searchTerm f))
    || includes (toLowerCase (st_description (ls_story story)))
         (toLowerCase (searchTerm f)) in
  let matchesPriority :=
    String.eqb (priorityFilter f) "all"
    || String.eqb (st_priority (ls_story story)) (priorityFilter f) in
  let matchesStatus :=
    String.eqb (statusFilter f) "all"
    || String.eqb (st_status (ls_story story)) (statusFilter f) in
  let matchesSource :=
    String.eqb (sourceFilter f) "all" || String.eqb (ls_source story) (sourceFilter f) in
  matchesSearch && matchesPriority && matchesStatus && matchesSource.

Definition filteredStories (f : StoryFilters) (stories : list ListedStory)
    : list ListedStory :=
  filter (matchesFilters f) stories.

(** ** [getAccessibleProjects] *)

Record Project : Type := {
  pr_id : uuid;
  pr_name : string
}.

(** A row of [project_members] with its joined project, if any. *)
Record Membership : Type := {
  mb_project_id : uuid;
  mb_projects : option Project
}.

(** What a [select] does: the call throws, or it answers an [error], or
    the [data] (which can be [null]). *)
Inductive Selected (A : Type) : Type :=
| SelectThrows
| SelectError
| SelectData (data : option (list A)).
Arguments SelectThrows {A}.
Arguments SelectError {A}.
Arguments SelectData {A} data.

(** The callback of [memberProjects.forEach(...)]. *)
Definition addMembership (allProjects : list Project) (membership : Membership)
    : list Project :=
  match mb_projects membership with
  | Some p =>
      match find (fun q => Nat.eqb (pr_id q) (pr_id p)) allProjects with
      | Some _ => allProjects
      | None => allProjects ++ [{| pr_id := pr_id p; pr_name := pr_name p |}]
      end
  | None => allProjects
  end.

(** [getAccessibleProjects()], given what the two queries answer. *)
Definition getAccessibleProjects (logged_in : bool) (ownedProjects : Selected Project)
    (memberProjects : Selected Membership) (w : World) : list Project * World :=
  if negb logged_in then ([], w)
  else
    match ownedProjects with
    | SelectThrows => ([], console_error "Error in getAccessibleProjects:" w)
    | SelectError => ([], console_error "Error fetching owned projects:" w)
    | SelectData owned =>
        match memberProjects with
        | SelectThrows => ([], console_error "Error in getAccessibleProjects:" w)
        | SelectError => ([], console_error "Error fetching member projects:" w)
        | SelectData members =>
            let allProjects := match owned with Some ps => ps | None => [] end in
            (match members with
             | Some ms => fold_left addMembership ms allProjects
             | None => allProjects
             end, w)
        end
    end.

(** ** [handleAddStory] *)

(** The form of the "add story" dialog. *)
Record NewStory : Type := {
  ns_title : string;
  ns_description : string;
  ns_acceptanceCriteria : string;
  ns_priority : string
}.

Definition blank_form : NewStory :=
  {| ns_title := ""; ns_description := ""; ns_acceptanceCriteria := "";
     ns_priority := "medium" |}.

Definition toast_fill_in : Toast :=
  {| toast_title := "Error";
     toast_description := "Please fill in title and description";
     toast_destructive := true |}.

Definition toast_log_in : Toast :=
  {| toast_title := "Error";
     toast_description := "Please make sure you're logged in";
     toast_destructive := true |}.

Definition toast_story_created : Toast :=
  {| toast_title := "Success";
     toast_description := "User story created and saved to database";
     toast_destructive := false |}.

Definition toast_create_failed : Toast :=
  {| toast_title := "Error";
     toast_description := "Failed to create user story";
     toast_destructive := true |}.

(** The columns the form gives to the new row. *)
Definition form_payload (newStory : NewStory) : StoryPayload :=
  {| sp_description := Some (JStr (ns_description newStory));
     sp_acceptance_criteria := Some (JStr (ns_acceptanceCriteria newStory));
     sp_priority := Some (JStr (ns_priority newStory));
     sp_status := Some (JStr "draft") |}.

Definition story_row (id project : uuid) (title : string) (p : StoryPayload)
    : UserStoryRow :=
  {| us_id := id; us_project_id := project; us_title := title;
     us_description := sp_description p;
     us_acceptance_criteria := sp_acceptance_criteria p;
     us_priority := sp_priority p;
     us_status := sp_status p |}.

(** [insert({...}).select().single()]: the [data] is the inserted row,
    or there is an [error] and no data. *)
Definition insert_story_returning (project : uuid) (title : string) (p : StoryPayload)
    : M (option UserStoryRow) :=
  fun w =>
    let w0 := set_faults (tl (faults w)) w in
    if hd false (faults w) then (Ok None, w0)
    else
      let row := story_row (next_id w) project title p in
      (Ok (Some row),
       set_next_id (S (next_id w)) (set_user_stories (fun rows => rows ++ [row]) w0)).

(** A text column as the list holds it: [v || ''] for a column that is
    a string or [null]. *)
Definition text_or_empty (v : jsval) : string :=
  match v with
  | Some (JStr s) => s
  | _ => ""
  end.

(** The [newUserStory] built from the returned row. *)
Definition newUserStory (data : UserStoryRow) : UserStory :=
  {| st_id := us_id data; st_title := us_title data;
     st_description := text_or_empty (us_description data);
     st_acceptanceCriteria := text_or_empty (us_acceptance_criteria data);
     st_priority := text_or_empty (us_priority data);
     st_status := text_or_empty (us_status data);
     st_testCasesGenerated := 0 |}.

(** The [try] block of [handleAddStory]: the answer is the component's
    list and form afterwards. *)
Definition add_try (project : uuid) (newStory : NewStory) (stories : list UserStory)
    : M (list UserStory * NewStory) :=
  data <- insert_story_returning project (ns_title newStory) (form_payload newStory) ;;
  match data with
  | None => throw (ThrownError "error")
  | Some data =>
      effect (toast toast_story_created) ;;;
      ret (newUserStory data :: stories, blank_form)
  end.

(** [handleAddStory()].  [logged_in] is [session?.user?.id]. *)
Definition handleAddStory (logged_in : bool) (currentProject : option uuid)
    (newStory : NewStory) (stories : list UserStory)
    : World -> (list UserStory * NewStory) * World :=
  fun w =>
    if negb (nonempty (ns_title newStory)) || negb (nonempty (ns_description newStory))
    then ((stories, newStory), toast toast_fill_in w)
    else
      match logged_in, currentProject with
      | true, Some project =>
          match add_try project newStory stories w with
          | (Ok out, w') => (out, w')
          | (Raise _, w') =>
              ((stories, newStory),
               toast toast_create_failed (console_error "Error creating story:" w'))
          end
      | _, _ => ((stories, newStory), toast toast_log_in w)
      end.

(* ================================================================== *)
(** * The [TestCases] component *)
(* ================================================================== *)

(** [s.split('\n')]: the pieces between the line feeds; there is always
    at least one piece. *)
Fixpoint split_lines (s : string) : list string :=
  match s with
  | EmptyString => [EmptyString]
  | String c r =>
      if Ascii.eqb c "010" then EmptyString :: split_lines r
      else
        match split_lines r with
        | piece :: pieces => String c piece :: pieces
        | [] => [String c EmptyString]
        end
  end.

(** The callback [step => step.trim()], by truthiness. *)
Definition nonblank (step : string) : bool := nonempty (trim step).

(** [tc.steps ? tc.steps.split('\n').filter(step => step.trim()) : []]
    of [loadTestCases]. *)
Definition loaded_steps (steps : jsval) : result (list string) :=
  if truthy_opt steps then
    match steps with
    | Some (JStr s) => Ok (filter nonblank (split_lines s))
    | _ => Raise TypeError
    end
  else Ok [].

(** ** The spreadsheet import: [handleFileUpload] up to its queries *)

(** A test case read from a row of the sheet. *)
Record ImportedCase : Type := {
  ic_testId : jsval;
  ic_title : jsval;
  ic_description : jsval;
  ic_steps : list string;
  ic_expectedResult : jsval;
  ic_priority : string;
  ic_userStoryTitle : jsval;
  ic_project_id : uuid
}.

(** [['low', 'medium', 'high'].includes(p)] *)
Definition is_priority (p : string) : bool :=
  String.eqb p "low" || String.eqb p "medium" || String.eqb p "high".

(** The body of the validation loop for the row at index [i]; a row is
    the object [sheet_to_json] makes of a line, keyed by the column
    headers.  The answer is the error message pushed to [errors], or the
    test case pushed to [validTestCases]. *)
Definition import_row (projectId : uuid) (i : nat) (row : list (string * json))
    : result (string + ImportedCase) :=
  let rowNum := decimal (Z.of_nat (i + 2)) in
  if negb (truthy_opt (assoc "title" row)) && negb (truthy_opt (assoc "Title" row))
     && negb (truthy_opt (assoc "TITLE" row))
  then Ok (inl ("Row " ++ rowNum ++ ": Title is required")%string)
  else if negb (truthy_opt (assoc "user_story_title" row))
          && negb (truthy_opt (assoc "User Story Title" row))
          && negb (truthy_opt (assoc "USER STORY TITLE" row))
  then Ok (inl ("Row " ++ rowNum ++ ": User Story Title is required")%string)
  else
    let userStoryTitle :=
      or_js (or_js (assoc "user_story_title" row) (assoc "User Story Title" row))
            (assoc "USER STORY TITLE" row) in
    let steps :=
      or_js (or_js (or_js (assoc "steps" row) (assoc "Steps" row)) (assoc "STEPS" row))
            (Some (JStr "")) in
    let? priority :=
      toLowerCase_of
        (or_js (or_js (or_js (assoc "priority" row) (assoc "Priority" row))
                      (assoc "PRIORITY" row))
               (Some (JStr "medium"))) in
    Ok (inr {| ic_testId :=
                 or_js (or_js (or_js (or_js (assoc "test_id" row) (assoc "Test ID" row))
                                     (assoc "TEST ID" row))
                              (assoc "TestID" row))
                       (assoc "testId" row);
               ic_title :=
                 or_js (or_js (assoc "title" row) (assoc "Title" row)) (assoc "TITLE" row);
               ic_description :=
                 or_js (or_js (or_js (assoc "description" row) (assoc "Description" row))
                              (assoc "DESCRIPTION" row))
                       (Some (JStr ""));
               ic_steps := filter nonblank (split_lines (template steps));
               ic_expectedResult :=
                 or_js (or_js (or_js (assoc "expected_result" row)
                                     (assoc "Expected Result" row))
                              (assoc "EXPECTED RESULT" row))
                       (Some (JStr ""));
               ic_priority := if is_priority priority then priority else "medium";
               ic_userStoryTitle := userStoryTitle;
               ic_project_id := projectId |}).

(** The validation loop: [validTestCases] and [errors] after the rows
    from index [i] on. *)
Fixpoint import_rows (projectId : uuid) (i : nat) (rows : list (list (string * json)))
    : result (list ImportedCase * list string) :=
  match rows with
  | [] => Ok ([], [])
  | row :: rest =>
      let? r := import_row projectId i row in
      let? out := import_rows projectId (S i) rest in
      Ok (match r with
          | inl e => (fst out, e :: snd out)
          | inr testCase => (testCase :: fst out, snd out)
          end)
  end.

(** [name.match(/\.(xlsx|xls)$/)] *)
Definition ends_with (suffix s : string) : bool :=
  let n := String.length s in
  let m := String.length suffix in
  (m <=? n)%nat && String.eqb (String.substring (n - m) m s) suffix.

Definition is_excel_name (name : string) : bool :=
  ends_with ".xlsx" name || ends_with ".xls" name.

(** What reading the first sheet of the file gives: the reading throws,
    or there are the rows. *)
Inductive SheetRead : Type :=
| SheetThrows
| SheetRows (jsonData : list (list (string * json))).

Definition toast_invalid_file : Toast :=
  {| toast_title := "Invalid File";
     toast_description := "Please select an Excel file (.xlsx or .xls)";
     toast_destructive := true |}.

Definition toast_empty_file : Toast :=
  {| toast_title := "Empty File";
     toast_description := "The Excel file appears to be empty";
     toast_destructive := true |}.

Definition toast_import_errors (errors : list string) : Toast :=
  {| toast_title := "Import Errors";
     toast_description :=
       decimal (Z.of_nat (List.length errors)) ++ " rows had errors. First error: "
       ++ hd "undefined" errors;
     toast_destructive := true |}.

Definition toast_no_valid_data : Toast :=
  {| toast_title := "No Valid Data";
     toast_description := "No valid test cases found in the Excel file";
     toast_destructive := true |}.

Definition toast_import_failed : Toast :=
  {| toast_title := "Import Failed";
     toast_description := "Failed to import test cases from Excel file";
     toast_destructive := true |}.

(** How [handleFileUpload] gets to its queries: it returns before
    them, or it goes on with the validated test cases. *)
Inductive ImportScreening : Type :=
| ImportStopped
| ImportProceeds (validTestCases : list ImportedCase).

(** [handleFileUpload] from the choice of the file to the end of the
    validation; [file] is the chosen file, by its name and what reading
    it gives. *)
Definition import_screening (projectId : uuid) (file : option (string * SheetRead))
    : World -> ImportScreening * World :=
  fun w =>
    match file with
    | None => (ImportStopped, w)
    | Some (name, read) =>
        if negb (is_excel_name name) then (ImportStopped, toast toast_invalid_file w)
        else
          let failed :=
            (ImportStopped,
             toast toast_import_failed (console_error "Error importing Excel file:" w)) in
          match read with
          | SheetThrows => failed
          | SheetRows [] => (ImportStopped, toast toast_empty_file w)
          | SheetRows jsonData =>
              match import_rows projectId 0 jsonData with
              | Raise _ => failed
              | Ok (validTestCases, errors) =>
                  if (0 <? List.length errors)%nat
                  then (ImportStopped, toast (toast_import_errors errors) w)
                  else if Nat.eqb (List.length validTestCases) 0
                  then (ImportStopped, toast toast_no_valid_data w)
                  else (ImportProceeds validTestCases, w)
              end
          end
    end.

(** The stories [select('id, title').eq('project_id', projectId)]
    finds. *)
Definition project_stories (projectId : uuid) (w : World) : list UserStoryRow :=
  filter (fun r => Nat.eqb (us_project_id r) projectId) (user_stories w).

(** [userStories?.find(story => story.title.toLowerCase() ===
    testCase.userStoryTitle.toLowerCase())]: the callback throws on a
    title of the sheet that is not a string. *)
Definition matchingStory (userStories : list UserStoryRow) (testCase : ImportedCase)
    : result (option UserStoryRow) :=
  match userStories with
  | [] => Ok None
  | _ =>
      let? title := toLowerCase_of (ic_userStoryTitle testCase) in
      Ok (find (fun story => String.eqb (toLowerCase (us_title story)) title) userStories)
  end.

(* ================================================================== *)
(** * The [jira-integration] endpoint *)
(* ================================================================== *)

(** [v.k] on a value that may be [undefined]. *)
Definition get (k : string) (v : jsval) : result jsval :=
  match v with
  | Some x => prop k x
  | None => Raise TypeError
  end.

(** The class [[a-zA-Z0-9_-]]. *)
Definition is_key_char (c : ascii) : bool :=
  let n := nat_of_ascii c in
  (((97 <=? n) && (n <=? 122)) || ((65 <=? n) && (n <=? 90))
   || ((48 <=? n) && (n <=? 57)) || (n =? 95) || (n =? 45))%nat.

(** [projectKey.replace(/[^a-zA-Z0-9_-]/g, '')] *)
Fixpoint sanitizeProjectKey (projectKey : string) : string :=
  match projectKey with
  | EmptyString => EmptyString
  | String c r =>
      if is_key_char c then String c (sanitizeProjectKey r) else sanitizeProjectKey r
  end.

(** The class [[^\s@]]. *)
Definition is_address_char (c : ascii) : bool :=
  negb (is_space c) && negb (Ascii.eqb c "@").

Fixpoint all_chars (p : ascii -> bool) (s : string) : bool :=
  match s with
  | EmptyString => true
  | String c r => p c && all_chars p r
  end.

(** [[^\s@]+\.[^\s@]+$] read from the start of [s]: [s] is made of
    address characters and has a dot that is neither its first nor its
    last character. *)
Fixpoint has_inner_dot (s : string) : bool :=
  match s with
  | String _ (String c r as rest) =>
      (Ascii.eqb c "." && nonempty r) || has_inner_dot rest
  | _ => false
  end.

(** The part of [s] before its first [@], and the part after it. *)
Fixpoint split_at_sign (s : string) : option (string * string) :=
  match s with
  | EmptyString => None
  | String c r =>
      if Ascii.eqb c "@" then Some (EmptyString, r)
      else
        match split_at_sign r with
        | Some (a, b) => Some (String c a, b)
        | None => None
        end
  end.

(** [/^[^\s@]+@[^\s@]+\.[^\s@]+$/.test(email)] *)
Definition emailRegex_test (email : string) : bool :=
  match split_at_sign email with
  | Some (local, domain) =>
      nonempty local && all_chars is_address_char local
      && all_chars is_address_char domain && has_inner_dot domain
  | None => false
  end.

(** What the call of the tracker's search gives: the call (or the
    decoding of its body) throws, the status is not a 2xx one, or there
    is the decoded body. *)
Inductive JiraFetch : Type :=
| JiraThrows
| JiraNotOk (status : nat) (errorText : string)
| JiraJson (data : json).

(** The callback of [issues.map(...)]: the story made of an issue. *)
Definition jiraIssueStory (issue : json) : result json :=
  let? key := prop "key" issue in
  let? fields := prop "fields" issue in
  let? summary := get "summary" fields in
  let? description := get "description" fields in
  let? priority := get "priority" fields in
  let? status := get "status" fields in
  let? issuetype := get "issuetype" fields in
  Ok (JObj (optional "id" key
            ++ optional "title" summary
            ++ optional "description"
                 (or_js description (Some (JStr "No description provided")))
            ++ optional "priority"
                 (or_js (prop_opt "name" priority) (Some (JStr "Medium")))
            ++ optional "status" (or_js (prop_opt "name" status) (Some (JStr "To Do")))
            ++ [("source", JStr "Jira")]
            ++ optional "issueType"
                 (or_js (prop_opt "name" issuetype) (Some (JStr "Story")))
            ++ optional "jiraKey" key)).

(** The address of the search: the issues of the project, by the
    sanitized key. *)
Definition jiraApiUrl (jiraUrl : string) (projectKey : string) : string :=
  jiraUrl ++ "/rest/api/3/search?jql=project=" ++ sanitizeProjectKey projectKey
  ++ "&fields=summary,description,issuetype,priority,status&maxResults=50".

(** [v.length > n] *)
Definition longer_than (n : nat) (v : jsval) : bool :=
  match js_length v with
  | Some m => (n <? m)%nat
  | None => false
  end.

Section JiraIntegration.

(** [new URL(s).protocol]; [None] when the constructor throws. *)
Variable URL_protocol : string -> option string.

Variable error_message : exn -> string.

(** The [try] block of the handler; [body] is the decoded request body
    (none when it is not JSON), [fetch] the call of the tracker at an
    address. *)
Definition jira_integration_try (body : option json) (fetch : string -> JiraFetch)
    : M Response :=
  match body with
  | None => throw FetchError
  | Some body =>
      jiraUrl <- lift (prop "jiraUrl" body) ;;
      email <- lift (prop "email" body) ;;
      apiToken <- lift (prop "apiToken" body) ;;
      projectKey <- lift (prop "projectKey" body) ;;
      if negb (truthy_opt jiraUrl) || negb (truthy_opt email)
         || negb (truthy_opt apiToken) || negb (truthy_opt projectKey)
      then
        ret (bad_request
               "Missing required parameters: jiraUrl, email, apiToken, projectKey")
      else if negb match URL_protocol (template jiraUrl) with
                   | Some protocol => starts_with "http" protocol
                   | None => false
                   end
      then ret (bad_request "Invalid Jira URL format")
      else if negb (emailRegex_test (template email))
      then ret (bad_request "Invalid email format")
      else if longer_than 500 jiraUrl || longer_than 100 email
              || longer_than 500 apiToken || longer_than 50 projectKey
      then ret (bad_request "Input parameters exceed maximum length")
      else
        match projectKey with
        | Some (JStr key) =>
            match fetch (jiraApiUrl (template jiraUrl) key) with
            | JiraThrows => throw FetchError
            | JiraNotOk status errorText =>
                effect (console_error "Jira API error:") ;;;
                ret (json_response status
                       [("error", JStr ("Jira API error: " ++ decimal (Z.of_nat status)));
                        ("details", JStr errorText)])
            | JiraJson data =>
                issues <- lift (prop "issues" data) ;;
                userStories <- lift (js_map jiraIssueStory
                                       (or_js issues (Some (JArr [])))) ;;
                total <- lift (prop "total" data) ;;
                ret (json_response 200
                       ([("success", JBool true); ("stories", JArr userStories)]
                        ++ optional "totalCount"
                             (or_js total
                                (Some (JNum (Z.of_nat (List.length userStories)))))))
            end
        | _ => throw TypeError
        end
  end.

(** The handler of [jira-integration] (after the CORS pre-flight). *)
Definition jira_integration (body : option json) (fetch : string -> JiraFetch)
    : World -> Response * World :=
  fun w =>
    match jira_integration_try body fetch w with
    | (Ok response, w') => (response, w')
    | (Raise e, w') =>
        (json_response 500
           [("error", JStr "Failed to fetch Jira issues");
            ("details", JStr (error_message e))],
         console_error "Error in jira-integration function:" w')
    end.

End JiraIntegration.

(** The story of a provider's answer as the synchronization reads it:
    its [title], [description], [acceptanceCriteria], [priority] and
    [status] (for a title that is a string). *)
Definition fetched_story (story : json) : option FetchedStory :=
  match prop_opt "title" (Some story) with
  | Some (JStr title) =>
      Some {| fs_title := title;
              fs_description := prop_opt "description" (Some story);
              fs_acceptanceCriteria := prop_opt "acceptanceCriteria" (Some story);
              fs_priority := prop_opt "priority" (Some story);
              fs_status := prop_opt "status" (Some story) |}
  | _ => None
  end.



(* ================================================================== *)
(** * Predicates of the statements *)
(* ================================================================== *)

(** The run ended with the "Test Cases Generated & Saved" toast. *)
Definition reports_generated (w w' : World) : Prop :=
  exists n, toasts w' = toasts w ++ [toast_generated n].

(** The identifiers of the test cases were all handed out by the counter. *)
Definition ids_fresh (w : World) : Prop :=
  Forall (fun r => tc_id r < next_id w) (test_cases w).

(** The computation leaves the test cases and the stories as they are. *)
Definition keeps_tables {A} (m : M A) : Prop :=
  forall w, test_cases (snd (m w)) = test_cases w
            /\ user_stories (snd (m w)) = user_stories w.

(** The completion text does not parse as a JSON array. *)
Definition not_json_array (parsed : option json) : Prop :=
  forall xs, parsed <> Some (JArr xs).

(** Two states that differ at most in the console. *)
Definition same_store (w1 w2 : World) : Prop :=
  user_stories w1 = user_stories w2 /\ test_cases w1 = test_cases w2 /\
  ai_usage_logs w1 = ai_usage_logs w2 /\ next_id w1 = next_id w2 /\
  faults w1 = faults w2 /\ toasts w1 = toasts w2.


(** The number of stories of the project that carry the title. *)
Definition matches (project : uuid) (title : string) (w : World) : nat :=
  List.length (filter (story_matches project title) (user_stories w)).

(** No two stories of the project share a title. *)
Definition titles_unique (project : uuid) (w : World) : Prop :=
  forall title, matches project title w <= 1.

(** No write statement of the script fails.  (The look-ups are not
    scripted: [select_story_by_title] is the look-up that is answered.) *)
Definition reliable (w : World) : Prop := Forall (fun b => b = false) (faults w).

(** The stories of a feed that the loop gets to: those before the first
    one whose column values cannot be built. *)
Fixpoint reached (payload : FetchedStory -> result StoryPayload)
    (fetched : list FetchedStory) : list FetchedStory :=
  match fetched with
  | [] => []
  | story :: rest =>
      match payload story with
      | Ok _ => story :: reached payload rest
      | Raise _ => []
      end
  end.

Definition reply_titles (payload : FetchedStory -> result StoryPayload) (reply : Reply)
    : list string :=
  match reply with
  | Data true (Some fetched) => map fs_title (reached payload fetched)
  | _ => []
  end.

(** The titles a run of both providers gets to. *)
Definition run_titles (savedConfigs : SavedConfigs) (jiraReply azureReply : Reply)
    : list string :=
  (if jira_ready savedConfigs then reply_titles jira_payload jiraReply else [])
  ++ (if azure_ready savedConfigs then reply_titles azure_payload azureReply else []).

(** The second state has the rows of the first, with the same
    identifiers and titles, and has handed out no new identifier: only
    updates took place in between. *)
Definition only_updates (w w' : World) : Prop :=
  map us_id (user_stories w') = map us_id (user_stories w) /\
  map us_title (user_stories w') = map us_title (user_stories w) /\
  next_id w' = next_id w.

(** The store stays reliable and without duplicate titles, and every
    title that had its row keeps it. *)
Definition settled (project : uuid) (w w' : World) : Prop :=
  titles_unique project w' /\ reliable w' /\
  (forall t, matches project t w = 1 -> matches project t w' = 1).

(** [tenths / 10] is a one-decimal number nearest to the percentage
    [passed / total * 100]: it is within 0.05 of it. *)
Definition nearest_tenth (tenths : Z) (passed total : nat) : Prop :=
  (2 * Z.abs (tenths * Z.of_nat total - 1000 * Z.of_nat passed) <= Z.of_nat total)%Z.

(** The number is neither NaN nor infinite. *)
Definition is_finite (x : binary64) : bool :=
  match x with
  | S754_zero _ | S754_finite _ _ _ => true
  | _ => false
  end.

(** The check of [nearest_tenth] and [is_finite] for one pair of counts. *)
Definition rate_ok (passed total : nat) : bool :=
  match passRate_of passed total with
  | Fixed1 (Some n) =>
      (2 * Z.abs (n * Z.of_nat total - 1000 * Z.of_nat passed) <=? Z.of_nat total)%Z
      && is_finite (parseFloat (Fixed1 (Some n)))
  | _ => false
  end.

(** The columns that identify a story row. *)
Definition story_key (r : UserStoryRow) : uuid * uuid * string :=
  (us_id r, us_project_id r, us_title r).

(** The second state keeps the stories of the first, in their order,
    each with its identifier, project and title; what is new comes
    after them and belongs to the given project.  The test cases and
    the usage log are the same. *)
Definition keeps_stories (project : option uuid) (w w' : World) : Prop :=
  (exists added,
      map story_key (user_stories w')
      = map story_key (user_stories w) ++ map story_key added /\
      Forall (fun r => Some (us_project_id r) = project) added) /\
  test_cases w' = test_cases w /\
  ai_usage_logs w' = ai_usage_logs w.

(** Identifiers are a primary key handed out by the counter. *)
Definition ids_unique (w : World) : Prop :=
  NoDup (map us_id (user_stories w)) /\
  Forall (fun r => us_id r < next_id w) (user_stories w).

(** The stories of the other projects. *)
Definition elsewhere (project : uuid) (w : World) : list UserStoryRow :=
  filter (fun r => negb (Nat.eqb (us_project_id r) project)) (user_stories w).

(** The number of occurrences of a character. *)
Fixpoint count_char (c : ascii) (s : string) : nat :=
  match s with
  | EmptyString => 0
  | String c' r => (if Ascii.eqb c' c then 1 else 0) + count_char c r
  end.

(** The test case belongs to the story of the run, in the project of
    the run (to none when no project is selected). *)
Definition in_pair (storyId : uuid) (currentProject : option uuid) (r : TestCaseRow) : bool :=
  match currentProject with
  | Some project => of_story_in_project storyId project r
  | None => false
  end.

(** The run ended with the "Generation Failed" toast. *)
Definition reports_failure (w w' : World) : Prop :=
  toasts w' = toasts w ++ [toast_generation_failed].

(** The usage row that the generation endpoint writes. *)
Definition generation_log (user : string) (story : jsval) (success : bool) : UsageLog :=
  {| ul_user_id := user; ul_project_id := prop_opt "project_id" story;
     ul_feature_type := "test_case_generation"; ul_success := success |}.



(** The test case carries the status: [tc.status === status]. *)
Definition has_status (status : string) (tc : json) : bool :=
  is_str status (prop_opt "status" (Some tc)).

(** The test case falls in none of the four counters of the report. *)
Definition uncounted (tc : json) : bool :=
  negb (has_status "passed" tc || has_status "failed" tc
        || has_status "blocked" tc || has_status "pending" tc).

(** The usage row that the report endpoint writes. *)
Definition report_log (user : string) (projectId : jsval) : UsageLog :=
  {| ul_user_id := user; ul_project_id := projectId;
     ul_feature_type := "test_report_generation"; ul_success := true |}.

(** The default state of the filters: no search term, every priority,
    status and source. *)
Definition no_filter (f : StoryFilters) : Prop :=
  searchTerm f = "" /\ priorityFilter f = "all" /\ statusFilter f = "all"
  /\ sourceFilter f = "all".

(** The run of [handleAddStory] ended with the "Success" toast. *)
Definition reports_created (w w' : World) : Prop :=
  toasts w' = toasts w ++ [toast_story_created].

(** A step as the list shows it: one line, not blank. *)
Definition clean_step (step : string) : Prop :=
  split_lines step = [step] /\ nonblank step = true.

(** None of the three spellings of the column has a value. *)
Definition lacks (a b c : string) (row : list (string * json)) : bool :=
  negb (truthy_opt (assoc a row)) && negb (truthy_opt (assoc b row))
  && negb (truthy_opt (assoc c row)).

(** The row misses one of the two required columns. *)
Definition incomplete_row (row : list (string * json)) : bool :=
  lacks "title" "Title" "TITLE" row
  || lacks "user_story_title" "User Story Title" "USER STORY TITLE" row.

(** A field of an issue and its [name], as [issue.fields.k?.name]
    reads them. *)
Definition issue_field (k : string) (issue : json) : jsval :=
  prop_opt k (prop_opt "fields" (Some issue)).

Definition issue_field_name (k : string) (issue : json) : jsval :=
  prop_opt "name" (issue_field k issue).

(** ['System.State'] of the work item is a string, or it is missing
    ([undefined] or [null]). *)
Definition state_is_text (workItem : AzureDevOpsWorkItem) : Prop :=
  match assoc "System.State" (wi_fields workItem) with
  | None | Some JNull | Some (JStr _) => True
  | Some _ => False
  end.




(* ================================================================== *)
(** * Scenarios *)
(* ================================================================== *)

(** Two descriptions in the rich-text format: a paragraph with a marked
    leaf and an empty leaf followed by a heading with attributes, and a
    paragraph whose middle leaf is empty. *)
Definition checkout_description : list adf :=
  [ANode "paragraph" None
     [AText "As a guest" None;
      AText "I want to check out" (Some (JArr [JObj [("type", JStr "strong")]]));
      AText "" None];
   ANode "heading" (Some (JObj [("level", JNum 2)])) [AText "without registering" None]].

Definition gapped_description : list adf :=
  [ANode "paragraph" None [AText "a" None; AText "" None; AText "b" None]].

(** A story row and a test-case row with plain column values, and a
    state with given tables. *)
Definition demo_story_row (id project : uuid) (title : string) : UserStoryRow :=
  {| us_id := id; us_project_id := project; us_title := title;
     us_description := Some (JStr ""); us_acceptance_criteria := Some (JStr "");
     us_priority := Some (JStr "medium"); us_status := Some (JStr "draft") |}.

Definition demo_test_case (id project : uuid) (story : option uuid) (title : string)
    : TestCaseRow :=
  {| tc_id := id; tc_project_id := project; tc_user_story_id := story;
     tc_title := Some (JStr title); tc_description := Some (JStr "");
     tc_steps := Some (JStr ""); tc_expected_result := Some (JStr "");
     tc_priority := "medium"; tc_status := "not-run" |}.

Definition demo_world (us : list UserStoryRow) (tcs : list TestCaseRow) (next : uuid)
    (fs : list bool) : World :=
  {| user_stories := us; test_cases := tcs; ai_usage_logs := []; next_id := next;
     faults := fs; console := []; toasts := [] |}.

Definition demo_delete_world : World :=
  demo_world [demo_story_row 1 0 "Guest Checkout"; demo_story_row 2 0 "Login"]
    [demo_test_case 3 0 (Some 1) "TC1"; demo_test_case 4 0 (Some 2) "TC2";
     demo_test_case 5 0 None "TC3"] 6 [].

(** A well-formed request to the generation endpoint. *)
Definition demo_request : GenRequest :=
  {| gr_authorization := Some "Bearer token";
     gr_user := Some "user-1";
     gr_body :=
       Some (JObj [("story", JObj [("id", JStr "1"); ("title", JStr "Guest Checkout")]);
                   ("azureConfig",
                    JObj [("endpoint", JStr "https://example.openai.azure.com");
                          ("apiKey", JStr "key"); ("deploymentId", JStr "gpt-4o")])]) |}.

(** The story of the scenario as the component lists it, and the saved
    configuration of the completion endpoint. *)
Definition checkout_story : UserStory :=
  {| st_id := 1; st_title := "Guest Checkout";
     st_description := "As a guest I want to check out without registering";
     st_acceptanceCriteria := ""; st_priority := "medium"; st_status := "draft";
     st_testCasesGenerated := 0 |}.

Definition checkout_configs : SavedConfigs :=
  {| cfg_jira := None; cfg_azure_devops := None;
     cfg_openai := Some {| oa_endpoint := "https://example.openai.azure.com";
                           oa_apiKey := "key"; oa_deploymentId := "gpt-4o";
                           oa_apiVersion := "2024-02-15-preview" |} |}.

(** Project 0 ("Checkout") with the story and no test case yet. *)
Definition checkout_world : World :=
  demo_world [demo_story_row 1 0 "Guest Checkout"] [] 2 [].

(** The same project after an earlier generation: the story has a test
    case titled as one of the new ones, another story has one too. *)
Definition checkout_world_again : World :=
  demo_world [demo_story_row 1 0 "Guest Checkout"; demo_story_row 2 0 "Login"]
    [demo_test_case 3 0 (Some 1) "Guest pays by card";
     demo_test_case 4 0 (Some 2) "Login works"] 5 [].

(** The two well-formed test cases of the stub completion. *)
Definition stub_test_cases : json :=
  JArr [JObj [("id", JStr "TC001"); ("title", JStr "Guest pays by card");
              ("description", JStr "A guest completes the payment");
              ("priority", JStr "High");
              ("steps", JArr [JStr "Open the cart"; JStr "Pay by card"]);
              ("expectedResult", JStr "The order is placed")];
        JObj [("title", JStr "Guest leaves the e-mail empty");
              ("priority", JStr "medium");
              ("steps", JArr [JStr "Open the cart"; JStr "Submit"]);
              ("expectedResult", JStr "An error is shown")]].

Definition stub_data : json :=
  JObj [("success", JBool true); ("testCases", stub_test_cases)].

(** The rows expected for the two test cases of the stub. *)
Definition stub_rows (first : uuid) : list TestCaseRow :=
  [ {| tc_id := first; tc_project_id := 0; tc_user_story_id := Some 1;
       tc_title := Some (JStr "Guest pays by card");
       tc_description := Some (JStr "A guest completes the payment");
       tc_steps := Some (JStr ("Open the cart" ++ newline ++ "Pay by card"));
       tc_expected_result := Some (JStr "The order is placed");
       tc_priority := "high"; tc_status := "draft" |};
    {| tc_id := S first; tc_project_id := 0; tc_user_story_id := Some 1;
       tc_title := Some (JStr "Guest leaves the e-mail empty");
       tc_description := Some (JStr "");
       tc_steps := Some (JStr ("Open the cart" ++ newline ++ "Submit"));
       tc_expected_result := Some (JStr "An error is shown");
       tc_priority := "medium"; tc_status := "draft" |} ].

(** A fetched story with the given title. *)
Definition fetched (title : string) : FetchedStory :=
  {| fs_title := title; fs_description := Some (JStr "As a user I want to log in");
     fs_acceptanceCriteria := None; fs_priority := Some (JStr "high");
     fs_status := Some (JStr "active") |}.

(** Project 0 holds one story, titled in lower case. *)
Definition login_world : World := demo_world [demo_story_row 1 0 "login"] [] 2 [].

(** Saved configurations: the work-item tracker alone, and both
    trackers. *)
Definition azure_only : SavedConfigs :=
  {| cfg_jira := None;
     cfg_azure_devops :=
       Some {| az_enabled := true; az_organizationUrl := "https://dev.azure.com/acme";
               az_projectName := "Shop"; az_personalAccessToken := "pat" |};
     cfg_openai := None |}.

(** Project 0 holds two stories with the same title, both created by
    hand. *)
Definition twins_world : World :=
  demo_world [demo_story_row 1 0 "Guest Checkout"; demo_story_row 2 0 "Guest Checkout"]
    [] 3 [].

(** A feed that answers the same single story on every run. *)
Definition stable_feed : Reply := Data true (Some [fetched "Guest Checkout"]).


(** A request to the report endpoint for the given test cases. *)
Definition report_body (testCases : list json) : json :=
  JObj [("testCases", JArr testCases); ("projectName", JStr "Checkout");
        ("openAIConfig", JObj [("apiKey", JStr "key")])].

Definition report_request (testCases : list json) : ReportRequest :=
  {| rr_authorization := Some "Bearer token"; rr_user := Some "user-1";
     rr_body := Some (report_body testCases) |}.

Definition with_status (status : string) : json := JObj [("status", JStr status)].

(** Two projects, each with a story titled "login". *)
Definition two_projects_world : World :=
  demo_world [demo_story_row 1 0 "login"; demo_story_row 2 7 "login"] [] 3 [].

(** A feed that lists the same title twice. *)
Definition repeating_feed : Reply :=
  Data true (Some [fetched "Untitled"; fetched "login"; fetched "Untitled"]).

(** A story as the Jira endpoint returns it, with a status of three
    words. *)
Definition jira_story_in_review : FetchedStory :=
  {| fs_title := "Guest Checkout"; fs_description := Some (JStr "As a guest");
     fs_acceptanceCriteria := None; fs_priority := Some (JStr "High");
     fs_status := Some (JStr "Ready For QA") |}.

(** An answer of the generation endpoint whose [testCases] is not an
    array, and one whose second test case has a number as priority. *)
Definition text_data : json :=
  JObj [("success", JBool true); ("testCases", JStr "1. Guest pays by card")].

Definition numbered_data : json :=
  JObj [("success", JBool true);
        ("testCases",
         JArr [JObj [("title", JStr "Guest pays by card"); ("priority", JStr "High")];
               JObj [("title", JStr "Guest pays by invoice"); ("priority", JNum 1)]])].

(** The list of the component for [checkout_world_again]. *)
Definition checkout_stories : list UserStory :=
  [checkout_story;
   {| st_id := 2; st_title := "Login"; st_description := "As a user I want to log in";
      st_acceptanceCriteria := ""; st_priority := "high"; st_status := "completed";
      st_testCasesGenerated := 1 |}].

(** The store of [checkout_world_again] when its third write statement
    is going to fail. *)
Definition checkout_world_third_fails : World :=
  demo_world [demo_story_row 1 0 "Guest Checkout"; demo_story_row 2 0 "Login"]
    [demo_test_case 3 0 (Some 1) "Guest pays by card";
     demo_test_case 4 0 (Some 2) "Login works"] 5 [false; false; true].

(** The store of [demo_delete_world] when its second write statement is
    going to fail. *)
Definition demo_delete_world_second_fails : World :=
  demo_world [demo_story_row 1 0 "Guest Checkout"; demo_story_row 2 0 "Login"]
    [demo_test_case 3 0 (Some 1) "TC1"; demo_test_case 4 0 (Some 2) "TC2";
     demo_test_case 5 0 None "TC3"] 6 [false; true].

(** A text of the given length. *)
Fixpoint text_of_length (n : nat) : string :=
  match n with
  | 0 => EmptyString
  | S m => String "a" (text_of_length m)
  end.

(** A story whose description has 5001 characters. *)
Definition long_story : jsval :=
  Some (JObj [("id", JStr "1"); ("title", JStr "Guest Checkout");
              ("description", JStr (text_of_length (5000 + 1)))]).

(** The form filled in for a second story titled "login". *)
Definition login_form : NewStory :=
  {| ns_title := "login"; ns_description := "As a user I want to log in";
     ns_acceptanceCriteria := ""; ns_priority := "high" |}.

(** Two owned projects and three memberships: one of an owned project,
    one of another project, listed twice. *)
Definition owned_projects : list Project :=
  [{| pr_id := 1; pr_name := "Checkout" |}; {| pr_id := 2; pr_name := "Search" |}].

Definition memberships : list Membership :=
  [{| mb_project_id := 2; mb_projects := Some {| pr_id := 2; pr_name := "Search" |} |};
   {| mb_project_id := 3; mb_projects := Some {| pr_id := 3; pr_name := "Billing" |} |};
   {| mb_project_id := 3; mb_projects := Some {| pr_id := 3; pr_name := "Billing" |} |}].

(** A test case of the sheet for the story "LOGIN". *)
Definition login_case : ImportedCase :=
  {| ic_testId := None; ic_title := Some (JStr "Login works");
     ic_description := Some (JStr ""); ic_steps := ["Open the login page"];
     ic_expectedResult := Some (JStr ""); ic_priority := "medium";
     ic_userStoryTitle := Some (JStr "LOGIN"); ic_project_id := 0 |}.

(** An issue of the tracker that has a summary only. *)
Definition bare_issue : json :=
  JObj [("key", JStr "SHOP-1");
        ("fields", JObj [("summary", JStr "Guest Checkout")])].

(** A work item of priority 1 in the state "Active". *)
Definition pay_work_item : AzureDevOpsWorkItem :=
  {| wi_id := 7;
     wi_fields := [("System.Title", JStr "Pay"); ("System.State", JStr "Active");
                   ("Microsoft.VSTS.Common.Priority", JNum 1)] |}.

(** The store of [checkout_world_again] when its next write statement,
    the delete of a regeneration, is going to fail; and the regeneration
    of the story on that store. *)
Definition checkout_world_delete_fails : World :=
  demo_world [demo_story_row 1 0 "Guest Checkout"; demo_story_row 2 0 "Login"]
    [demo_test_case 3 0 (Some 1) "Guest pays by card";
     demo_test_case 4 0 (Some 2) "Login works"] 5 [true].

Definition regenerated_after_failed_delete : World :=
  snd (generateTestCases (fetch_reply (GenData stub_data)) true (Some 0)
         checkout_configs checkout_stories 1 None None checkout_world_delete_fails).




(* ================================================================== *)
(** * Properties *)
(* ================================================================== *)

(** ** Rich-text unwrapping *)

(** Induction on documents, with the hypothesis for all the children of
    a node. *)
Lemma adf_ind' (P : adf -> Prop) :
  (forall s marks, P (AText s marks)) ->
  (forall ty attrs cs, Forall P cs -> P (ANode ty attrs cs)) ->
  forall d, P d.
Proof.
  intros Htext Hnode. fix IH 1. intros [s marks|ty attrs cs]; [apply Htext|apply Hnode].
  revert cs. fix IHcs 1. intros [|c cs]; constructor; [apply IH|apply IHcs].
Qed.

Lemma extractText_obj (ps : list (string * json)) (textParts : list json) :
  extractText (JObj ps) textParts =
  if is_str "text" (assoc "type" ps) && truthy_opt (assoc "text" ps) then
    match assoc "text" ps with
    | Some t => Ok (textParts ++ [t])
    | None => Ok textParts
    end
  else
    match assoc "content" ps with
    | Some (JArr cs) => forEach_extractText cs textParts
    | _ => Ok textParts
    end.
Proof.
  cbn [extractText].
  destruct (is_str "text" (assoc "type" ps) && truthy_opt (assoc "text" ps)); [reflexivity|].
  induction ps as [|[k v] ps IH]; [reflexivity|].
  cbn [assoc]. destruct (String.eqb k "content").
  - destruct v; reflexivity.
  - exact IH.
Qed.

Lemma extractText_leaf (s : string) (marks : jsval) (acc : list json) :
  extractText (adf_json (AText s marks)) acc =
  Ok (if nonempty s then acc ++ [JStr s] else acc).
Proof.
  cbn [adf_json]. rewrite extractText_obj.
  unfold nonempty. destruct marks as [m|]; cbn;
    destruct (String.eqb s ""); reflexivity.
Qed.

Lemma extractText_node (ty : string) (attrs : jsval) (cs : list adf) (acc : list json) :
  extractText (adf_json (ANode ty attrs cs)) acc =
  forEach_extractText (map adf_json cs) acc.
Proof.
  cbn [adf_json]. rewrite extractText_obj.
  destruct attrs as [a|]; cbn; rewrite andb_false_r; reflexivity.
Qed.

(** Visiting a document pushes its non-empty leaf texts, in order. *)
Lemma extractText_adf (d : adf) :
  forall acc,
    extractText (adf_json d) acc =
    Ok (acc ++ map JStr (filter nonempty (leaf_texts d))).
Proof.
  induction d as [s marks|ty attrs cs IH] using adf_ind'; intro acc.
  - rewrite extractText_leaf. cbn [leaf_texts filter].
    destruct (nonempty s); cbn [map]; [reflexivity|now rewrite app_nil_r].
  - rewrite extractText_node. cbn [leaf_texts].
    revert acc. induction IH as [|c cs Hc _ IHcs]; intro acc.
    + cbn. now rewrite app_nil_r.
    + cbn [map forEach_extractText flat_map]. rewrite Hc. cbn [rbind].
      rewrite IHcs, filter_app, map_app, app_assoc. reflexivity.
Qed.

Lemma forEach_extractText_adf (cs : list adf) (acc : list json) :
  forEach_extractText (map adf_json cs) acc =
  Ok (acc ++ map JStr (filter nonempty (flat_map leaf_texts cs))).
Proof.
  rewrite <- (extractText_node "doc" None). apply (extractText_adf (ANode "doc" None cs)).
Qed.

Lemma join_strings (sep : string) (l : list string) :
  join sep (map JStr l) = String.concat sep l.
Proof.
  unfold join. rewrite map_map. cbn [join_elem to_string]. now rewrite map_id.
Qed.

(** C6 (as amended).  A string input is returned as it is, also when it
    is empty; for a document whose root carries a content array of
    nested text leaves, the extracted text is the non-empty leaf texts in
    document order, joined by single spaces and trimmed, or the
    placeholder when that text is empty; every input that is neither a
    string nor an object with a content array gives the placeholder. *)
Theorem extractTextFromJiraContent_unwraps :
  (forall s, extractTextFromJiraContent (Some (JStr s)) = Ok s) /\
  (forall root cs,
      (exists version, root = doc_json version cs)
      \/ (exists ty attrs, root = adf_json (ANode ty attrs cs)) ->
      extractTextFromJiraContent (Some root) =
      Ok (let t := trim (String.concat " " (filter nonempty (flat_map leaf_texts cs))) in
          if String.eqb t "" then placeholder else t)) /\
  (forall content,
      unrecognized content = true ->
      extractTextFromJiraContent content = Ok placeholder).
Proof.
  split; [reflexivity|split].
  - intros root cs [[version ->]|[ty [attrs ->]]]; unfold extractTextFromJiraContent.
    + cbn [doc_json truthy_opt truthy negb prop_opt].
      cbn [assoc String.eqb Ascii.eqb Bool.eqb].
      rewrite forEach_extractText_adf. cbn [rbind app].
      now rewrite join_strings.
    + cbn [adf_json truthy_opt truthy negb prop_opt].
      assert (H : assoc "content"
                    ([("type", JStr ty)] ++ optional "attrs" attrs
                     ++ [("content", JArr (map adf_json cs))])
                  = Some (JArr (map adf_json cs)))
        by (destruct attrs; reflexivity).
      rewrite H, forEach_extractText_adf. cbn [rbind app].
      now rewrite join_strings.
  - intros content H. unfold extractTextFromJiraContent, unrecognized in *.
    destruct content as [[| b | n | s | xs | ps]|]; try discriminate; cbn;
      try reflexivity.
    + destruct b; reflexivity.
    + destruct (n =? 0)%Z; reflexivity.
    + destruct (assoc "content" ps) as [[]|]; try discriminate; reflexivity.
Qed.

Lemma extractTextFromJiraContent_unwraps_witness :
  unrecognized (Some (JObj [("type", JStr "doc")])) = true /\
  extractTextFromJiraContent (Some (JObj [("type", JStr "doc")])) = Ok placeholder /\
  extractTextFromJiraContent (Some (doc_json 1 checkout_description))
  = Ok "As a guest I want to check out without registering".
Proof.
  split; [reflexivity|]. split.
  - apply (proj2 (proj2 extractTextFromJiraContent_unwraps)). reflexivity.
  - apply (proj1 (proj2 extractTextFromJiraContent_unwraps) _ checkout_description).
    left. now exists 1%Z.
Defined.

(** C6 fails as stated: the empty string is an empty input, and the
    result is the empty string, not the placeholder; and a leaf with an
    empty text is skipped, so the result is not the join of all the leaf
    texts. *)
Lemma extractTextFromJiraContent_empty_string :
  empty_input (Some (JStr "")) = true /\
  extractTextFromJiraContent (Some (JStr "")) = Ok "" /\
  extractTextFromJiraContent (Some (JStr "")) <> Ok placeholder /\
  extractTextFromJiraContent (Some (doc_json 1 gapped_description)) = Ok "a b" /\
  extractTextFromJiraContent (Some (doc_json 1 gapped_description))
  <> Ok (spec_unwrap (ANode "doc" None gapped_description)).
Proof.
  repeat split; try reflexivity; discriminate.
Qed.

(** ** Priority mapping of the work-item tracker *)

Lemma priorityLabel_cases (p : jsval) :
  (p = Some (JNum 1) -> priorityLabel p = "high") /\
  (p = Some (JNum 2) -> priorityLabel p = "medium") /\
  (p = Some (JNum 3) -> priorityLabel p = "low") /\
  (p = None -> priorityLabel p = "medium") /\
  (forall v, p = Some v -> v <> JNum 1 -> v <> JNum 2 -> v <> JNum 3 ->
             priorityLabel p = "medium").
Proof.
  repeat split; try (intros ->; reflexivity).
  intros v -> H1 H2 H3. unfold priorityLabel.
  destruct (truthy_opt (Some v)); [|reflexivity].
  destruct v as [| b | n | s | xs | ps]; try reflexivity.
  cbn [is_num].
  destruct (Z.eqb_spec n 1) as [->|_]; [now elim H1|].
  destruct (Z.eqb_spec n 2) as [->|_]; [now elim H2|].
  destruct (Z.eqb_spec n 3) as [->|_]; [now elim H3|reflexivity].
Qed.

(** C7.  For every work item whose ['System.State'] is a string or is
    missing, the transform returns a story, and the priority of that
    story is "high" for the numeric priority 1, "medium" for 2, "low" for
    3, and "medium" for a missing priority and for every other value. *)
Theorem priority_label_mapping (workItem : AzureDevOpsWorkItem) :
  state_is_text workItem ->
  exists story,
    transformWorkItem workItem = Ok story /\
    let priority := assoc "Microsoft.VSTS.Common.Priority" (wi_fields workItem) in
    (priority = Some (JNum 1) -> ts_priority story = "high") /\
    (priority = Some (JNum 2) -> ts_priority story = "medium") /\
    (priority = Some (JNum 3) -> ts_priority story = "low") /\
    (priority = None -> ts_priority story = "medium") /\
    (forall v, priority = Some v -> v <> JNum 1 -> v <> JNum 2 -> v <> JNum 3 ->
               ts_priority story = "medium").
Proof.
  unfold state_is_text, transformWorkItem. intro Hstate.
  destruct (assoc "System.State" (wi_fields workItem)) as [[| b | n | s | xs | ps]|];
    try contradiction; cbn [toLowerCase_opt rbind];
    (eexists; split; [reflexivity|]); cbn [ts_priority]; apply priorityLabel_cases.
Qed.

Lemma priority_label_mapping_witness :
  state_is_text pay_work_item /\
  exists story, transformWorkItem pay_work_item = Ok story /\ ts_priority story = "high".
Proof.
  split; [exact I|].
  destruct (priority_label_mapping pay_work_item I) as (story & Hrun & Hhigh & _).
  exists story. split; [exact Hrun|]. apply Hhigh. reflexivity.
Defined.

(** A state that is neither a string nor missing has no [toLowerCase]:
    the callback throws and the work item gets no story at all. *)
Lemma transformWorkItem_state_not_text (workItem : AzureDevOpsWorkItem) :
  ~ state_is_text workItem -> transformWorkItem workItem = Raise TypeError.
Proof.
  unfold state_is_text, transformWorkItem. intro Hstate.
  destruct (assoc "System.State" (wi_fields workItem)) as [[| b | n | s | xs | ps]|];
    try (now elim Hstate); reflexivity.
Qed.

(** ** Story deletion *)

Lemma toasts_app_inv (l : list Toast) (a b : Toast) : l ++ [a] = l ++ [b] -> a = b.
Proof. intro H. apply app_inv_head in H. now injection H. Qed.

Lemma toasts_app_neq (l : list Toast) (a : Toast) : l <> l ++ [a].
Proof.
  intro H. apply (f_equal (@List.length Toast)) in H.
  rewrite length_app in H. cbn in H. lia.
Qed.

Lemma of_story_spec (storyId : uuid) (r : TestCaseRow) :
  of_story storyId r = true <-> tc_user_story_id r = Some storyId.
Proof.
  unfold of_story. destruct (tc_user_story_id r) as [s|].
  - rewrite Nat.eqb_eq. split; [now intros ->|now intros [= ->]].
  - split; discriminate.
Qed.

(** C10.  A deletion that reports success has deleted every test case
    referencing the story and the story row itself, so no test case
    references the deleted story; the test cases go first: when their
    deletion reports an error nothing is deleted, and the story row is
    never removed while a test case still references it. *)
Theorem deleteUserStory_cascades
    (stories : list UserStory) (storyId : uuid) (storyTitle : string) (w : World) :
  let w' := snd (deleteUserStory stories storyId storyTitle w) in
  (toasts w' = toasts w ++ [toast_deleted storyTitle] ->
     test_cases w' = filter (fun r => negb (of_story storyId r)) (test_cases w) /\
     user_stories w' = filter (fun r => negb (Nat.eqb (us_id r) storyId)) (user_stories w) /\
     (forall r, In r (test_cases w') -> tc_user_story_id r <> Some storyId) /\
     (forall r, In r (user_stories w') -> us_id r <> storyId)) /\
  (hd false (faults w) = true ->
     test_cases w' = test_cases w /\ user_stories w' = user_stories w) /\
  (user_stories w' <> user_stories w ->
     forall r, In r (test_cases w') -> tc_user_story_id r <> Some storyId).
Proof.
  assert (Hgone : forall r,
             In r (filter (fun r => negb (of_story storyId r)) (test_cases w)) ->
             tc_user_story_id r <> Some storyId).
  { intros r Hr. apply filter_In in Hr as [_ Hr].
    rewrite <- of_story_spec. now destruct (of_story storyId r). }
  unfold deleteUserStory, delete_try, delete_test_cases_by_story, delete_story,
    bind, write, throw, effect, ret.
  destruct (hd false (faults w)) eqn:F1; cbn.
  - split; [|split].
    + intro H. apply toasts_app_inv in H. discriminate.
    + auto.
    + intro H. now elim H.
  - destruct (hd false (tl (faults w))) eqn:F2; cbn.
    + split; [|split].
      * intro H. apply toasts_app_inv in H. discriminate.
      * discriminate.
      * intros _. exact Hgone.
    + split; [|split].
      * intros _. repeat split; auto.
        intros r Hr. apply filter_In in Hr as [_ Hr].
        intro E. rewrite E, Nat.eqb_refl in Hr. discriminate.
      * discriminate.
      * intros _. exact Hgone.
Qed.

Lemma deleteUserStory_cascades_witness :
  toasts (snd (deleteUserStory [] 1 "Guest Checkout" demo_delete_world)) =
  toasts demo_delete_world ++ [toast_deleted "Guest Checkout"] /\
  test_cases (snd (deleteUserStory [] 1 "Guest Checkout" demo_delete_world)) =
  [demo_test_case 4 0 (Some 2) "TC2"; demo_test_case 5 0 None "TC3"] /\
  user_stories (snd (deleteUserStory [] 1 "Guest Checkout" demo_delete_world)) =
  [demo_story_row 2 0 "Login"].
Proof.
  split; [reflexivity|].
  destruct (proj1 (deleteUserStory_cascades [] 1 "Guest Checkout" demo_delete_world)
              eq_refl) as (H1 & H2 & _).
  split; [exact H1|exact H2].
Defined.
(** ** Test-case generation *)

Ltac no_success_toast :=
  cbn; intros [n H];
  first [ now apply toasts_app_neq in H
        | apply toasts_app_inv in H; discriminate ].

(** What a generation that ends with the success toast has done. *)
Lemma generate_success
    (has_token : bool) (currentProject : option uuid) (savedConfigs : SavedConfigs)
    (stories : list UserStory) (storyId : uuid) (customPrompt : option string)
    (imageFile : option ImageRead) (data : json) (w : World) :
  let w' := snd (generateTestCases (fetch_reply (GenData data)) has_token currentProject
                   savedConfigs stories storyId customPrompt imageFile w) in
  reports_generated w w' ->
  exists project testCases new,
    currentProject = Some project /\
    prop "testCases" data = Ok testCases /\
    js_map (testCaseToInsert project storyId) testCases = Ok new /\
    toasts w' = toasts w ++ [toast_generated (List.length new)] /\
    test_cases w' =
      (if hd false (faults w) then test_cases w
       else filter (fun r => negb (of_story_in_project storyId project r)) (test_cases w))
      ++ stored_rows (next_id w) new.
Proof.
  unfold generateTestCases, reports_generated.
  destruct (find _ stories) as [story|]; cbn [snd]; [|no_success_toast].
  destruct has_token; cbn [negb]; [|no_success_toast].
  destruct (cfg_openai savedConfigs) as [azureConfig|]; [|no_success_toast].
  destruct (openai_ready savedConfigs); [|no_success_toast].
  unfold generate_try, bind at 1.
  assert (Himg : forall image : option (string * string),
    let w' := snd (let (r, w') :=
                     (data <- fetch_reply (GenData data)
                                (requestBody currentProject story azureConfig customPrompt image) ;;
                      success <- lift (prop "success" data) ;;
                      testCases <- lift (prop "testCases" data) ;;
                      if truthy_opt success && truthy_opt testCases then
                        match currentProject with
                        | None => throw (ThrownError "No project selected")
                        | Some project =>
                            delete_test_cases_of storyId project ;;;
                            testCasesToInsert <-
                              lift (js_map (testCaseToInsert project storyId) testCases) ;;
                            insertError <- insert_test_cases testCasesToInsert ;;
                            if insertError then throw (ThrownError "insertError")
                            else
                              complete_story storyId project ;;;
                              effect (toast (toast_generated (List.length testCasesToInsert))) ;;;
                              ret (map (mark_generated storyId (List.length testCasesToInsert)) stories)
                        end
                      else ret stories) w in
                   match r with
                   | Ok stories' => (stories', w')
                   | Raise _ =>
                       (stories,
                        toast toast_generation_failed
                          (console_error "Error generating test cases:" w'))
                   end) in
    (exists n, toasts w' = toasts w ++ [toast_generated n]) ->
    exists project testCases new,
      currentProject = Some project /\
      prop "testCases" data = Ok testCases /\
      js_map (testCaseToInsert project storyId) testCases = Ok new /\
      toasts w' = toasts w ++ [toast_generated (List.length new)] /\
      test_cases w' =
        (if hd false (faults w) then test_cases w
         else filter (fun r => negb (of_story_in_project storyId project r)) (test_cases w))
        ++ stored_rows (next_id w) new).
  { intro image. unfold fetch_reply, bind, lift, throw, ret, effect.
    destruct (prop "success" data) as [success|]; [|no_success_toast].
    destruct (prop "testCases" data) as [testCases|]; [|no_success_toast].
    destruct (truthy_opt success && truthy_opt testCases); [|no_success_toast].
    destruct currentProject as [project|]; [|no_success_toast].
    unfold delete_test_cases_of, insert_test_cases, complete_story, write.
    destruct (js_map (testCaseToInsert project storyId) testCases) as [new|] eqn:Hmap.
    2:{ destruct (hd false (faults w)); no_success_toast. }
    destruct (hd false (faults w)) eqn:F1; cbn;
      destruct (hd false (tl (faults w))) eqn:F2; cbn;
      try (intros [n H]; apply toasts_app_inv in H; discriminate).
    all: destruct (hd false (tl (tl (faults w)))) eqn:F3; cbn.
    all: intros _; exists project, testCases, new; repeat split; auto. }
  destruct imageFile as [[dataUrl type|]|]; cbn [throw ret].
  - apply Himg.
  - no_success_toast.
  - apply Himg.
Qed.

Lemma map_result_Forall {A B} (f : A -> result B) (P : B -> Prop) (xs : list A) :
  (forall x y, f x = Ok y -> P y) ->
  forall ys, map_result f xs = Ok ys -> Forall P ys.
Proof.
  intro Hf. induction xs as [|x xs IH]; cbn; intros ys H.
  - injection H as <-. constructor.
  - destruct (f x) as [y|] eqn:Hy; cbn in H; [|discriminate].
    destruct (map_result f xs) as [ys'|]; cbn in H; [|discriminate].
    injection H as <-. constructor; eauto.
Qed.

Lemma testCaseToInsert_fields (project storyId : uuid) (testCase : json) (t : TestCaseInsert) :
  testCaseToInsert project storyId testCase = Ok t ->
  ti_project_id t = project /\ ti_user_story_id t = storyId /\ ti_status t = "draft".
Proof.
  unfold testCaseToInsert. destruct testCase; cbn; try discriminate.
  all: try match goal with
           | |- context [toLowerCase_of ?v] => destruct (toLowerCase_of v); cbn
           end; try discriminate.
  all: intros [= <-]; auto.
Qed.

Lemma js_map_fields (project storyId : uuid) (testCases : jsval) (new : list TestCaseInsert) :
  js_map (testCaseToInsert project storyId) testCases = Ok new ->
  Forall (fun t => ti_project_id t = project /\ ti_user_story_id t = storyId
                   /\ ti_status t = "draft") new.
Proof.
  destruct testCases as [[]|]; cbn; try discriminate.
  apply map_result_Forall. intros x y. apply testCaseToInsert_fields.
Qed.

Lemma stored_rows_Forall (P : TestCaseRow -> Prop) (ts : list TestCaseInsert) :
  forall first,
    (forall id t, In t ts -> first <= id -> P (stored_row id t)) ->
    Forall P (stored_rows first ts).
Proof.
  induction ts as [|t ts IH]; intros first H; cbn; constructor.
  - apply H; [now left|lia].
  - apply IH. intros id t' Ht Hid. apply H; [now right|lia].
Qed.

Lemma filter_all {A} (p : A -> bool) (l : list A) :
  Forall (fun x => p x = true) l -> filter p l = l.
Proof.
  induction 1 as [|x l Hx _ IH]; cbn; [reflexivity|]. now rewrite Hx, IH.
Qed.

Lemma filter_none {A} (p : A -> bool) (l : list A) :
  filter p (filter (fun x => negb (p x)) l) = [].
Proof.
  induction l as [|x l IH]; cbn; [reflexivity|].
  destruct (p x) eqn:Hx; cbn; [exact IH|]. now rewrite Hx.
Qed.

(** The full replace, for a regeneration that reports success and whose
    delete statement took effect: afterwards the test cases of the
    (project, story) pair are exactly the rows built from the generated
    set; no row that was there before for the pair is left, whatever its
    title; the rows of the other stories are all kept. *)
Theorem regeneration_is_full_replace
    (has_token : bool) (currentProject : option uuid) (savedConfigs : SavedConfigs)
    (stories : list UserStory) (storyId : uuid) (customPrompt : option string)
    (imageFile : option ImageRead) (data : json) (w : World) :
  let w' := snd (generateTestCases (fetch_reply (GenData data)) has_token currentProject
                   savedConfigs stories storyId customPrompt imageFile w) in
  reports_generated w w' ->
  hd false (faults w) = false ->
  exists project testCases new,
    currentProject = Some project /\
    prop "testCases" data = Ok testCases /\
    js_map (testCaseToInsert project storyId) testCases = Ok new /\
    filter (of_story_in_project storyId project) (test_cases w')
      = stored_rows (next_id w) new /\
    (ids_fresh w ->
     forall r, In r (test_cases w) -> of_story_in_project storyId project r = true ->
               ~ In r (test_cases w')) /\
    (forall r, In r (test_cases w) -> of_story_in_project storyId project r = false ->
               In r (test_cases w')).
Proof.
  intros w' Hok Hdel.
  destruct (generate_success _ _ _ _ _ _ _ _ _ Hok)
    as (project & testCases & new & Hp & Ht & Hmap & _ & Htc).
  fold w' in Htc. rewrite Hdel in Htc.
  exists project, testCases, new. repeat split; auto.
  - rewrite Htc, filter_app, filter_none. cbn [app].
    apply filter_all, stored_rows_Forall. intros id t Hin _.
    pose proof (js_map_fields _ _ _ _ Hmap) as Hall.
    rewrite Forall_forall in Hall. destruct (Hall t Hin) as (H1 & H2 & _).
    unfold of_story_in_project, of_story, stored_row; cbn.
    now rewrite H1, H2, !Nat.eqb_refl.
  - intros Hfresh r Hin Hr Hin'. rewrite Htc in Hin'.
    apply in_app_or in Hin' as [Hin'|Hin'].
    + apply filter_In in Hin' as [_ Hn]. now rewrite Hr in Hn.
    + unfold ids_fresh in Hfresh. rewrite Forall_forall in Hfresh.
      specialize (Hfresh r Hin).
      assert (Hge : Forall (fun r => next_id w <= tc_id r) (stored_rows (next_id w) new)).
      { apply stored_rows_Forall. intros id t _ Hid. exact Hid. }
      rewrite Forall_forall in Hge. specialize (Hge r Hin'). lia.
  - intros r Hin Hr. rewrite Htc. apply in_or_app. left.
    apply filter_In. split; [exact Hin|]. now rewrite Hr.
Qed.

(** A regeneration that reports success after a delete statement that
    failed has kept every test case and added the new ones. *)
Lemma regeneration_after_a_failed_delete
    (has_token : bool) (currentProject : option uuid) (savedConfigs : SavedConfigs)
    (stories : list UserStory) (storyId : uuid) (customPrompt : option string)
    (imageFile : option ImageRead) (data : json) (w : World) :
  let w' := snd (generateTestCases (fetch_reply (GenData data)) has_token currentProject
                   savedConfigs stories storyId customPrompt imageFile w) in
  reports_generated w w' ->
  hd false (faults w) = true ->
  exists new, test_cases w' = test_cases w ++ new.
Proof.
  intros w' Hok Hdel.
  destruct (generate_success _ _ _ _ _ _ _ _ _ Hok)
    as (project & testCases & new & _ & _ & _ & _ & Htc).
  fold w' in Htc. rewrite Hdel in Htc. now exists (stored_rows (next_id w) new).
Qed.

(** C3 on the code: the story holds a test case of an earlier
    generation; the delete statement of the regeneration reports an error,
    which [generateTestCases] does not read, and the insert is accepted.
    The run ends with "Test Cases Generated & Saved", and the story has
    its prior test case, titled as one of the new ones, beside the two
    new rows: the regeneration was not a full replace. *)
Theorem regeneration_keeps_rows_when_delete_fails :
  reports_generated checkout_world_delete_fails regenerated_after_failed_delete /\
  toasts regenerated_after_failed_delete = [toast_generated 2] /\
  test_cases regenerated_after_failed_delete
  = test_cases checkout_world_delete_fails ++ stub_rows 5 /\
  filter (of_story_in_project 1 0) (test_cases regenerated_after_failed_delete)
  = demo_test_case 3 0 (Some 1) "Guest pays by card" :: stub_rows 5 /\
  filter (of_story_in_project 1 0) (test_cases regenerated_after_failed_delete)
  <> stub_rows 5 /\
  In (demo_test_case 3 0 (Some 1) "Guest pays by card")
     (test_cases checkout_world_delete_fails) /\
  In (demo_test_case 3 0 (Some 1) "Guest pays by card")
     (test_cases regenerated_after_failed_delete).
Proof.
  split; [exists 2; reflexivity|].
  repeat split; try reflexivity; try discriminate; now left.
Qed.

(** ** Frame: which computations leave the two tables alone *)

Lemma keeps_ret {A} (a : A) : keeps_tables (ret a).
Proof. intro w. now split. Qed.

Lemma keeps_throw {A} (e : exn) : keeps_tables (@throw A e).
Proof. intro w. now split. Qed.

Lemma keeps_lift {A} (r : result A) : keeps_tables (lift r).
Proof. intro w. now split. Qed.

Lemma keeps_console (msg : string) : keeps_tables (effect (console_error msg)).
Proof. intro w. now split. Qed.

Lemma keeps_bind {A B} (m : M A) (k : A -> M B) :
  keeps_tables m -> (forall a, keeps_tables (k a)) -> keeps_tables (bind m k).
Proof.
  intros Hm Hk w. unfold bind. specialize (Hm w).
  destruct (m w) as [[a|e] w1]; cbn [snd] in *.
  - destruct (Hk a w1) as [H1 H2]. destruct Hm as [H3 H4]. split; congruence.
  - exact Hm.
Qed.

Lemma keeps_usage_write (f : list UsageLog -> list UsageLog) :
  keeps_tables (write (set_ai_usage_logs f)).
Proof. intro w. unfold write. destruct (hd false (faults w)); now split. Qed.

Create HintDb frame.
#[local] Hint Resolve keeps_ret keeps_throw keeps_lift keeps_console
  keeps_usage_write : frame.

Ltac frame :=
  repeat first
    [ progress auto with frame
    | apply keeps_bind; [|intro]
    | match goal with
      | |- keeps_tables (match ?x with _ => _ end) => destruct x
      | |- keeps_tables (if ?b then _ else _) => destruct b
      end ].

Section GenerateTestCasesFacts.

Variable JSON_parse : string -> option json.
Variable error_message : exn -> string.

Lemma screen_request_keeps (req : GenRequest) : keeps_tables (screen_request req).
Proof. unfold screen_request. frame. Qed.

Lemma answer_completion_keeps user story azureConfig completion now :
  keeps_tables (answer_completion JSON_parse user story azureConfig completion now).
Proof. unfold answer_completion, parse_branch, usage_log. frame. Qed.

Lemma generate_test_cases_keeps req completion now (w : World) :
  test_cases (snd (generate_test_cases JSON_parse error_message req completion now w))
    = test_cases w /\
  user_stories (snd (generate_test_cases JSON_parse error_message req completion now w))
    = user_stories w.
Proof.
  assert (H : keeps_tables (generate_test_cases_try JSON_parse req completion now)).
  { unfold generate_test_cases_try. apply keeps_bind; [apply screen_request_keeps|].
    intros [response|user story azureConfig]; [apply keeps_ret|].
    apply answer_completion_keeps. }
  unfold generate_test_cases. specialize (H w).
  destruct (generate_test_cases_try JSON_parse req completion now w) as [[r|e] w1];
    exact H.
Qed.

(** A refusal carries no [success] property. *)
Lemma screen_request_refusal req w response w1 :
  screen_request req w = (Ok (Refused response), w1) ->
  prop "success" (resp_body response) = Ok None.
Proof.
  unfold screen_request, bind, lift, ret, throw, effect.
  repeat match goal with
         | |- context [match ?x with _ => _ end] => destruct x; cbn
         end.
  all: try discriminate.
  all: intros [= <- <-]; reflexivity.
Qed.

End GenerateTestCasesFacts.

Section MalformedCompletion.

Variable JSON_parse : string -> option json.
Variable error_message : exn -> string.
Variables content now : string.
Hypothesis malformed : not_json_array (JSON_parse content).

Lemma parse_branch_fails user story azureConfig (w : World) :
  fst (parse_branch JSON_parse user story azureConfig now content w)
    = Ok (parse_failure_response content).
Proof.
  unfold parse_branch.
  destruct (JSON_parse content) as [[| b | n | s | xs | ps]|] eqn:E; try reflexivity.
  - unfold bind, effect, usage_log, write, ret; cbn.
    destruct (hd false (faults w)); reflexivity.
  - unfold bind, effect, usage_log, write, ret; cbn.
    destruct (hd false (faults w)); reflexivity.
  - unfold bind, effect, usage_log, write, ret; cbn.
    destruct (hd false (faults w)); reflexivity.
  - unfold bind, effect, usage_log, write, ret; cbn.
    destruct (hd false (faults w)); reflexivity.
  - now elim (malformed xs).
  - unfold bind, effect, usage_log, write, ret; cbn.
    destruct (hd false (faults w)); reflexivity.
  - unfold bind, effect, usage_log, write, ret; cbn.
    destruct (hd false (faults w)); reflexivity.
Qed.

Lemma handler_no_success req (w : World) :
  prop "success"
    (resp_body (fst (generate_test_cases JSON_parse error_message req
                       (CompletionText content) now w))) = Ok None.
Proof.
  unfold generate_test_cases, generate_test_cases_try, bind at 1.
  destruct (screen_request req w) as [[[response|user story azureConfig]|e] w1] eqn:E.
  - cbn. eapply screen_request_refusal, E.
  - unfold answer_completion, bind.
    destruct (usage_log user story true w1) as [[b|e] w2]; [|reflexivity].
    pose proof (parse_branch_fails user story azureConfig w2) as H.
    destruct (parse_branch JSON_parse user story azureConfig now content w2)
      as [r w3]. cbn in H. subst r. reflexivity.
  - reflexivity.
Qed.

(** C8.  When the completion text does not parse as a JSON array, the
    handler answers a request that reached the completion call with
    the status-500 parse failure, which carries the raw text and no
    [success]; the handler persists no test case; and the component,
    working on that answer, leaves the test cases, the stories and its
    list as they were. *)
Theorem malformed_completion_fails_entirely :
  (forall req user story azureConfig w w1,
      screen_request req w = (Ok (Accepted user story azureConfig), w1) ->
      fst (generate_test_cases JSON_parse error_message req
             (CompletionText content) now w)
        = parse_failure_response content /\
      resp_status (parse_failure_response content) = 500 /\
      prop "rawContent" (resp_body (parse_failure_response content))
        = Ok (Some (JStr content)) /\
      test_cases (snd (generate_test_cases JSON_parse error_message req
                         (CompletionText content) now w)) = test_cases w) /\
  (forall user has_token currentProject savedConfigs stories storyId customPrompt
          imageFile w,
      fst (generateTestCases
             (fetch_generate_test_cases JSON_parse error_message user
                (CompletionText content) now)
             has_token currentProject savedConfigs stories storyId customPrompt
             imageFile w) = stories /\
      test_cases
        (snd (generateTestCases
                (fetch_generate_test_cases JSON_parse error_message user
                   (CompletionText content) now)
                has_token currentProject savedConfigs stories storyId customPrompt
                imageFile w)) = test_cases w /\
      user_stories
        (snd (generateTestCases
                (fetch_generate_test_cases JSON_parse error_message user
                   (CompletionText content) now)
                has_token currentProject savedConfigs stories storyId customPrompt
                imageFile w)) = user_stories w).
Proof.
  split.
  - intros req user story azureConfig w w1 Hscreen.
    repeat split; try reflexivity; [|apply generate_test_cases_keeps].
    unfold generate_test_cases, generate_test_cases_try, bind at 1.
    rewrite Hscreen. unfold answer_completion, bind.
    destruct (usage_log user story true w1) as [[b|e] w2] eqn:U.
    + pose proof (parse_branch_fails user story azureConfig w2) as H.
      destruct (parse_branch JSON_parse user story azureConfig now content w2)
        as [r w3]. cbn in H. subst r. reflexivity.
    + unfold usage_log, write in U. destruct (hd false (faults w1)); discriminate.
  - intros user has_token currentProject savedConfigs stories storyId customPrompt
      imageFile w.
    assert (H : forall out,
               generateTestCases
                 (fetch_generate_test_cases JSON_parse error_message user
                    (CompletionText content) now)
                 has_token currentProject savedConfigs stories storyId customPrompt
                 imageFile w = out ->
               fst out = stories /\ test_cases (snd out) = test_cases w
               /\ user_stories (snd out) = user_stories w);
      [|now apply H].
    intro out. unfold generateTestCases.
    destruct (find _ stories) as [story|]; [|now intros <-].
    destruct has_token; [|now intros <-].
    destruct (cfg_openai savedConfigs) as [azureConfig|]; [|now intros <-].
    destruct (openai_ready savedConfigs); [|now intros <-].
    unfold generate_try, bind at 1.
    destruct imageFile as [[dataUrl type|]|]; cbn [ret throw]; [|now intros <-|].
    all: unfold bind at 1, fetch_generate_test_cases.
    all: match goal with
         | |- context [generate_test_cases _ _ ?req _ _ ?w0] =>
             pose proof (handler_no_success req w0) as Hs;
             pose proof (generate_test_cases_keeps JSON_parse error_message req
                           (CompletionText content) now w0) as [Ht Hu];
             destruct (generate_test_cases JSON_parse error_message req
                         (CompletionText content) now w0) as [response w1]
         end.
    all: cbn [fst snd] in *; unfold bind, lift; rewrite Hs.
    all: destruct (prop "testCases" (resp_body response)); cbn; now intros <-.
Qed.

End MalformedCompletion.

Lemma malformed_completion_fails_entirely_witness :
  not_json_array (None : option json) /\
  fst (generate_test_cases (fun _ => None) (fun _ => "error") demo_request
         (CompletionText "Here are your test cases:") "2024-01-01T00:00:00.000Z"
         demo_delete_world)
  = parse_failure_response "Here are your test cases:".
Proof.
  assert (H : not_json_array (None : option json)) by (intros xs; discriminate).
  split; [exact H|].
  apply (proj1 (malformed_completion_fails_entirely (fun _ => None) (fun _ => "error")
                  "Here are your test cases:" "2024-01-01T00:00:00.000Z" H)
           demo_request "user-1"
           (Some (JObj [("id", JStr "1"); ("title", JStr "Guest Checkout")]))
           (Some (JObj [("endpoint", JStr "https://example.openai.azure.com");
                        ("apiKey", JStr "key"); ("deploymentId", JStr "gpt-4o")]))
           demo_delete_world demo_delete_world).
  reflexivity.
Defined.

(** ** The "Guest Checkout" scenario *)

(** C2 on the code: the generation of the scenario (the endpoint run on
    a stub completion that parses to the two test cases) persists exactly
    two rows for the story, and their status is "draft", which is not
    the not-yet-executed value "not-run" of the test-case statuses. *)
Theorem generated_rows_are_stamped_draft :
  test_cases
    (snd (generateTestCases
            (fetch_generate_test_cases (fun _ => Some stub_test_cases) (fun _ => "error")
               (Some "user-1") (CompletionText "[...]") "2024-01-01T00:00:00.000Z")
            true (Some 0) checkout_configs [checkout_story] 1 None None checkout_world))
  = stub_rows 2 /\
  Forall (fun r => tc_status r = "draft" /\ tc_status r <> "not-run") (stub_rows 2).
Proof.
  split; [reflexivity|].
  repeat constructor; discriminate.
Qed.

(** Every row a successful generation inserts carries the status "draft". *)
Lemma generated_rows_status
    (has_token : bool) (currentProject : option uuid) (savedConfigs : SavedConfigs)
    (stories : list UserStory) (storyId : uuid) (customPrompt : option string)
    (imageFile : option ImageRead) (data : json) (w : World) :
  let w' := snd (generateTestCases (fetch_reply (GenData data)) has_token currentProject
                   savedConfigs stories storyId customPrompt imageFile w) in
  reports_generated w w' ->
  exists kept new,
    test_cases w' = kept ++ new /\ incl kept (test_cases w) /\
    Forall (fun r => tc_status r = "draft") new.
Proof.
  intros w' Hok.
  destruct (generate_success _ _ _ _ _ _ _ _ _ Hok)
    as (project & testCases & new & _ & _ & Hmap & _ & Htc).
  fold w' in Htc. eexists _, (stored_rows (next_id w) new). split; [exact Htc|split].
  - destruct (hd false (faults w)); [apply incl_refl|apply incl_filter].
  - apply stored_rows_Forall. intros id t Hin _.
    pose proof (js_map_fields _ _ _ _ Hmap) as Hall.
    rewrite Forall_forall in Hall. now destruct (Hall t Hin) as (_ & _ & H).
Qed.

Lemma regeneration_is_full_replace_witness :
  reports_generated checkout_world_again
    (snd (generateTestCases (fetch_reply (GenData stub_data)) true (Some 0)
            checkout_configs [checkout_story] 1 None None checkout_world_again)) /\
  hd false (faults checkout_world_again) = false /\
  test_cases
    (snd (generateTestCases (fetch_reply (GenData stub_data)) true (Some 0)
            checkout_configs [checkout_story] 1 None None checkout_world_again))
  = demo_test_case 4 0 (Some 2) "Login works" :: stub_rows 5 /\
  exists project testCases new,
    Some 0 = Some project /\
    prop "testCases" stub_data = Ok testCases /\
    js_map (testCaseToInsert project 1) testCases = Ok new /\
    filter (of_story_in_project 1 project)
      (test_cases
         (snd (generateTestCases (fetch_reply (GenData stub_data)) true (Some 0)
                 checkout_configs [checkout_story] 1 None None checkout_world_again)))
    = stored_rows (next_id checkout_world_again) new /\
    (ids_fresh checkout_world_again ->
     forall r, In r (test_cases checkout_world_again) ->
               of_story_in_project 1 project r = true ->
               ~ In r (test_cases
                         (snd (generateTestCases (fetch_reply (GenData stub_data)) true
                                 (Some 0) checkout_configs [checkout_story] 1 None None
                                 checkout_world_again)))) /\
    (forall r, In r (test_cases checkout_world_again) ->
               of_story_in_project 1 project r = false ->
               In r (test_cases
                       (snd (generateTestCases (fetch_reply (GenData stub_data)) true
                               (Some 0) checkout_configs [checkout_story] 1 None None
                               checkout_world_again)))).
Proof.
  assert (H : reports_generated checkout_world_again
                (snd (generateTestCases (fetch_reply (GenData stub_data)) true (Some 0)
                        checkout_configs [checkout_story] 1 None None
                        checkout_world_again)))
    by (exists 2; reflexivity).
  split; [exact H|]. split; [reflexivity|]. split; [reflexivity|].
  exact (regeneration_is_full_replace true (Some 0) checkout_configs [checkout_story] 1
           None None stub_data checkout_world_again H eq_refl).
Defined.

(** ** Synchronization: matching by title *)

Lemma story_matches_spec (project : uuid) (title : string) (r : UserStoryRow) :
  story_matches project title r = true <-> us_project_id r = project /\ us_title r = title.
Proof.
  unfold story_matches. now rewrite andb_true_iff, Nat.eqb_eq, String.eqb_eq.
Qed.

Lemma single_Some {A} (l : list A) (x : A) : single l = Some x <-> l = [x].
Proof.
  destruct l as [|y [|z l]]; cbn; split; try discriminate; now intros [= ->].
Qed.


Lemma sync_story_insert (payload : FetchedStory -> result StoryPayload)
    (project : uuid) (story : FetchedStory) (p : StoryPayload) (w : World) :
  existing_story project (fs_title story) w = None ->
  payload story = Ok p ->
  hd false (faults w) = false ->
  fst (sync_story payload project story w) = Ok true /\
  next_id (snd (sync_story payload project story w)) = S (next_id w) /\
  user_stories (snd (sync_story payload project story w)) =
  user_stories w ++
    [{| us_id := next_id w; us_project_id := project; us_title := fs_title story;
        us_description := sp_description p;
        us_acceptance_criteria := sp_acceptance_criteria p;
        us_priority := sp_priority p; us_status := sp_status p |}].
Proof.
  intros He Hp Hf.
  unfold sync_story, select_story_by_title, bind, lift, ret, insert_story, write.
  rewrite He, Hp. cbn. rewrite Hf. cbn. auto.
Qed.




(** ** Synchronization: a second run *)

(** C4 on the code: with two stories already carrying the fetched title,
    the look-up by [.single()] finds neither, so the first run inserts a
    third row, and the second run against the same feed inserts a
    fourth. *)
Theorem second_sync_inserts_again :
  map us_id (user_stories twins_world) = [1; 2] /\
  map us_id
    (user_stories
       (syncFromIntegrations true (Some 0) azure_only Failed stable_feed twins_world))
  = [1; 2; 3] /\
  map us_id
    (user_stories
       (syncFromIntegrations true (Some 0) azure_only Failed stable_feed
          (syncFromIntegrations true (Some 0) azure_only Failed stable_feed twins_world)))
  = [1; 2; 3; 4] /\
  map toast_title
    (toasts
       (syncFromIntegrations true (Some 0) azure_only Failed stable_feed
          (syncFromIntegrations true (Some 0) azure_only Failed stable_feed twins_world)))
  = ["Sync Complete"; "Sync Complete"].
Proof. repeat split; reflexivity. Qed.

(** ** Synchronization: when a second run only updates *)

Lemma reliable_hd (w : World) : reliable w -> hd false (faults w) = false.
Proof. unfold reliable. destruct (faults w); [reflexivity|]. now inversion 1. Qed.

Lemma reliable_tl (w : World) : reliable w -> Forall (fun b => b = false) (tl (faults w)).
Proof. unfold reliable. destruct (faults w); [auto|]. now inversion 1. Qed.

Lemma existing_story_covered (project : uuid) (title : string) (w : World) :
  titles_unique project w ->
  (exists r, existing_story project title w = Some r) <-> matches project title w = 1.
Proof.
  intro Hu. specialize (Hu title). unfold matches, existing_story in *.
  destruct (filter (story_matches project title) (user_stories w)) as [|x [|y l]];
    cbn in *; split; try lia; try (intros [r H]; discriminate); eauto.
Qed.

Lemma existing_story_none (project : uuid) (title : string) (w : World) :
  titles_unique project w ->
  existing_story project title w = None -> matches project title w = 0.
Proof.
  intro Hu. specialize (Hu title). unfold matches, existing_story in *.
  destruct (filter (story_matches project title) (user_stories w)) as [|x [|y l]];
    cbn in *; try lia; discriminate.
Qed.

Lemma filter_map_commute {A} (p : A -> bool) (f : A -> A) (l : list A) :
  (forall x, p (f x) = p x) -> filter p (map f l) = map f (filter p l).
Proof.
  intro H. induction l as [|x l IH]; cbn; [reflexivity|].
  rewrite H. destruct (p x); cbn; now rewrite IH.
Qed.

(** The loop body on a store whose writes succeed. *)
Lemma sync_story_run payload project story (w : World) :
  reliable w ->
  sync_story payload project story w =
  match payload story with
  | Raise e => (Raise e, w)
  | Ok p =>
      match existing_story project (fs_title story) w with
      | Some r =>
          (Ok true,
           set_user_stories
             (map (fun r' => if Nat.eqb (us_id r') (us_id r) then apply_payload p r' else r'))
             (set_faults (tl (faults w)) w))
      | None =>
          (Ok true,
           set_next_id (S (next_id w))
             (set_user_stories
                (fun rows =>
                   rows ++ [{| us_id := next_id w; us_project_id := project;
                               us_title := fs_title story;
                               us_description := sp_description p;
                               us_acceptance_criteria := sp_acceptance_criteria p;
                               us_priority := sp_priority p;
                               us_status := sp_status p |}])
                (set_faults (tl (faults w)) w)))
      end
  end.
Proof.
  intro Hr. pose proof (reliable_hd w Hr) as Hhd.
  unfold sync_story, select_story_by_title, bind, lift, ret, update_story, insert_story,
    write.
  destruct (existing_story project (fs_title story) w) as [r|]; cbn;
    destruct (payload story) as [p|e]; cbn; rewrite ?Hhd; reflexivity.
Qed.

Lemma matches_update project t (f : UserStoryRow -> UserStoryRow) (w : World) :
  (forall x, us_project_id (f x) = us_project_id x /\ us_title (f x) = us_title x) ->
  matches project t (set_user_stories (map f) (set_faults (tl (faults w)) w))
  = matches project t w.
Proof.
  intro H. unfold matches; cbn. rewrite filter_map_commute, length_map; [reflexivity|].
  intro x. unfold story_matches. destruct (H x) as [-> ->]. reflexivity.
Qed.

Lemma matches_insert project t (r : UserStoryRow) (n : uuid) (w : World) :
  us_project_id r = project ->
  matches project t
    (set_next_id n (set_user_stories (fun rows => rows ++ [r])
                      (set_faults (tl (faults w)) w)))
  = matches project t w + (if String.eqb (us_title r) t then 1 else 0).
Proof.
  intro H. unfold matches; cbn. rewrite filter_app, length_app. cbn.
  unfold story_matches at 2. rewrite H, Nat.eqb_refl. cbn.
  destruct (String.eqb (us_title r) t); reflexivity.
Qed.

(** What one pass of the loop body does to a reliable store without
    duplicate titles. *)
Lemma sync_story_step payload project story (w : World) :
  titles_unique project w -> reliable w ->
  let w' := snd (sync_story payload project story w) in
  titles_unique project w' /\ reliable w' /\
  (forall t, matches project t w = 1 -> matches project t w' = 1) /\
  (forall p, payload story = Ok p -> matches project (fs_title story) w' = 1) /\
  (matches project (fs_title story) w = 1 ->
   map us_id (user_stories w') = map us_id (user_stories w) /\
   map us_title (user_stories w') = map us_title (user_stories w) /\
   next_id w' = next_id w).
Proof.
  intros Hu Hr. pose proof (reliable_tl w Hr) as Htl.
  rewrite (sync_story_run payload project story w Hr).
  destruct (payload story) as [p|e]; cbn [snd].
  2:{ repeat split; auto. discriminate. }
  destruct (existing_story project (fs_title story) w) as [r|] eqn:He; cbn [snd].
  - assert (Hm : forall t,
               matches project t
                 (set_user_stories
                    (map (fun r' => if (us_id r' =? us_id r)%nat then apply_payload p r' else r'))
                    (set_faults (tl (faults w)) w))
               = matches project t w).
    { intro t. apply matches_update. intro x.
      destruct (us_id x =? us_id r)%nat; now split. }
    split; [intro t; rewrite Hm; apply Hu|].
    split; [exact Htl|].
    split; [intros t; now rewrite Hm|].
    split; [intros p' _; rewrite Hm; apply existing_story_covered; eauto|].
    intros _. cbn. repeat split.
    + rewrite map_map. apply map_ext. intro x. now destruct (us_id x =? us_id r)%nat.
    + rewrite map_map. apply map_ext. intro x. now destruct (us_id x =? us_id r)%nat.
  - pose proof (existing_story_none project (fs_title story) w Hu He) as H0.
    match goal with
    | |- context [set_user_stories (fun rows => rows ++ [?row]) _] => set (new := row)
    end.
    assert (Hm : forall t,
               matches project t
                 (set_next_id (S (next_id w))
                    (set_user_stories (fun rows => rows ++ [new])
                       (set_faults (tl (faults w)) w)))
               = matches project t w + (if String.eqb (fs_title story) t then 1 else 0)).
    { intro t. now rewrite matches_insert. }
    split.
    { intro t. rewrite Hm. destruct (String.eqb_spec (fs_title story) t) as [<-|_].
      - rewrite H0. lia.
      - specialize (Hu t). lia. }
    split; [exact Htl|].
    split.
    { intros t Ht. rewrite Hm. destruct (String.eqb_spec (fs_title story) t) as [<-|_];
        [rewrite H0 in Ht; discriminate|lia]. }
    split; [intros p' _; now rewrite Hm, String.eqb_refl, H0|].
    rewrite H0. discriminate.
Qed.

Lemma only_updates_refl (w : World) : only_updates w w.
Proof. now repeat split. Qed.

Lemma only_updates_trans (w1 w2 w3 : World) :
  only_updates w1 w2 -> only_updates w2 w3 -> only_updates w1 w3.
Proof. intros (A & B & C) (D & E & F). repeat split; congruence. Qed.

Lemma settled_refl project (w : World) :
  titles_unique project w -> reliable w -> settled project w w.
Proof. intros. repeat split; auto. Qed.

Lemma settled_trans project (w1 w2 w3 : World) :
  settled project w1 w2 -> settled project w2 w3 -> settled project w1 w3.
Proof. intros (A & B & C) (D & E & F). repeat split; auto. Qed.

Lemma sync_story_result payload project story (w : World) :
  reliable w ->
  match payload story with
  | Ok _ => fst (sync_story payload project story w) = Ok true
  | Raise e => sync_story payload project story w = (Raise e, w)
  end.
Proof.
  intro Hr. rewrite (sync_story_run payload project story w Hr).
  destruct (payload story); [|reflexivity].
  now destruct (existing_story project (fs_title story) w).
Qed.

(** A run of the loop: every story it gets to has its row afterwards. *)
Lemma sync_stories_settles payload project fetched :
  forall count (w : World),
    titles_unique project w -> reliable w ->
    let w' := snd (sync_stories payload project fetched count w) in
    settled project w w' /\
    (forall story, In story (reached payload fetched) ->
                   matches project (fs_title story) w' = 1).
Proof.
  induction fetched as [|story rest IH]; intros count w Hu Hr; cbn [sync_stories reached].
  - split; [now apply settled_refl|intros story []].
  - destruct (sync_story_step payload project story w Hu Hr) as (Hu1 & Hr1 & Hkeep & Hnew & _).
    pose proof (sync_story_result payload project story w Hr) as Hres.
    destruct (payload story) as [p|e] eqn:Hp.
    + destruct (sync_story payload project story w) as [res w1]. cbn [fst snd] in *.
      subst res.
      destruct (IH (S count) w1 Hu1 Hr1) as (Hs & Hin).
      split.
      * apply (settled_trans project w w1); [now repeat split|exact Hs].
      * intros s [<-|Hs']; [|now apply Hin].
        destruct Hs as (_ & _ & Hk). apply Hk. now apply (Hnew p).
    + rewrite Hres. cbn [snd]. split; [now apply settled_refl|intros s []].
Qed.

(** A run of the loop over stories that all have their row: updates
    only. *)
Lemma sync_stories_only_updates payload project fetched :
  forall count (w : World),
    titles_unique project w -> reliable w ->
    (forall story, In story (reached payload fetched) ->
                   matches project (fs_title story) w = 1) ->
    only_updates w (snd (sync_stories payload project fetched count w)).
Proof.
  induction fetched as [|story rest IH]; intros count w Hu Hr Hcov;
    cbn [sync_stories reached] in *.
  - apply only_updates_refl.
  - destruct (sync_story_step payload project story w Hu Hr)
      as (Hu1 & Hr1 & Hkeep & _ & Hsame).
    pose proof (sync_story_result payload project story w Hr) as Hres.
    destruct (payload story) as [p|e] eqn:Hp.
    + destruct (sync_story payload project story w) as [res w1]. cbn [fst snd] in *.
      subst res.
      apply (only_updates_trans w w1).
      * apply Hsame, Hcov. now left.
      * apply IH; auto. intros s Hs. apply Hkeep, Hcov. now right.
    + rewrite Hres. apply only_updates_refl.
Qed.

Lemma settled_console project msg (w w' : World) :
  settled project w w' -> settled project w (console_error msg w').
Proof. intros (A & B & C). repeat split; auto. Qed.

Lemma sync_provider_settles failure payload project reply count (w : World) :
  titles_unique project w -> reliable w ->
  let w' := snd (sync_provider failure payload project reply count w) in
  settled project w w' /\
  (forall t, In t (reply_titles payload reply) -> matches project t w' = 1).
Proof.
  intros Hu Hr. unfold sync_provider, reply_titles.
  destruct reply as [|[|] [fetched|]]; cbn [snd];
    try (split; [try apply settled_console; now apply settled_refl|intros t []]).
  destruct (sync_stories_settles payload project fetched count w Hu Hr) as (Hs & Hin).
  destruct (sync_stories payload project fetched count w) as [[n [e|]] w1]; cbn [snd] in *.
  - split; [now apply settled_console|].
    intros t Ht. apply in_map_iff in Ht as (story & <- & Hst). now apply Hin.
  - split; [exact Hs|].
    intros t Ht. apply in_map_iff in Ht as (story & <- & Hst). now apply Hin.
Qed.

Lemma only_updates_console msg (w w' : World) :
  only_updates w w' -> only_updates w (console_error msg w').
Proof. intros (A & B & C). now repeat split. Qed.

Lemma sync_provider_only_updates failure payload project reply count (w : World) :
  titles_unique project w -> reliable w ->
  (forall t, In t (reply_titles payload reply) -> matches project t w = 1) ->
  only_updates w (snd (sync_provider failure payload project reply count w)).
Proof.
  intros Hu Hr Hcov. unfold sync_provider, reply_titles in *.
  destruct reply as [|[|] [fetched|]]; cbn [snd];
    try (try apply only_updates_console; now apply only_updates_refl).
  pose proof (sync_stories_only_updates payload project fetched count w Hu Hr) as H.
  destruct (sync_stories payload project fetched count w) as [[n [e|]] w1]; cbn [snd] in *.
  - apply only_updates_console, H. intros story Hs. apply Hcov, in_map, Hs.
  - apply H. intros story Hs. apply Hcov, in_map, Hs.
Qed.

Lemma sync_providers_settles project savedConfigs jiraReply azureReply (w : World) :
  titles_unique project w -> reliable w ->
  let w' := snd (sync_providers project savedConfigs jiraReply azureReply w) in
  settled project w w' /\
  (forall t, In t (run_titles savedConfigs jiraReply azureReply) ->
             matches project t w' = 1).
Proof.
  intros Hu Hr. unfold sync_providers, run_titles.
  assert (H1 : let r := if jira_ready savedConfigs
                        then sync_provider "Failed to sync Jira stories:" jira_payload
                               project jiraReply 0 w
                        else (0, w) in
               settled project w (snd r) /\
               (forall t, In t (if jira_ready savedConfigs
                                then reply_titles jira_payload jiraReply else []) ->
                          matches project t (snd r) = 1)).
  { destruct (jira_ready savedConfigs).
    - now apply sync_provider_settles.
    - split; [now apply settled_refl|intros t []]. }
  destruct (if jira_ready savedConfigs then sync_provider _ _ _ _ _ _ else _) as [n1 w1].
  cbn [snd] in H1. destruct H1 as ((Hu1 & Hr1 & Hk1) & Hin1).
  destruct (azure_ready savedConfigs).
  - destruct (sync_provider_settles "Failed to sync Azure DevOps stories:" azure_payload
                project azureReply n1 w1 Hu1 Hr1) as (Hs2 & Hin2).
    split.
    + apply (settled_trans project w w1); [now repeat split|exact Hs2].
    + intros t Ht. apply in_app_or in Ht as [Ht|Ht]; [|now apply Hin2].
      destruct Hs2 as (_ & _ & Hk2). now apply Hk2, Hin1.
  - cbn [snd]. split; [now repeat split|].
    intros t Ht. rewrite app_nil_r in Ht. now apply Hin1.
Qed.

Lemma sync_providers_only_updates project savedConfigs jiraReply azureReply (w : World) :
  titles_unique project w -> reliable w ->
  (forall t, In t (run_titles savedConfigs jiraReply azureReply) ->
             matches project t w = 1) ->
  only_updates w (snd (sync_providers project savedConfigs jiraReply azureReply w)).
Proof.
  intros Hu Hr Hcov. unfold sync_providers, run_titles in *.
  assert (H1 : let r := if jira_ready savedConfigs
                        then sync_provider "Failed to sync Jira stories:" jira_payload
                               project jiraReply 0 w
                        else (0, w) in
               only_updates w (snd r) /\ settled project w (snd r)).
  { destruct (jira_ready savedConfigs).
    - split.
      + apply sync_provider_only_updates; auto.
        intros t Ht. apply Hcov, in_or_app. now left.
      + now apply sync_provider_settles.
    - split; [apply only_updates_refl|now apply settled_refl]. }
  destruct (if jira_ready savedConfigs then sync_provider _ _ _ _ _ _ else _) as [n1 w1].
  cbn [snd] in H1. destruct H1 as (Ho1 & Hu1 & Hr1 & Hk1).
  destruct (azure_ready savedConfigs); [|exact Ho1].
  apply (only_updates_trans w w1); [exact Ho1|].
  apply sync_provider_only_updates; auto.
  intros t Ht. apply Hk1, Hcov, in_or_app. now right.
Qed.

Lemma syncFromIntegrations_store project savedConfigs jiraReply azureReply (w : World) :
  let w1 := snd (sync_providers project savedConfigs jiraReply azureReply w) in
  let w' := syncFromIntegrations true (Some project) savedConfigs jiraReply azureReply w in
  user_stories w' = user_stories w1 /\ next_id w' = next_id w1 /\ faults w' = faults w1.
Proof.
  unfold syncFromIntegrations.
  destruct (sync_providers project savedConfigs jiraReply azureReply w) as [n w1].
  destruct (0 <? n)%nat; now repeat split.
Qed.

(** Idempotence where it holds: on a store whose look-ups are answered
    and whose writes succeed, and where no two stories of the project
    share a title, the second of two runs against the same replies only
    updates: it keeps the rows, with their identifiers and titles, and
    inserts none. *)
Theorem second_sync_only_updates
    (project : uuid) (savedConfigs : SavedConfigs) (jiraReply azureReply : Reply)
    (w : World) :
  titles_unique project w -> reliable w ->
  only_updates
    (syncFromIntegrations true (Some project) savedConfigs jiraReply azureReply w)
    (syncFromIntegrations true (Some project) savedConfigs jiraReply azureReply
       (syncFromIntegrations true (Some project) savedConfigs jiraReply azureReply w)).
Proof.
  intros Hu Hr.
  destruct (sync_providers_settles project savedConfigs jiraReply azureReply w Hu Hr)
    as ((Hu1 & Hr1 & _) & Hcov).
  destruct (syncFromIntegrations_store project savedConfigs jiraReply azureReply w)
    as (Hs & Hn & Hf).
  set (w1 := syncFromIntegrations true (Some project) savedConfigs jiraReply azureReply w)
    in *.
  assert (Hm : forall t, matches project t w1
                         = matches project t
                             (snd (sync_providers project savedConfigs jiraReply azureReply w)))
    by (intro t; unfold matches; now rewrite Hs).
  assert (Hu' : titles_unique project w1) by (intro t; rewrite Hm; apply Hu1).
  assert (Hr' : reliable w1) by (unfold reliable; now rewrite Hf).
  pose proof (sync_providers_only_updates project savedConfigs jiraReply azureReply w1
                Hu' Hr') as H.
  destruct (syncFromIntegrations_store project savedConfigs jiraReply azureReply w1)
    as (Hs2 & Hn2 & _).
  destruct H as (A & B & C); [intros t Ht; rewrite Hm; now apply Hcov|].
  unfold only_updates. rewrite Hs2, Hn2. auto.
Qed.


(** ** Synchronization: a failing provider *)


Lemma same_store_console (msg : string) (w1 w2 : World) :
  same_store w1 w2 -> same_store (console_error msg w1) w2.
Proof. intros (H1 & H2 & H3 & H4 & H5 & H6). now repeat split. Qed.












(** *** The count that is reported *)













(** ** Report statistics *)

Lemma rates_up_to_200 :
  forallb (fun total => forallb (fun passed => rate_ok passed total) (seq 0 (S total)))
          (seq 1 200) = true.
Proof. vm_compute. reflexivity. Qed.

Lemma passRate_of_nearest (passed total : nat) :
  0 < total <= 200 -> passed <= total ->
  exists tenths,
    passRate_of passed total = Fixed1 (Some tenths) /\
    nearest_tenth tenths passed total /\
    is_finite (parseFloat (Fixed1 (Some tenths))) = true.
Proof.
  intros Ht Hp. pose proof rates_up_to_200 as H.
  rewrite forallb_forall in H. specialize (H total).
  rewrite forallb_forall in H.
  assert (Hok : rate_ok passed total = true).
  { apply H; apply in_seq; lia. }
  unfold rate_ok in Hok.
  destruct (passRate_of passed total) as [[n|]|]; try discriminate.
  apply andb_true_iff in Hok as [Hn Hf]. exists n. repeat split; auto.
  unfold nearest_tenth. now apply Z.leb_le.
Qed.



Ltac split_match H :=
  match type of H with
  | context [match ?x with _ => _ end] => destruct x eqn:?; try discriminate
  | context [if ?x then _ else _] => destruct x eqn:?; try discriminate
  end.

Lemma report_ok_inv (req : ReportRequest) (completion : ReportCompletion) (w w' : World)
    (testReport : jsval) (stats : Statistics) :
  generate_test_report_try req completion w = (Ok (ReportOk testReport stats), w') ->
  exists body testCases,
    rr_body req = Some body /\
    prop "testCases" body = Ok (Some (JArr testCases)) /\
    0 < List.length testCases <= 200 /\
    statistics testCases = Ok stats.
Proof.
  unfold generate_test_report_try, bind, lift, ret, throw, effect. intro H.
  repeat split_match H.
  injection H as <- <- <-. eexists _, _. repeat split; eauto.
  - cbn. lia.
  - now apply Nat.ltb_ge.
Qed.




(** An exact tie: 23 passed of 80 is 28.75 percent; the product in
    double precision falls below it and the rate printed is 28.7. *)
Remark pass_rate_at_a_tie : passRate_of 23 80 = Fixed1 (Some 287%Z).
Proof. reflexivity. Qed.

(** ** Synchronization: what a run keeps *)

Lemma keeps_stories_refl project (w : World) : keeps_stories project w w.
Proof.
  split; [|now split]. exists []. cbn. rewrite app_nil_r. now split.
Qed.

Lemma keeps_stories_trans project (w1 w2 w3 : World) :
  keeps_stories project w1 w2 -> keeps_stories project w2 w3 ->
  keeps_stories project w1 w3.
Proof.
  intros ((a1 & E1 & F1) & T1 & L1) ((a2 & E2 & F2) & T2 & L2).
  split; [|split; congruence].
  exists (a1 ++ a2). split.
  - rewrite E2, E1, map_app, app_assoc. reflexivity.
  - apply Forall_app. now split.
Qed.

Lemma keeps_stories_console project msg (w w' : World) :
  keeps_stories project w w' -> keeps_stories project w (console_error msg w').
Proof. intros (A & B & C). now split. Qed.

Lemma keeps_stories_toast project t (w w' : World) :
  keeps_stories project w w' -> keeps_stories project w (toast t w').
Proof. intros (A & B & C). now split. Qed.

Lemma sync_story_keeps payload project story (w : World) :
  keeps_stories (Some project) w (snd (sync_story payload project story w)).
Proof.
  unfold sync_story, select_story_by_title, bind, lift, ret, update_story, insert_story,
    write.
  destruct (existing_story project (fs_title story) w) as [r|]; cbn;
    destruct (payload story) as [p|e]; cbn; try apply keeps_stories_refl;
    destruct (hd false (faults w)); cbn.
  - split; [|now split]. exists []. cbn. rewrite app_nil_r. now split.
  - split; [|now split]. exists []. cbn. rewrite app_nil_r. split; [|constructor].
    rewrite map_map. apply map_ext. intro x.
    now destruct (Nat.eqb (us_id x) (us_id r)).
  - split; [|now split]. exists []. cbn. rewrite app_nil_r. now split.
  - split; [|now split].
    exists [{| us_id := next_id w; us_project_id := project; us_title := fs_title story;
               us_description := sp_description p;
               us_acceptance_criteria := sp_acceptance_criteria p;
               us_priority := sp_priority p; us_status := sp_status p |}].
    cbn. rewrite map_app. split; [reflexivity|]. now constructor.
Qed.

Lemma sync_stories_keeps payload project fetched :
  forall count (w : World),
    keeps_stories (Some project) w
      (snd (sync_stories payload project fetched count w)).
Proof.
  induction fetched as [|story rest IH]; intros count w; cbn [sync_stories].
  - apply keeps_stories_refl.
  - pose proof (sync_story_keeps payload project story w) as H.
    destruct (sync_story payload project story w) as [[touched|e] w1]; cbn [snd] in *.
    + eapply keeps_stories_trans; [exact H|apply IH].
    + exact H.
Qed.

Lemma sync_provider_keeps failure payload project reply count (w : World) :
  keeps_stories (Some project) w
    (snd (sync_provider failure payload project reply count w)).
Proof.
  unfold sync_provider.
  destruct reply as [|[|] [fetched|]]; cbn [snd];
    try apply keeps_stories_refl.
  - apply keeps_stories_console, keeps_stories_refl.
  - pose proof (sync_stories_keeps payload project fetched count w) as H.
    destruct (sync_stories payload project fetched count w) as [[n [e|]] w1];
      cbn [snd] in *; [apply keeps_stories_console|]; exact H.
Qed.

Lemma sync_providers_keeps project savedConfigs jiraReply azureReply (w : World) :
  keeps_stories (Some project) w
    (snd (sync_providers project savedConfigs jiraReply azureReply w)).
Proof.
  unfold sync_providers.
  assert (H1 : keeps_stories (Some project) w
                 (snd (if jira_ready savedConfigs
                       then sync_provider "Failed to sync Jira stories:" jira_payload
                              project jiraReply 0 w
                       else (0, w)))).
  { destruct (jira_ready savedConfigs);
      [apply sync_provider_keeps|apply keeps_stories_refl]. }
  destruct (if jira_ready savedConfigs then sync_provider _ _ _ _ _ _ else _) as [n1 w1].
  cbn [snd] in H1.
  destruct (azure_ready savedConfigs); [|exact H1].
  eapply keeps_stories_trans; [exact H1|apply sync_provider_keeps].
Qed.

(** X1.  A synchronization never removes or re-titles a story and never
    touches the test cases or the usage log, whatever the providers
    answer and whichever write fails: the stories that were there are
    still there, in their order, with their identifier, project and
    title, and whatever is new comes after them and lies in the current
    project. *)
Theorem sync_keeps_every_story
    (logged_in : bool) (currentProject : option uuid) (savedConfigs : SavedConfigs)
    (jiraReply azureReply : Reply) (w : World) :
  keeps_stories currentProject w
    (syncFromIntegrations logged_in currentProject savedConfigs jiraReply azureReply w).
Proof.
  unfold syncFromIntegrations.
  destruct logged_in; [destruct currentProject as [project|]|];
    try (apply keeps_stories_toast, keeps_stories_refl).
  pose proof (sync_providers_keeps project savedConfigs jiraReply azureReply w) as H.
  destruct (sync_providers project savedConfigs jiraReply azureReply w) as [n w1].
  cbn [snd] in H. destruct (0 <? n)%nat; apply keeps_stories_toast, H.
Qed.

(** ** Synchronization: the other projects *)

Lemma NoDup_map_eq {A B} (f : A -> B) (l : list A) (a b : A) :
  NoDup (map f l) -> In a l -> In b l -> f a = f b -> a = b.
Proof.
  induction l as [|x l IH]; cbn; [contradiction|].
  intros Hnd [->|Ha] [->|Hb] E; inversion Hnd as [|? ? Hx Hl]; subst; auto.
  - elim Hx. rewrite E. now apply in_map.
  - elim Hx. rewrite <- E. now apply in_map.
Qed.

Lemma filter_map_fixed {A} (q : A -> bool) (g : A -> A) (l : list A) :
  (forall x, In x l -> (q x = true -> g x = x) /\ q (g x) = q x) ->
  filter q (map g l) = filter q l.
Proof.
  induction l as [|x l IH]; intro H; cbn; [reflexivity|].
  destruct (H x (or_introl eq_refl)) as [Hfix Hq]. rewrite Hq.
  rewrite IH by (intros y Hy; apply H; now right).
  destruct (q x); [now rewrite Hfix|reflexivity].
Qed.

Lemma existing_story_In project title (w : World) (r : UserStoryRow) :
  existing_story project title w = Some r ->
  In r (user_stories w) /\ us_project_id r = project.
Proof.
  unfold existing_story. intro H. apply single_Some in H.
  assert (Hin : In r (filter (story_matches project title) (user_stories w)))
    by (rewrite H; now left).
  apply filter_In in Hin as [Hin Hm]. split; [exact Hin|].
  now apply story_matches_spec in Hm.
Qed.

Lemma sync_story_elsewhere payload project story (w : World) :
  ids_unique w ->
  let w' := snd (sync_story payload project story w) in
  ids_unique w' /\ elsewhere project w' = elsewhere project w.
Proof.
  intros [Hnd Hlt].
  unfold sync_story, select_story_by_title, bind, lift, ret, update_story, insert_story,
    write, ids_unique, elsewhere.
  destruct (existing_story project (fs_title story) w) as [r|] eqn:Hex; cbn;
    destruct (payload story) as [p|e]; cbn; auto;
    destruct (hd false (faults w)); cbn; auto.
  - apply existing_story_In in Hex as [Hin Hp].
    split; [split|].
    + rewrite map_map.
      erewrite map_ext; [exact Hnd|].
      intro x. now destruct (Nat.eqb (us_id x) (us_id r)).
    + rewrite Forall_forall in *. intros x Hx. apply in_map_iff in Hx as (y & <- & Hy).
      specialize (Hlt y Hy). now destruct (Nat.eqb (us_id y) (us_id r)).
    + apply filter_map_fixed. intros x Hx. split.
      * intro Hq. destruct (Nat.eqb (us_id x) (us_id r)) eqn:E; [|reflexivity].
        apply Nat.eqb_eq in E.
        pose proof (NoDup_map_eq us_id _ x r Hnd Hx Hin E) as ->.
        rewrite Hp, Nat.eqb_refl in Hq. discriminate.
      * now destruct (Nat.eqb (us_id x) (us_id r)).
  - split; [split|].
    + rewrite map_app. cbn. apply NoDup_app.
      * exact Hnd.
      * constructor; [intros []|constructor].
      * intros x Hx [<-|[]]. apply in_map_iff in Hx as (y & E & Hy).
        rewrite Forall_forall in Hlt. specialize (Hlt y Hy). lia.
    + apply Forall_app. split.
      * eapply Forall_impl; [|exact Hlt]. cbn. intros; lia.
      * constructor; [cbn; lia|constructor].
    + rewrite filter_app. cbn. rewrite Nat.eqb_refl. cbn. apply app_nil_r.
Qed.

Lemma sync_stories_elsewhere payload project fetched :
  forall count (w : World),
    ids_unique w ->
    let w' := snd (sync_stories payload project fetched count w) in
    ids_unique w' /\ elsewhere project w' = elsewhere project w.
Proof.
  induction fetched as [|story rest IH]; intros count w Hw; cbn [sync_stories].
  - now split.
  - pose proof (sync_story_elsewhere payload project story w Hw) as H.
    destruct (sync_story payload project story w) as [[touched|e] w1]; cbn [snd] in *.
    + destruct H as [H1 H2].
      destruct (IH (if touched then S count else count) w1 H1) as [H3 H4].
      split; [exact H3|congruence].
    + exact H.
Qed.

Lemma sync_provider_elsewhere failure payload project reply count (w : World) :
  ids_unique w ->
  let w' := snd (sync_provider failure payload project reply count w) in
  ids_unique w' /\ elsewhere project w' = elsewhere project w.
Proof.
  intro Hw. unfold sync_provider.
  destruct reply as [|[|] [fetched|]]; cbn [snd]; try (now split).
  pose proof (sync_stories_elsewhere payload project fetched count w Hw) as H.
  destruct (sync_stories payload project fetched count w) as [[n [e|]] w1];
    cbn [snd] in *; exact H.
Qed.

(** X2.  When the identifiers of the stories are a primary key, a
    synchronization into one project leaves the stories of every other
    project exactly as they were, whatever the providers answer and
    whichever write fails. *)
Theorem sync_leaves_other_projects_alone
    (logged_in : bool) (project : uuid) (savedConfigs : SavedConfigs)
    (jiraReply azureReply : Reply) (w : World) :
  ids_unique w ->
  elsewhere project
    (syncFromIntegrations logged_in (Some project) savedConfigs jiraReply azureReply w)
  = elsewhere project w.
Proof.
  intro Hw. unfold syncFromIntegrations.
  destruct logged_in; [|reflexivity].
  unfold sync_providers.
  assert (H1 : let r := if jira_ready savedConfigs
                        then sync_provider "Failed to sync Jira stories:" jira_payload
                               project jiraReply 0 w
                        else (0, w) in
               ids_unique (snd r) /\ elsewhere project (snd r) = elsewhere project w).
  { destruct (jira_ready savedConfigs);
      [now apply sync_provider_elsewhere|now split]. }
  destruct (if jira_ready savedConfigs then sync_provider _ _ _ _ _ _ else _) as [n1 w1].
  cbn [snd] in H1. destruct H1 as [Hw1 He1].
  assert (H2 : let r := if azure_ready savedConfigs
                        then sync_provider "Failed to sync Azure DevOps stories:"
                               azure_payload project azureReply n1 w1
                        else (n1, w1) in
               elsewhere project (snd r) = elsewhere project w).
  { destruct (azure_ready savedConfigs); [|exact He1].
    destruct (sync_provider_elsewhere "Failed to sync Azure DevOps stories:"
                azure_payload project azureReply n1 w1 Hw1) as [_ H].
    cbn [snd] in *. congruence. }
  destruct (if azure_ready savedConfigs then sync_provider _ _ _ _ _ _ else _) as [n2 w2].
  cbn [snd] in H2. destruct (0 <? n2)%nat; exact H2.
Qed.

Lemma sync_leaves_other_projects_alone_witness :
  ids_unique two_projects_world /\
  elsewhere 0
    (syncFromIntegrations true (Some 0) azure_only Failed repeating_feed
       two_projects_world)
  = [demo_story_row 2 7 "login"].
Proof.
  assert (H : ids_unique two_projects_world).
  { split; cbn.
    - repeat constructor; cbn; intuition discriminate.
    - repeat constructor; cbn; lia. }
  split; [exact H|].
  exact (sync_leaves_other_projects_alone true 0 azure_only Failed repeating_feed
           two_projects_world H).
Defined.

(** ** Synchronization: one row per title *)

(** X3.  When every request to the store succeeds (each look-up is
    answered, which is how [select_story_by_title] embeds it, and each
    write takes effect, [reliable]) and no two stories of the project
    share a title, a synchronization creates no duplicate: afterwards no
    two stories of the project share a title, and every title the run
    got to has exactly one row, also when the providers list a title
    several times.  A look-up whose request fails is outside this
    statement: its title would be inserted again. *)
Theorem sync_keeps_titles_unique
    (project : uuid) (savedConfigs : SavedConfigs) (jiraReply azureReply : Reply)
    (w : World) :
  titles_unique project w -> reliable w ->
  let w' := syncFromIntegrations true (Some project) savedConfigs jiraReply azureReply w in
  titles_unique project w' /\
  (forall t, In t (run_titles savedConfigs jiraReply azureReply) ->
             matches project t w' = 1).
Proof.
  intros Hu Hr w'.
  destruct (sync_providers_settles project savedConfigs jiraReply azureReply w Hu Hr)
    as ((Hu1 & _ & _) & Hcov).
  destruct (syncFromIntegrations_store project savedConfigs jiraReply azureReply w)
    as (Hs & _ & _).
  fold w' in Hs.
  assert (Hm : forall t, matches project t w'
                         = matches project t
                             (snd (sync_providers project savedConfigs jiraReply azureReply w)))
    by (intro t; unfold matches; now rewrite Hs).
  split.
  - intro t. rewrite Hm. apply Hu1.
  - intros t Ht. rewrite Hm. now apply Hcov.
Qed.

Lemma login_world_titles_unique : titles_unique 0 login_world.
Proof.
  intro t. unfold matches, login_world, demo_world. cbn [user_stories filter].
  destruct (story_matches 0 t (demo_story_row 1 0 "login")); cbn; lia.
Defined.

Lemma login_world_reliable : reliable login_world.
Proof. constructor. Defined.

Lemma sync_keeps_titles_unique_witness :
  titles_unique 0 login_world /\ reliable login_world /\
  matches 0 "Untitled"
    (syncFromIntegrations true (Some 0) azure_only Failed repeating_feed login_world) = 1.
Proof.
  split; [exact login_world_titles_unique|].
  split; [exact login_world_reliable|].
  apply (proj2 (sync_keeps_titles_unique 0 azure_only Failed repeating_feed login_world
                  login_world_titles_unique login_world_reliable)).
  cbn. now left.
Defined.

Lemma sync_stays_settled
    (project : uuid) (savedConfigs : SavedConfigs) (jiraReply azureReply : Reply)
    (w : World) :
  titles_unique project w -> reliable w ->
  let w' := syncFromIntegrations true (Some project) savedConfigs jiraReply azureReply w in
  titles_unique project w' /\ reliable w'.
Proof.
  intros Hu Hr w'.
  destruct (sync_providers_settles project savedConfigs jiraReply azureReply w Hu Hr)
    as ((Hu1 & Hr1 & _) & _).
  destruct (syncFromIntegrations_store project savedConfigs jiraReply azureReply w)
    as (Hs & _ & Hf).
  fold w' in Hs, Hf. split.
  - intro t. unfold matches. rewrite Hs. apply Hu1.
  - unfold reliable. now rewrite Hf.
Qed.

(** X4.  Against replies that do not change, every run of the
    synchronization after the first only updates, when every request to
    the store succeeds (each look-up is answered, which is how
    [select_story_by_title] embeds it, and each write takes effect,
    [reliable]) and no two stories of the project share a title: the run
    number n + 2 keeps the rows that the run number n + 1 left, with
    their identifiers and titles, and inserts none.  A run whose look-up
    request fails is outside this statement: it would insert the title
    again. *)
Theorem repeated_sync_only_updates
    (project : uuid) (savedConfigs : SavedConfigs) (jiraReply azureReply : Reply)
    (w : World) (n : nat) :
  titles_unique project w -> reliable w ->
  let sync := syncFromIntegrations true (Some project) savedConfigs jiraReply azureReply in
  only_updates (Nat.iter (S n) sync w) (Nat.iter (S (S n)) sync w).
Proof.
  intros Hu Hr sync.
  assert (H : titles_unique project (Nat.iter n sync w) /\ reliable (Nat.iter n sync w)).
  { induction n as [|n [IH1 IH2]]; [now split|].
    cbn [Nat.iter nat_rect]. now apply sync_stays_settled. }
  destruct H as [H1 H2].
  exact (second_sync_only_updates project savedConfigs jiraReply azureReply
           (Nat.iter n sync w) H1 H2).
Qed.

Lemma repeated_sync_only_updates_witness :
  titles_unique 0 login_world /\ reliable login_world /\
  only_updates
    (Nat.iter 2 (syncFromIntegrations true (Some 0) azure_only Failed repeating_feed)
       login_world)
    (Nat.iter 3 (syncFromIntegrations true (Some 0) azure_only Failed repeating_feed)
       login_world).
Proof.
  split; [exact login_world_titles_unique|].
  split; [exact login_world_reliable|].
  exact (repeated_sync_only_updates 0 azure_only Failed repeating_feed login_world 1
           login_world_titles_unique login_world_reliable).
Defined.

(** ** Synchronization: the status of a Jira story *)

Lemma lower_char_space (c : ascii) :
  Ascii.eqb (lower_char c) " " = Ascii.eqb c " ".
Proof. destruct c as [[] [] [] [] [] [] [] []]; reflexivity. Qed.

Lemma count_char_toLowerCase (s : string) :
  count_char " " (toLowerCase s) = count_char " " s.
Proof.
  induction s as [|c s IH]; cbn; [reflexivity|]. now rewrite lower_char_space, IH.
Qed.

Lemma toLowerCase_app (a b : string) :
  toLowerCase (a ++ b) = (toLowerCase a ++ toLowerCase b)%string.
Proof. induction a as [|c a IH]; cbn; [reflexivity|]. now rewrite IH. Qed.

Lemma replace_first_absent (a b : ascii) (s : string) :
  count_char a s = 0 -> replace_first a b s = s.
Proof.
  induction s as [|c s IH]; cbn; [reflexivity|].
  destruct (Ascii.eqb c a); [discriminate|]. intro H. now rewrite IH.
Qed.

Lemma replace_first_at (a b : ascii) (pre post : string) :
  count_char a pre = 0 ->
  replace_first a b (pre ++ String a post) = (pre ++ String b post)%string.
Proof.
  induction pre as [|c pre IH]; cbn.
  - now rewrite Ascii.eqb_refl.
  - destruct (Ascii.eqb c a); [discriminate|]. intro H. now rewrite IH.
Qed.

(** X5.  The Jira branch stores a status in lower case with its first
    space, and only that one, turned into a hyphen: a status that reads
    [pre], a space, [post], with no space in [pre], is stored as the
    lowered [pre], a hyphen and the lowered [post], whose spaces stay; a
    status without a space is stored lowered; the empty status is stored
    as "draft". *)
Theorem jira_status_hyphenates_first_space
    (story : FetchedStory) (p : StoryPayload) (s : string) :
  jira_payload story = Ok p ->
  fs_status story = Some (JStr s) ->
  (forall pre post,
      s = (pre ++ " " ++ post)%string -> count_char " " pre = 0 ->
      sp_status p = Some (JStr (toLowerCase pre ++ "-" ++ toLowerCase post))) /\
  (count_char " " s = 0 -> s <> "" -> sp_status p = Some (JStr (toLowerCase s))) /\
  (s = "" -> sp_status p = Some (JStr "draft")).
Proof.
  unfold jira_payload. intros H Hs. rewrite Hs in H. cbn in H.
  destruct (extractTextFromJiraContent (fs_description story)) as [d|]; [|discriminate].
  destruct (toLowerCase_opt (fs_priority story)) as [pr|]; [|discriminate].
  cbn in H. injection H as <-. cbn [sp_status replace_space_opt].
  split; [|split].
  - intros pre post -> Hpre.
    rewrite toLowerCase_app. cbn [append toLowerCase].
    change (lower_char " ") with " "%char.
    rewrite replace_first_at by now rewrite count_char_toLowerCase.
    unfold or_js. cbn [truthy_opt truthy].
    now destruct (toLowerCase pre).
  - intros Hnone Hne.
    rewrite replace_first_absent by now rewrite count_char_toLowerCase.
    unfold or_js. cbn [truthy_opt truthy].
    destruct s; [now elim Hne|reflexivity].
  - intros ->. reflexivity.
Qed.

Lemma jira_status_hyphenates_first_space_witness :
  jira_payload jira_story_in_review
  = Ok {| sp_description := Some (JStr "As a guest");
          sp_acceptance_criteria := Some (JStr "");
          sp_priority := Some (JStr "high");
          sp_status := Some (JStr "ready-for qa") |} /\
  Some (JStr "ready-for qa")
  = Some (JStr (toLowerCase "Ready" ++ "-" ++ toLowerCase "For QA")).
Proof.
  split; [reflexivity|].
  exact (proj1 (jira_status_hyphenates_first_space jira_story_in_review
                  {| sp_description := Some (JStr "As a guest");
                     sp_acceptance_criteria := Some (JStr "");
                     sp_priority := Some (JStr "high");
                     sp_status := Some (JStr "ready-for qa") |}
                  "Ready For QA" eq_refl eq_refl)
           "Ready" "For QA" eq_refl eq_refl).
Defined.

(** ** Test-case generation: a run that gets an answer *)

(** The run of [generateTestCases] on an answer that carries [success]
    and [testCases], for a listed story, a signed-in user, a configured
    endpoint, a selected project and a readable image. *)
Lemma generate_run
    (project : uuid) (savedConfigs : SavedConfigs) (stories : list UserStory)
    (storyId : uuid) (customPrompt : option string) (imageFile : option ImageRead)
    (data : json) (success testCases : jsval) (w : World) :
  find (fun s => Nat.eqb (st_id s) storyId) stories <> None ->
  openai_ready savedConfigs = true ->
  imageFile <> Some ReadRejected ->
  prop "success" data = Ok success ->
  prop "testCases" data = Ok testCases ->
  truthy_opt success = true -> truthy_opt testCases = true ->
  generateTestCases (fetch_reply (GenData data)) true (Some project) savedConfigs stories
    storyId customPrompt imageFile w
  = let w1 := snd (delete_test_cases_of storyId project w) in
    match js_map (testCaseToInsert project storyId) testCases with
    | Raise _ =>
        (stories,
         toast toast_generation_failed (console_error "Error generating test cases:" w1))
    | Ok new =>
        match insert_test_cases new w1 with
        | (Ok false, w2) =>
            (map (mark_generated storyId (List.length new)) stories,
             toast (toast_generated (List.length new))
               (snd (complete_story storyId project w2)))
        | (_, w2) =>
            (stories,
             toast toast_generation_failed
               (console_error "Error generating test cases:" w2))
        end
    end.
Proof.
  intros Hfind Hready Himg Hs Ht Hts Htt.
  unfold generateTestCases.
  destruct (find _ stories) as [story|]; [|now elim Hfind].
  cbn [negb]. rewrite Hready.
  destruct (cfg_openai savedConfigs) as [azureConfig|] eqn:Hcfg;
    [|unfold openai_ready in Hready; rewrite Hcfg in Hready; discriminate].
  unfold generate_try, fetch_reply, bind, lift, throw, ret, effect.
  destruct imageFile as [[dataUrl type|]|]; [|now elim Himg|].
  all: rewrite Hs, Ht, Hts, Htt; cbn [andb].
  all: unfold delete_test_cases_of, insert_test_cases, complete_story, write.
  all: destruct (hd false (faults w)); cbn;
    destruct (js_map (testCaseToInsert project storyId) testCases) as [new|e]; cbn;
    try reflexivity.
  all: destruct (hd false (tl (faults w))); cbn; try reflexivity.
  all: destruct (hd false (tl (tl (faults w)))); reflexivity.
Qed.

(** What a run that ends with the success toast went through. *)
Lemma generate_success_inv
    (has_token : bool) (currentProject : option uuid) (savedConfigs : SavedConfigs)
    (stories : list UserStory) (storyId : uuid) (customPrompt : option string)
    (imageFile : option ImageRead) (data : json) (w : World) :
  reports_generated w
    (snd (generateTestCases (fetch_reply (GenData data)) has_token currentProject
            savedConfigs stories storyId customPrompt imageFile w)) ->
  exists project success testCases,
    has_token = true /\ currentProject = Some project /\
    find (fun s => Nat.eqb (st_id s) storyId) stories <> None /\
    openai_ready savedConfigs = true /\
    imageFile <> Some ReadRejected /\
    prop "success" data = Ok success /\
    prop "testCases" data = Ok testCases /\
    truthy_opt success = true /\ truthy_opt testCases = true.
Proof.
  unfold generateTestCases, reports_generated.
  destruct (find _ stories) as [story|] eqn:Hfind; cbn [snd]; [|no_success_toast].
  destruct has_token; cbn [negb]; [|no_success_toast].
  destruct (cfg_openai savedConfigs) as [azureConfig|]; [|no_success_toast].
  destruct (openai_ready savedConfigs) eqn:Hready; [|no_success_toast].
  unfold generate_try, fetch_reply, bind, lift, throw, ret, effect.
  destruct imageFile as [[dataUrl type|]|]; [|no_success_toast|].
  all: destruct (prop "success" data) as [success|]; [|no_success_toast].
  all: destruct (prop "testCases" data) as [testCases|]; [|no_success_toast].
  all: destruct (truthy_opt success) eqn:Hs; destruct (truthy_opt testCases) eqn:Ht;
    cbn [andb]; try no_success_toast.
  all: destruct currentProject as [project|]; [|no_success_toast].
  all: intros _; exists project, success, testCases.
  all: repeat split; auto; discriminate.
Qed.

Lemma filter_filter_same {A} (p : A -> bool) (l : list A) :
  filter p (filter p l) = filter p l.
Proof.
  apply filter_all, Forall_forall. intros x Hx. now apply filter_In in Hx.
Qed.

Lemma stored_rows_in_pair (project storyId : uuid) (testCases : jsval)
    (new : list TestCaseInsert) (first : uuid) :
  js_map (testCaseToInsert project storyId) testCases = Ok new ->
  Forall (fun r => of_story_in_project storyId project r = true) (stored_rows first new).
Proof.
  intro Hmap. apply stored_rows_Forall. intros id t Hin _.
  pose proof (js_map_fields _ _ _ _ Hmap) as Hall.
  rewrite Forall_forall in Hall. destruct (Hall t Hin) as (H1 & H2 & _).
  unfold of_story_in_project, of_story, stored_row; cbn.
  now rewrite H1, H2, !Nat.eqb_refl.
Qed.

Lemma filter_negb_all {A} (p : A -> bool) (l : list A) :
  Forall (fun x => p x = true) l -> filter (fun x => negb (p x)) l = [].
Proof.
  induction 1 as [|x l Hx _ IH]; cbn; [reflexivity|]. now rewrite Hx.
Qed.

Lemma length_stored_rows (first : uuid) (ts : list TestCaseInsert) :
  List.length (stored_rows first ts) = List.length ts.
Proof. revert first. induction ts as [|t ts IH]; intro first; cbn; congruence. Qed.

(** X6.  The regeneration is not atomic: when the answer carried
    [success] and [testCases] and the run nevertheless ends with the
    "Generation Failed" toast (the test cases cannot be mapped, or their
    insertion reports an error), the delete statement that took effect
    is not undone: the story is left without any test case, the test
    cases of the other stories are kept, and the stories and the
    component's list are as before. *)
Theorem failed_generation_keeps_the_deletion
    (project : uuid) (savedConfigs : SavedConfigs) (stories : list UserStory)
    (storyId : uuid) (customPrompt : option string) (imageFile : option ImageRead)
    (data : json) (success testCases : jsval) (w : World) :
  let out := generateTestCases (fetch_reply (GenData data)) true (Some project)
               savedConfigs stories storyId customPrompt imageFile w in
  prop "success" data = Ok success ->
  prop "testCases" data = Ok testCases ->
  truthy_opt success = true -> truthy_opt testCases = true ->
  imageFile <> Some ReadRejected ->
  hd false (faults w) = false ->
  reports_failure w (snd out) ->
  fst out = stories /\
  filter (of_story_in_project storyId project) (test_cases (snd out)) = [] /\
  test_cases (snd out)
  = filter (fun r => negb (of_story_in_project storyId project r)) (test_cases w) /\
  user_stories (snd out) = user_stories w.
Proof.
  intros out Hs Ht Hts Htt Himg Hdel Hfail.
  assert (Hfind : find (fun s => Nat.eqb (st_id s) storyId) stories <> None).
  { intro E. unfold out, generateTestCases in Hfail. rewrite E in Hfail.
    cbn in Hfail. now apply toasts_app_neq in Hfail. }
  assert (Hready : openai_ready savedConfigs = true).
  { destruct (openai_ready savedConfigs) eqn:E; [reflexivity|].
    unfold out, generateTestCases in Hfail.
    destruct (find _ stories); [|now elim Hfind].
    cbn [negb] in Hfail. rewrite E in Hfail.
    destruct (cfg_openai savedConfigs); cbn in Hfail;
      apply toasts_app_inv in Hfail; discriminate. }
  unfold reports_failure in Hfail. revert Hfail. unfold out.
  rewrite (generate_run project savedConfigs stories storyId customPrompt imageFile
             data success testCases w Hfind Hready Himg Hs Ht Hts Htt).
  unfold delete_test_cases_of, insert_test_cases, complete_story, write.
  rewrite Hdel. cbn.
  destruct (js_map (testCaseToInsert project storyId) testCases) as [new|e]; cbn.
  - destruct (hd false (tl (faults w))); cbn.
    + intros _. repeat split; auto. apply filter_none.
    + destruct (hd false (tl (tl (faults w)))); cbn;
        intro H; apply toasts_app_inv in H; discriminate.
  - intros _. repeat split; auto. apply filter_none.
Qed.

Lemma failed_generation_keeps_the_deletion_witness :
  reports_failure checkout_world_again
    (snd (generateTestCases (fetch_reply (GenData text_data)) true (Some 0)
            checkout_configs checkout_stories 1 None None checkout_world_again)) /\
  filter (of_story_in_project 1 0) (test_cases checkout_world_again)
  = [demo_test_case 3 0 (Some 1) "Guest pays by card"] /\
  filter (of_story_in_project 1 0)
    (test_cases
       (snd (generateTestCases (fetch_reply (GenData text_data)) true (Some 0)
               checkout_configs checkout_stories 1 None None checkout_world_again)))
  = [].
Proof.
  split; [reflexivity|]. split; [reflexivity|].
  refine (proj1 (proj2 (failed_generation_keeps_the_deletion 0 checkout_configs
                          checkout_stories 1 None None text_data
                          (Some (JBool true)) (Some (JStr "1. Guest pays by card"))
                          checkout_world_again
                          eq_refl eq_refl eq_refl eq_refl _ eq_refl eq_refl))).
  discriminate.
Defined.

(** X7.  Whatever the endpoint answers and however the run ends, a
    generation changes no test case outside its own story and project
    (none at all when no project is selected), and it keeps every story
    row with its identifier, project and title. *)
Theorem generation_touches_only_its_story
    (reply : GenReply) (has_token : bool) (currentProject : option uuid)
    (savedConfigs : SavedConfigs) (stories : list UserStory) (storyId : uuid)
    (customPrompt : option string) (imageFile : option ImageRead) (w : World) :
  let w' := snd (generateTestCases (fetch_reply reply) has_token currentProject
                   savedConfigs stories storyId customPrompt imageFile w) in
  filter (fun r => negb (in_pair storyId currentProject r)) (test_cases w')
  = filter (fun r => negb (in_pair storyId currentProject r)) (test_cases w) /\
  map story_key (user_stories w') = map story_key (user_stories w).
Proof.
  cbn zeta. unfold generateTestCases.
  destruct (find _ stories) as [story|] eqn:Hfind; cbn [snd]; [|now split].
  destruct has_token; cbn [negb]; [|now split].
  destruct (openai_ready savedConfigs) eqn:Hready;
    [|destruct (cfg_openai savedConfigs); now split].
  destruct (cfg_openai savedConfigs) as [azureConfig|] eqn:Hcfg; [|now split].
  assert (Hfind' : find (fun s => Nat.eqb (st_id s) storyId) stories <> None)
    by (rewrite Hfind; discriminate).
  destruct imageFile as [[dataUrl type|]|] eqn:Himg.
  2:{ unfold generate_try, bind, throw; cbn. now split. }
  all: destruct reply as [|data];
    [unfold generate_try, fetch_reply, bind, throw, ret; cbn; now split|].
  all: destruct (prop "success" data) as [success|] eqn:Hs;
    [|unfold generate_try, fetch_reply, bind, throw, ret, lift; cbn; rewrite Hs;
      now split].
  all: destruct (prop "testCases" data) as [testCases|] eqn:Ht;
    [|unfold generate_try, fetch_reply, bind, throw, ret, lift; cbn; rewrite Hs, Ht;
      now split].
  all: destruct (truthy_opt success && truthy_opt testCases) eqn:Htr;
    [|unfold generate_try, fetch_reply, bind, throw, ret, lift; cbn;
      rewrite Hs, Ht; cbn; rewrite Htr; now split].
  all: destruct currentProject as [project|];
    [|unfold generate_try, fetch_reply, bind, throw, ret, lift; cbn;
      rewrite Hs, Ht; cbn; rewrite Htr; now split].
  all: apply andb_prop in Htr as [Hts Htt].
  all: match goal with
       | |- context [generate_try _ _ _ _ _ _ ?cp ?img ?w0] =>
           pose proof (generate_run project savedConfigs stories storyId cp img
                         data success testCases w0 Hfind') as Hrun
       end.
  all: unfold generateTestCases in Hrun; rewrite Hfind, Hcfg, Hready in Hrun;
    cbn [negb] in Hrun.
  all: rewrite Hrun; auto; try discriminate; clear Hrun.
  all: cbn [in_pair].
  all: unfold delete_test_cases_of, insert_test_cases, complete_story, write.
  all: destruct (js_map (testCaseToInsert project storyId) testCases) as [new|e]
         eqn:Hmap; cbn.
  all: destruct (hd false (faults w)); cbn; rewrite ?filter_filter_same;
    try (now split).
  all: destruct (hd false (tl (faults w))); cbn; rewrite ?filter_filter_same;
    try (now split).
  all: destruct (hd false (tl (tl (faults w)))); cbn.
  all: rewrite filter_app, ?filter_filter_same,
         (filter_negb_all _ _ (stored_rows_in_pair _ _ _ _ _ Hmap)), app_nil_r.
  all: split; [reflexivity|]; try reflexivity.
  all: rewrite map_map; apply map_ext; intro x.
  all: now destruct (Nat.eqb (us_id x) storyId && Nat.eqb (us_project_id x) project).
Qed.

Lemma mark_generated_of (storyId : uuid) (n : nat) (stories : list UserStory)
    (s : UserStory) :
  In s (map (mark_generated storyId n) stories) -> st_id s = storyId ->
  st_status s = "completed" /\ st_testCasesGenerated s = n.
Proof.
  intros Hin Hid. apply in_map_iff in Hin as (s0 & <- & _).
  unfold mark_generated in *.
  destruct (Nat.eqb (st_id s0) storyId) eqn:E; [now split|].
  apply Nat.eqb_neq in E. now elim E.
Qed.

Lemma mark_generated_listed (storyId : uuid) (n : nat) (stories : list UserStory) :
  find (fun s => Nat.eqb (st_id s) storyId) stories <> None ->
  exists s, In s (map (mark_generated storyId n) stories) /\ st_id s = storyId.
Proof.
  destruct (find _ stories) as [s0|] eqn:E; [intros _|now intros []].
  apply find_some in E as [Hin Hid]. apply Nat.eqb_eq in Hid.
  exists (mark_generated storyId n s0). split; [now apply in_map|].
  unfold mark_generated. now destruct (Nat.eqb (st_id s0) storyId).
Qed.

(** X8.  After a generation that reports success and whose delete
    statement took effect, the component's list and the store agree:
    the story is listed as completed, and its [testCasesGenerated] is
    the number of test cases the store holds for the story in the
    project. *)
Theorem generated_count_agrees_with_the_store
    (has_token : bool) (currentProject : option uuid) (savedConfigs : SavedConfigs)
    (stories : list UserStory) (storyId : uuid) (customPrompt : option string)
    (imageFile : option ImageRead) (data : json) (w : World) :
  let out := generateTestCases (fetch_reply (GenData data)) has_token currentProject
               savedConfigs stories storyId customPrompt imageFile w in
  reports_generated w (snd out) ->
  hd false (faults w) = false ->
  exists project,
    currentProject = Some project /\
    (exists s, In s (fst out) /\ st_id s = storyId) /\
    (forall s, In s (fst out) -> st_id s = storyId ->
       st_status s = "completed" /\
       st_testCasesGenerated s
       = List.length (filter (of_story_in_project storyId project)
                        (test_cases (snd out)))).
Proof.
  intros out Hok Hdel.
  destruct (generate_success_inv _ _ _ _ _ _ _ _ _ Hok)
    as (project & success & testCases & -> & -> & Hfind & Hready & Himg & Hs & Ht
        & Hts & Htt).
  exists project. split; [reflexivity|].
  unfold reports_generated in Hok. revert Hok. unfold out.
  rewrite (generate_run project savedConfigs stories storyId customPrompt imageFile
             data success testCases w Hfind Hready Himg Hs Ht Hts Htt).
  unfold delete_test_cases_of, insert_test_cases, complete_story, write.
  rewrite Hdel. cbn.
  destruct (js_map (testCaseToInsert project storyId) testCases) as [new|e] eqn:Hmap;
    cbn; [|no_success_toast].
  destruct (hd false (tl (faults w))); cbn; [no_success_toast|].
  assert (Hlen : forall rows,
             List.length
               (filter (of_story_in_project storyId project)
                  (filter (fun r => negb (of_story_in_project storyId project r)) rows
                   ++ stored_rows (next_id w) new)) = List.length new).
  { intro rows. rewrite filter_app, filter_none. cbn [app].
    rewrite (filter_all _ _ (stored_rows_in_pair _ _ _ _ _ Hmap)).
    apply length_stored_rows. }
  destruct (hd false (tl (tl (faults w)))); cbn; intros _.
  all: split; [now apply mark_generated_listed|].
  all: intros s Hin Hid; rewrite Hlen;
    exact (mark_generated_of storyId (List.length new) stories s Hin Hid).
Qed.

Lemma generated_count_agrees_with_the_store_witness :
  reports_generated checkout_world_again
    (snd (generateTestCases (fetch_reply (GenData stub_data)) true (Some 0)
            checkout_configs checkout_stories 1 None None checkout_world_again)) /\
  exists project,
    Some 0 = Some project /\
    (exists s,
        In s (fst (generateTestCases (fetch_reply (GenData stub_data)) true (Some 0)
                     checkout_configs checkout_stories 1 None None checkout_world_again))
        /\ st_id s = 1) /\
    (forall s,
        In s (fst (generateTestCases (fetch_reply (GenData stub_data)) true (Some 0)
                     checkout_configs checkout_stories 1 None None checkout_world_again)) ->
        st_id s = 1 ->
        st_status s = "completed" /\
        st_testCasesGenerated s
        = List.length
            (filter (of_story_in_project 1 project)
               (test_cases
                  (snd (generateTestCases (fetch_reply (GenData stub_data)) true (Some 0)
                          checkout_configs checkout_stories 1 None None
                          checkout_world_again))))).
Proof.
  assert (H : reports_generated checkout_world_again
                (snd (generateTestCases (fetch_reply (GenData stub_data)) true (Some 0)
                        checkout_configs checkout_stories 1 None None
                        checkout_world_again))) by (exists 2; reflexivity).
  split; [exact H|].
  exact (generated_count_agrees_with_the_store true (Some 0) checkout_configs
           checkout_stories 1 None None stub_data checkout_world_again H eq_refl).
Defined.

(** X9.  The status update of the story is not checked: when that
    statement fails, the run still reports success and lists the story
    as completed, while the stories of the store are as they were. *)
Theorem generation_succeeds_without_the_status_update
    (has_token : bool) (currentProject : option uuid) (savedConfigs : SavedConfigs)
    (stories : list UserStory) (storyId : uuid) (customPrompt : option string)
    (imageFile : option ImageRead) (data : json) (w : World) :
  let out := generateTestCases (fetch_reply (GenData data)) has_token currentProject
               savedConfigs stories storyId customPrompt imageFile w in
  reports_generated w (snd out) ->
  hd false (tl (tl (faults w))) = true ->
  user_stories (snd out) = user_stories w /\
  (exists s, In s (fst out) /\ st_id s = storyId) /\
  (forall s, In s (fst out) -> st_id s = storyId -> st_status s = "completed").
Proof.
  intros out Hok Hupd.
  destruct (generate_success_inv _ _ _ _ _ _ _ _ _ Hok)
    as (project & success & testCases & -> & -> & Hfind & Hready & Himg & Hs & Ht
        & Hts & Htt).
  unfold reports_generated in Hok. revert Hok. unfold out.
  rewrite (generate_run project savedConfigs stories storyId customPrompt imageFile
             data success testCases w Hfind Hready Himg Hs Ht Hts Htt).
  unfold delete_test_cases_of, insert_test_cases, complete_story, write.
  destruct (js_map (testCaseToInsert project storyId) testCases) as [new|e] eqn:Hmap;
    cbn; [|destruct (hd false (faults w)); no_success_toast].
  destruct (hd false (faults w)); cbn.
  all: destruct (hd false (tl (faults w))); cbn; [no_success_toast|].
  all: rewrite Hupd; cbn; intros _.
  all: split; [reflexivity|].
  all: split; [now apply mark_generated_listed|].
  all: intros s Hin Hid;
    exact (proj1 (mark_generated_of storyId (List.length new) stories s Hin Hid)).
Qed.

Lemma generation_succeeds_without_the_status_update_witness :
  reports_generated checkout_world_third_fails
    (snd (generateTestCases (fetch_reply (GenData stub_data)) true (Some 0)
            checkout_configs checkout_stories 1 None None checkout_world_third_fails)) /\
  user_stories
    (snd (generateTestCases (fetch_reply (GenData stub_data)) true (Some 0)
            checkout_configs checkout_stories 1 None None checkout_world_third_fails))
  = [demo_story_row 1 0 "Guest Checkout"; demo_story_row 2 0 "Login"].
Proof.
  assert (H : reports_generated checkout_world_third_fails
                (snd (generateTestCases (fetch_reply (GenData stub_data)) true (Some 0)
                        checkout_configs checkout_stories 1 None None
                        checkout_world_third_fails))) by (exists 2; reflexivity).
  split; [exact H|].
  exact (proj1 (generation_succeeds_without_the_status_update true (Some 0)
                  checkout_configs checkout_stories 1 None None stub_data
                  checkout_world_third_fails H eq_refl)).
Defined.

(** ** Story deletion: what it keeps *)

(** X10.  A deletion, however it ends, keeps every test case that does
    not reference the story and every other story row, and leaves the
    usage log alone; it ends either with the success toast and the story
    taken off the component's list, or with the "Delete Failed" toast
    and the list as it was. *)
Theorem deleteUserStory_keeps_the_rest
    (stories : list UserStory) (storyId : uuid) (storyTitle : string) (w : World) :
  let out := deleteUserStory stories storyId storyTitle w in
  filter (fun r => negb (of_story storyId r)) (test_cases (snd out))
  = filter (fun r => negb (of_story storyId r)) (test_cases w) /\
  filter (fun r => negb (Nat.eqb (us_id r) storyId)) (user_stories (snd out))
  = filter (fun r => negb (Nat.eqb (us_id r) storyId)) (user_stories w) /\
  ai_usage_logs (snd out) = ai_usage_logs w /\
  ((toasts (snd out) = toasts w ++ [toast_deleted storyTitle] /\
    fst out = filter (fun s => negb (Nat.eqb (st_id s) storyId)) stories) \/
   (toasts (snd out) = toasts w ++ [toast_delete_failed] /\ fst out = stories)).
Proof.
  unfold deleteUserStory, delete_try, delete_test_cases_by_story, delete_story,
    bind, write, throw, effect, ret.
  destruct (hd false (faults w)); cbn.
  - repeat split; auto.
  - destruct (hd false (tl (faults w))); cbn; rewrite ?filter_filter_same;
      repeat split; auto.
Qed.

(** X11.  The two deletions are not one transaction: when the deletion
    of the test cases took effect and the deletion of the story row
    reports an error, the story row is still there, its test cases are
    gone, and the run ends with the "Delete Failed" toast and the list
    unchanged. *)
Theorem deleteUserStory_can_delete_the_test_cases_alone
    (stories : list UserStory) (storyId : uuid) (storyTitle : string) (w : World) :
  hd false (faults w) = false ->
  hd false (tl (faults w)) = true ->
  let out := deleteUserStory stories storyId storyTitle w in
  user_stories (snd out) = user_stories w /\
  test_cases (snd out) = filter (fun r => negb (of_story storyId r)) (test_cases w) /\
  filter (of_story storyId) (test_cases (snd out)) = [] /\
  toasts (snd out) = toasts w ++ [toast_delete_failed] /\
  fst out = stories.
Proof.
  intros H1 H2.
  unfold deleteUserStory, delete_try, delete_test_cases_by_story, delete_story,
    bind, write, throw, effect, ret.
  rewrite H1. cbn. rewrite H2. cbn. repeat split; auto. apply filter_none.
Qed.

Lemma deleteUserStory_can_delete_the_test_cases_alone_witness :
  filter (of_story 1) (test_cases demo_delete_world_second_fails)
  = [demo_test_case 3 0 (Some 1) "TC1"] /\
  user_stories
    (snd (deleteUserStory checkout_stories 1 "Guest Checkout"
            demo_delete_world_second_fails))
  = [demo_story_row 1 0 "Guest Checkout"; demo_story_row 2 0 "Login"] /\
  filter (of_story 1)
    (test_cases
       (snd (deleteUserStory checkout_stories 1 "Guest Checkout"
               demo_delete_world_second_fails)))
  = [].
Proof.
  split; [reflexivity|].
  pose proof (deleteUserStory_can_delete_the_test_cases_alone checkout_stories 1 "Guest Checkout"
                demo_delete_world_second_fails eq_refl eq_refl) as (H1 & _ & H3 & _).
  split; [exact H1|exact H3].
Defined.

(** ** Rich-text unwrapping: the text it returns *)

Lemma trimStart_head (s : string) :
  match trimStart s with
  | EmptyString => True
  | String c _ => is_space c = false
  end.
Proof.
  induction s as [|c s IH]; cbn; [exact I|].
  destruct (is_space c) eqn:E; [exact IH|exact E].
Qed.

Lemma trimEnd_idem (s : string) : trimEnd (trimEnd s) = trimEnd s.
Proof.
  induction s as [|c s IH]; cbn; [reflexivity|].
  destruct (trimEnd s) as [|c' r'] eqn:E.
  - destruct (is_space c) eqn:Ec; cbn; [reflexivity|now rewrite Ec].
  - cbn [trimEnd]. cbn [trimEnd] in IH. now rewrite IH.
Qed.

Lemma trimEnd_head (c : ascii) (s : string) :
  is_space c = false -> exists r, trimEnd (String c s) = String c r.
Proof.
  intro E. cbn. destruct (trimEnd s); [rewrite E|]; eauto.
Qed.

Lemma trim_idem (s : string) : trim (trim s) = trim s.
Proof.
  unfold trim. pose proof (trimStart_head s) as H.
  destruct (trimStart s) as [|c r]; [reflexivity|].
  destruct (trimEnd_head c r H) as [r' E].
  rewrite E. cbn [trimStart]. rewrite H, <- E. apply trimEnd_idem.
Qed.

(** X12.  For an input that is not a string, the text that
    [extractTextFromJiraContent] returns is never empty and carries no
    white space at either end: it is the placeholder or the trimmed,
    non-empty text of the document. *)
Theorem extractTextFromJiraContent_text_is_trimmed (content : jsval) (s : string) :
  extractTextFromJiraContent content = Ok s ->
  (forall t, content <> Some (JStr t)) ->
  s <> "" /\ trim s = s.
Proof.
  assert (Hp : placeholder <> "" /\ trim placeholder = placeholder)
    by (split; [discriminate|reflexivity]).
  unfold extractTextFromJiraContent. intros H Hns.
  destruct content as [[| b | n | t | xs | ps]|]; try (now elim (Hns t)).
  all: cbn in H.
  all: try (injection H as <-; exact Hp).
  - destruct b; cbn in H; injection H as <-; exact Hp.
  - destruct (negb (n =? 0)%Z); cbn in H; injection H as <-; exact Hp.
  - destruct (assoc "content" ps) as [[| b | n | t | cs | qs]|];
      try (injection H as <-; exact Hp).
    destruct (forEach_extractText cs []) as [textParts|]; [|discriminate].
    cbn in H. injection H as <-.
    destruct (String.eqb (trim (join " " textParts)) "") eqn:E; [exact Hp|].
    split; [|apply trim_idem].
    intro E'. rewrite E' in E. discriminate.
Qed.

Lemma extractTextFromJiraContent_text_is_trimmed_witness :
  extractTextFromJiraContent (Some (doc_json 1 gapped_description)) = Ok "a b" /\
  "a b" <> "" /\ trim "a b" = "a b".
Proof.
  split; [reflexivity|].
  apply (extractTextFromJiraContent_text_is_trimmed
           (Some (doc_json 1 gapped_description)) "a b" eq_refl).
  intros t. discriminate.
Defined.

(** ** The generation endpoint: usage rows *)

Section GenerationEndpoint.

Variable JSON_parse : string -> option json.
Variable error_message : exn -> string.

Lemma screen_request_store (req : GenRequest) (w : World) :
  ai_usage_logs (snd (screen_request req w)) = ai_usage_logs w /\
  faults (snd (screen_request req w)) = faults w.
Proof.
  unfold screen_request, bind, lift, ret, throw, effect.
  repeat match goal with
         | |- context [match ?x with _ => _ end] => destruct x; cbn
         end.
  all: now split.
Qed.

(** X13.  For a request that passes the checks and a completion that
    returned a text, the endpoint writes the usage row of a success
    before it parses the text; when the text then fails to parse (the
    answer is not the 200 one) it writes a second row, of a failure, for
    the same completion. *)
Theorem usage_is_logged_before_parsing
    (req : GenRequest) (user : string) (story azureConfig : jsval)
    (content now : string) (w w1 : World) :
  screen_request req w = (Ok (Accepted user story azureConfig), w1) ->
  hd false (faults w) = false ->
  hd false (tl (faults w)) = false ->
  let out := generate_test_cases JSON_parse error_message req
               (CompletionText content) now w in
  ai_usage_logs (snd out)
  = ai_usage_logs w
    ++ generation_log user story true
       :: (if Nat.eqb (resp_status (fst out)) 200 then []
           else [generation_log user story false]).
Proof.
  intros Hscreen F1 F2.
  destruct (screen_request_store req w) as [Hl Hf]. rewrite Hscreen in Hl, Hf.
  cbn [snd] in Hl, Hf. cbn zeta.
  unfold generate_test_cases, generate_test_cases_try, answer_completion, usage_log,
    parse_branch, bind, write, effect, ret.
  rewrite Hscreen, Hf, F1.
  destruct (match JSON_parse content with
            | Some testCases =>
                js_map_indexed (enrich story azureConfig now) (Some testCases)
            | None => Raise (ThrownError "SyntaxError")
            end) as [enriched|e]; cbn.
  - rewrite Hl. reflexivity.
  - unfold usage_log, write. cbn. rewrite F2. cbn. rewrite Hl, <- app_assoc. reflexivity.
Qed.

(** X14.  The endpoint writes no usage row for a request that does not
    pass its checks, nor when the completion call returns no text. *)
Theorem usage_is_logged_only_for_a_completion
    (req : GenRequest) (completion : Completion) (now : string) (w : World) :
  (forall user story azureConfig,
      fst (screen_request req w) <> Ok (Accepted user story azureConfig)) \/
  (forall content, completion <> CompletionText content) ->
  ai_usage_logs (snd (generate_test_cases JSON_parse error_message req completion now w))
  = ai_usage_logs w.
Proof.
  intro H. destruct (screen_request_store req w) as [Hl _].
  unfold generate_test_cases, generate_test_cases_try, bind at 1.
  destruct (screen_request req w) as [[[response|user story azureConfig]|e] w1];
    cbn [fst snd] in *; try exact Hl.
  destruct H as [H|H]; [now elim (H user story azureConfig)|].
  destruct completion as [|status|content]; [| |now elim (H content)];
    unfold answer_completion, throw, bind, effect, ret; cbn; exact Hl.
Qed.

End GenerationEndpoint.

Lemma usage_is_logged_before_parsing_witness :
  ai_usage_logs
    (snd (generate_test_cases (fun _ => None) (fun _ => "error") demo_request
            (CompletionText "Here are your test cases:") "2024-01-01T00:00:00.000Z"
            demo_delete_world))
  = [generation_log "user-1"
       (Some (JObj [("id", JStr "1"); ("title", JStr "Guest Checkout")])) true;
     generation_log "user-1"
       (Some (JObj [("id", JStr "1"); ("title", JStr "Guest Checkout")])) false].
Proof.
  exact (usage_is_logged_before_parsing (fun _ => None) (fun _ => "error") demo_request
           "user-1"
           (Some (JObj [("id", JStr "1"); ("title", JStr "Guest Checkout")]))
           (Some (JObj [("endpoint", JStr "https://example.openai.azure.com");
                        ("apiKey", JStr "key"); ("deploymentId", JStr "gpt-4o")]))
           "Here are your test cases:" "2024-01-01T00:00:00.000Z"
           demo_delete_world demo_delete_world eq_refl eq_refl eq_refl).
Defined.

Lemma usage_is_logged_only_for_a_completion_witness :
  ai_usage_logs
    (snd (generate_test_cases (fun _ => None) (fun _ => "error") demo_request
            (CompletionError 429) "2024-01-01T00:00:00.000Z" demo_delete_world))
  = [].
Proof.
  apply (usage_is_logged_only_for_a_completion (fun _ => None) (fun _ => "error")
           demo_request (CompletionError 429) "2024-01-01T00:00:00.000Z"
           demo_delete_world).
  right. intros content. discriminate.
Defined.

(** ** Object literals: reading a property back *)

Lemma assoc_app (k : string) (ps qs : list (string * json)) :
  assoc k (ps ++ qs) = match assoc k ps with Some v => Some v | None => assoc k qs end.
Proof.
  induction ps as [|[k' v] ps IH]; cbn; [reflexivity|].
  now destruct (String.eqb k' k).
Qed.

Lemma assoc_without (k k' : string) (ps : list (string * json)) :
  assoc k (filter (fun kv => negb (String.eqb (fst kv) k')) ps)
  = if String.eqb k k' then None else assoc k ps.
Proof.
  induction ps as [|[k0 v] ps IH]; cbn; [now destruct (String.eqb k k')|].
  destruct (String.eqb k0 k') eqn:E0; cbn.
  - rewrite IH. destruct (String.eqb k k') eqn:E; [reflexivity|].
    destruct (String.eqb k0 k) eqn:E1; [|reflexivity].
    apply String.eqb_eq in E0, E1. subst. now rewrite String.eqb_refl in E.
  - destruct (String.eqb k0 k) eqn:E1.
    + apply String.eqb_eq in E1. subst. now rewrite E0.
    + exact IH.
Qed.

Lemma assoc_set_prop (k k' : string) (v : jsval) (ps : list (string * json)) :
  assoc k (set_prop k' v ps) = if String.eqb k k' then v else assoc k ps.
Proof.
  unfold set_prop. destruct v as [x|].
  - rewrite assoc_app, assoc_without. cbn. rewrite (String.eqb_sym k' k).
    destruct (String.eqb k k'); [reflexivity|]. now destruct (assoc k ps).
  - apply assoc_without.
Qed.

(** ** The generation endpoint: the test cases it answers *)



Section GenerationAnswer.

Variable JSON_parse : string -> option json.
Variable error_message : exn -> string.


End GenerationAnswer.


(** ** The generation endpoint: the description it works with *)

Lemma length_append (a b : string) :
  String.length (a ++ b) = String.length a + String.length b.
Proof. induction a as [|c a IH]; cbn; congruence. Qed.

Lemma length_substring_0 (n : nat) (s : string) :
  n <= String.length s -> String.length (String.substring 0 n s) = n.
Proof.
  revert s. induction n as [|n IH]; intros [|c s] H; cbn in *; try reflexivity; try lia.
  rewrite IH; [reflexivity|lia].
Qed.

(** X16.  The endpoint cuts a description of more than 5000 characters
    down to its first 5000 followed by "... [truncated]", and leaves a
    shorter one and every other property of the story as they are: the
    description it goes on with never has more than 5015 characters. *)
Theorem truncate_description_bounds (ps : list (string * json)) (s : string) :
  assoc "description" ps = Some (JStr s) ->
  exists ps' d,
    truncate_description (Some (JObj ps)) = Ok (Some (JObj ps')) /\
    assoc "description" ps' = Some (JStr d) /\
    String.length d <= 5000 + 15 /\
    (String.length s <= 5000 -> ps' = ps /\ d = s) /\
    (5000 < String.length s ->
     d = (String.substring 0 5000 s ++ "... [truncated]")%string /\
     String.length d = 5000 + 15) /\
    (forall k, String.eqb k "description" = false -> assoc k ps' = assoc k ps).
Proof.
  intro Hd. unfold truncate_description. cbn [prop_opt]. rewrite Hd.
  cbn [truthy_opt truthy js_length].
  assert (Hlen : 5000 < String.length s ->
                 String.length (String.substring 0 5000 s ++ "... [truncated]")%string
                 = 5000 + 15).
  { intro H. rewrite length_append, length_substring_0 by lia. reflexivity. }
  destruct (Nat.ltb_spec 5000 (String.length s)) as [L|L].
  - assert (E : String.eqb s "" = false).
    { destruct s; [cbn in L; lia|reflexivity]. }
    rewrite E. cbn [negb].
    eexists. eexists. split; [reflexivity|].
    split; [rewrite assoc_set_prop; reflexivity|].
    split; [rewrite Hlen by exact L; lia|].
    split; [intro; lia|].
    split; [intros _; split; [reflexivity|now apply Hlen]|].
    intros k Hk. now rewrite assoc_set_prop, Hk.
  - exists ps, s.
    split; [now destruct (negb (String.eqb s ""))|].
    split; [exact Hd|].
    split; [lia|].
    split; [now split|].
    split; [intro; lia|reflexivity].
Qed.

Lemma truncate_description_bounds_witness :
  exists ps' d,
    truncate_description long_story = Ok (Some (JObj ps')) /\
    assoc "description" ps' = Some (JStr d) /\
    String.length d = 5000 + 15 /\
    assoc "title" ps' = Some (JStr "Guest Checkout").
Proof.
  destruct (truncate_description_bounds
              [("id", JStr "1"); ("title", JStr "Guest Checkout");
               ("description", JStr (text_of_length (5000 + 1)))]
              (text_of_length (5000 + 1)) eq_refl)
    as (ps' & d & H1 & H2 & _ & _ & H5 & H6).
  exists ps', d. split; [exact H1|]. split; [exact H2|].
  split.
  - apply H5. vm_compute. apply Nat.leb_le. reflexivity.
  - now rewrite H6.
Defined.

(** ** Report statistics: the counters *)

Lemma count_status_filter (status : string) (testCases : list json) :
  forall n, count_status status testCases = Ok n ->
            n = List.length (filter (has_status status) testCases).
Proof.
  induction testCases as [|tc rest IH]; cbn; intros n H.
  - now injection H as <-.
  - destruct tc; cbn in H; try discriminate.
    all: destruct (count_status status rest) as [m|]; cbn in H; [|discriminate].
    all: injection H as <-; rewrite (IH m eq_refl); unfold has_status; cbn.
    all: try reflexivity.
    now destruct (is_str status (assoc "status" props)).
Qed.

Lemma status_bucket (tc : json) :
  Nat.b2n (has_status "passed" tc) + Nat.b2n (has_status "failed" tc)
  + Nat.b2n (has_status "blocked" tc) + Nat.b2n (has_status "pending" tc)
  + Nat.b2n (uncounted tc) = 1.
Proof.
  unfold uncounted, has_status.
  destruct (prop_opt "status" (Some tc)) as [[| b | n | s | xs | ps]|];
    try reflexivity.
  cbn [is_str].
  destruct (String.eqb s "passed") eqn:E1.
  { apply String.eqb_eq in E1. subst s. reflexivity. }
  destruct (String.eqb s "failed") eqn:E2.
  { apply String.eqb_eq in E2. subst s. reflexivity. }
  destruct (String.eqb s "blocked") eqn:E3.
  { apply String.eqb_eq in E3. subst s. reflexivity. }
  destruct (String.eqb s "pending") eqn:E4; reflexivity.
Qed.

Lemma length_filter_cons {A} (p : A -> bool) (x : A) (l : list A) :
  List.length (filter p (x :: l)) = Nat.b2n (p x) + List.length (filter p l).
Proof. cbn. now destruct (p x). Qed.

Lemma counters_partition (testCases : list json) :
  List.length (filter (has_status "passed") testCases)
  + List.length (filter (has_status "failed") testCases)
  + List.length (filter (has_status "blocked") testCases)
  + List.length (filter (has_status "pending") testCases)
  + List.length (filter uncounted testCases)
  = List.length testCases.
Proof.
  induction testCases as [|tc rest IH]; [reflexivity|].
  rewrite !length_filter_cons. pose proof (status_bucket tc). cbn [List.length]. lia.
Qed.

(** X17.  In a report, the four counters count disjoint sets of test
    cases, and a test case whose status is none of passed, failed,
    blocked and pending (the "draft" of a generated and the "not-run"
    of an imported test case are such) is in the total and in no
    counter: the counters and the number of such test cases add up to
    the total. *)
Theorem report_counters_add_up
    (error_message : exn -> string) (req : ReportRequest)
    (completion : ReportCompletion) (w : World) (testReport : jsval)
    (stats : Statistics) :
  fst (generate_test_report error_message req completion w) = ReportOk testReport stats ->
  exists body testCases,
    rr_body req = Some body /\
    prop "testCases" body = Ok (Some (JArr testCases)) /\
    totalTests stats = List.length testCases /\
    passedTests stats + failedTests stats + blockedTests stats + pendingTests stats
    + List.length (filter uncounted testCases)
    = totalTests stats.
Proof.
  unfold generate_test_report.
  destruct (generate_test_report_try req completion w) as [[r|e] w'] eqn:E;
    cbn [fst]; [|discriminate].
  intros ->. apply report_ok_inv in E as (body & testCases & Hb & Ht & _ & Hs).
  exists body, testCases. split; [exact Hb|]. split; [exact Ht|].
  unfold statistics in Hs.
  destruct (count_status "passed" testCases) as [p|] eqn:Cp; cbn [rbind] in Hs;
    [|discriminate].
  destruct (count_status "failed" testCases) as [f|] eqn:Cf; cbn [rbind] in Hs;
    [|discriminate].
  destruct (count_status "blocked" testCases) as [b|] eqn:Cb; cbn [rbind] in Hs;
    [|discriminate].
  destruct (count_status "pending" testCases) as [q|] eqn:Cq; cbn [rbind] in Hs;
    [|discriminate].
  injection Hs as <-. cbn. split; [reflexivity|].
  rewrite (count_status_filter _ _ _ Cp), (count_status_filter _ _ _ Cf),
    (count_status_filter _ _ _ Cb), (count_status_filter _ _ _ Cq).
  apply counters_partition.
Qed.

Lemma report_counters_add_up_witness :
  exists body testCases,
    rr_body (report_request [with_status "draft"; with_status "passed";
                             with_status "not-run"]) = Some body /\
    prop "testCases" body = Ok (Some (JArr testCases)) /\
    3 = List.length testCases /\
    1 + 0 + 0 + 0 + List.length (filter uncounted testCases) = 3.
Proof.
  exact (report_counters_add_up (fun _ => "error")
           (report_request [with_status "draft"; with_status "passed";
                            with_status "not-run"])
           (Narrative (Some (JStr "All good"))) checkout_world
           (Some (JStr "All good"))
           {| totalTests := 3; passedTests := 1; failedTests := 0; blockedTests := 0;
              pendingTests := 0; passRate := parseFloat (passRate_of 1 3) |}
           eq_refl).
Defined.

(** ** Report statistics: the pass rate from none to all *)

(** X18.  For the lists the report endpoint accepts (1 to 200 test
    cases), the printed pass rate grows with the number of passed test
    cases: it is 0.0 when none passed, 100.0 when all passed, and more
    passed test cases never give a lower rate. *)
Theorem pass_rate_grows_with_passed (passed passed' total : nat) :
  0 < total <= 200 -> passed <= passed' <= total ->
  exists a b,
    passRate_of passed total = Fixed1 (Some a) /\
    passRate_of passed' total = Fixed1 (Some b) /\
    (a <= b)%Z /\
    (passed = 0 -> a = 0%Z) /\
    (passed' = total -> b = 1000%Z).
Proof.
  intros Ht [Hle Hp'].
  destruct (passRate_of_nearest passed total Ht ltac:(lia)) as (a & Ha & Na & _).
  destruct (passRate_of_nearest passed' total Ht Hp') as (b & Hb & Nb & _).
  exists a, b. split; [exact Ha|]. split; [exact Hb|].
  unfold nearest_tenth in Na, Nb.
  set (t := Z.of_nat total) in *.
  assert (Hpos : (0 < t)%Z) by (unfold t; lia).
  assert (Ia : (- t <= 2 * (a * t - 1000 * Z.of_nat passed) <= t)%Z) by lia.
  assert (Ib : (- t <= 2 * (b * t - 1000 * Z.of_nat passed') <= t)%Z) by lia.
  clear Na Nb.
  split; [|split].
  - destruct (Nat.eq_dec passed passed') as [<-|Hne].
    + rewrite Ha in Hb. injection Hb as <-. lia.
    + assert (Hlt : (Z.of_nat passed + 1 <= Z.of_nat passed')%Z) by lia.
      destruct (Z_le_gt_dec a b) as [H|H]; [exact H|].
      assert (Hm : (b * t + t <= a * t)%Z) by nia.
      lia.
  - intros ->. change (Z.of_nat 0) with 0%Z in Ia.
    destruct (Z_lt_le_dec a 1) as [H1|H1]; [|assert (t <= a * t)%Z by nia; lia].
    destruct (Z_lt_le_dec (-1) a) as [H2|H2]; [lia|].
    assert (a * t <= - t)%Z by nia. lia.
  - intros ->. fold t in Ib.
    destruct (Z_lt_le_dec b 1001) as [H1|H1];
      [|assert (1001 * t <= b * t)%Z by nia; lia].
    destruct (Z_lt_le_dec 999 b) as [H2|H2]; [lia|].
    assert (b * t <= 999 * t)%Z by nia. lia.
Qed.

Lemma pass_rate_grows_with_passed_witness :
  exists a b,
    passRate_of 23 80 = Fixed1 (Some a) /\
    passRate_of 80 80 = Fixed1 (Some b) /\
    (a <= b)%Z /\ (23 = 0 -> a = 0%Z) /\ (80 = 80 -> b = 1000%Z).
Proof.
  apply (pass_rate_grows_with_passed 23 80 80); lia.
Defined.

(** ** The report endpoint: what it writes *)

Lemma report_try_writes (req : ReportRequest) (completion : ReportCompletion)
    (w w' : World) (r : result ReportResponse) :
  generate_test_report_try req completion w = (r, w') ->
  test_cases w' = test_cases w /\
  user_stories w' = user_stories w /\
  match r with
  | Ok (ReportOk _ _) =>
      exists user projectId,
        rr_user req = Some user /\
        ai_usage_logs w'
        = if hd false (faults w) then ai_usage_logs w
          else ai_usage_logs w ++ [report_log user projectId]
  | _ => ai_usage_logs w' = ai_usage_logs w
  end.
Proof.
  unfold generate_test_report_try, report_usage_log, bind, lift, ret, throw, effect,
    write.
  intro H. repeat split_match H.
  all: injection H as <- <-.
  all: try match goal with
           | Hp : (if ?c then _ else _) = _ |- _ =>
               destruct c; try discriminate; injection Hp as ? ?; subst
           end.
  all: cbn; split; [reflexivity|split; [reflexivity|]]; try reflexivity.
  all: first [ eexists; exists None; split; reflexivity
             | eexists; eexists; split; reflexivity ].
Qed.

(** X19.  The report endpoint never writes to the test cases or the
    stories; it writes one usage row, of a success, when it answers
    with a report (and the write takes effect), and none when it answers
    with an error, whatever the error. *)
Theorem report_is_logged_only_on_success
    (error_message : exn -> string) (req : ReportRequest)
    (completion : ReportCompletion) (w : World) :
  let out := generate_test_report error_message req completion w in
  test_cases (snd out) = test_cases w /\
  user_stories (snd out) = user_stories w /\
  match fst out with
  | ReportOk _ _ =>
      exists user projectId,
        rr_user req = Some user /\
        ai_usage_logs (snd out)
        = if hd false (faults w) then ai_usage_logs w
          else ai_usage_logs w ++ [report_log user projectId]
  | ReportError _ _ => ai_usage_logs (snd out) = ai_usage_logs w
  end.
Proof.
  cbn zeta. unfold generate_test_report.
  pose proof (report_try_writes req completion w) as H.
  destruct (generate_test_report_try req completion w) as [[[t s|st e]|e] w'];
    destruct (H w' _ eq_refl) as (H1 & H2 & H3); cbn; auto.
Qed.

(** ** Adding a story by hand *)

(** X20.  [handleAddStory] either adds exactly one row, a draft in the
    current project with the title, description, acceptance criteria and
    priority of the form, puts it at the head of the list with no test
    case generated and blanks the form (this needs a title, a
    description, a signed-in user and a project); or it changes neither
    the stories, nor the list, nor the form, and shows a destructive
    toast.  It never touches a test case. *)
Theorem handleAddStory_adds_one_draft_or_nothing
    (logged_in : bool) (currentProject : option uuid) (newStory : NewStory)
    (stories : list UserStory) (w : World) :
  let out := handleAddStory logged_in currentProject newStory stories w in
  test_cases (snd out) = test_cases w /\
  ((exists project,
       let row := story_row (next_id w) project (ns_title newStory)
                    (form_payload newStory) in
       currentProject = Some project /\ logged_in = true /\
       ns_title newStory <> "" /\ ns_description newStory <> "" /\
       user_stories (snd out) = user_stories w ++ [row] /\
       fst out = (newUserStory row :: stories, blank_form) /\
       st_status (newUserStory row) = "draft" /\
       reports_created w (snd out))
   \/
   (user_stories (snd out) = user_stories w /\
    fst out = (stories, newStory) /\
    exists t, toasts (snd out) = toasts w ++ [t] /\ toast_destructive t = true)).
Proof.
  cbn zeta. unfold handleAddStory, nonempty.
  destruct (String.eqb (ns_title newStory) "") eqn:Et; cbn [negb orb].
  { split; [reflexivity|]. right. repeat split. now exists toast_fill_in. }
  destruct (String.eqb (ns_description newStory) "") eqn:Ed; cbn [negb orb].
  { split; [reflexivity|]. right. repeat split. now exists toast_fill_in. }
  destruct logged_in; [destruct currentProject as [project|]|].
  2,3: split; [reflexivity|]; right; repeat split; now exists toast_log_in.
  unfold add_try, insert_story_returning, bind, throw, effect, ret.
  destruct (hd false (faults w)); cbn.
  - split; [reflexivity|]. right. repeat split. now exists toast_create_failed.
  - split; [reflexivity|]. left. exists project. cbn.
    repeat split; auto.
    + intro E. rewrite E in Et. discriminate.
    + intro E. rewrite E in Ed. discriminate.
Qed.

Lemma single_many {A} (l : list A) : 2 <= List.length l -> single l = None.
Proof. destruct l as [|x [|y l]]; cbn; intros; try lia; reflexivity. Qed.

(** X21.  Nothing keeps titles unique when a story is added by hand:
    an addition that reports success gives the project one more story
    with the title, and when the project already had one, the look-up
    of the synchronization no longer finds a story for this title, so
    that the next synchronization of a story with this title inserts
    yet another row instead of updating. *)
Theorem handleAddStory_can_duplicate_a_title
    (project : uuid) (newStory : NewStory) (stories : list UserStory) (w : World) :
  let w' := snd (handleAddStory true (Some project) newStory stories w) in
  reports_created w w' ->
  matches project (ns_title newStory) w'
  = S (matches project (ns_title newStory) w) /\
  (1 <= matches project (ns_title newStory) w ->
   existing_story project (ns_title newStory) w' = None /\
   forall payload story p,
     fs_title story = ns_title newStory ->
     payload story = Ok p ->
     hd false (faults w') = false ->
     user_stories (snd (sync_story payload project story w'))
     = user_stories w' ++ [story_row (next_id w') project (ns_title newStory) p]).
Proof.
  cbn zeta. unfold reports_created, handleAddStory, nonempty.
  destruct (String.eqb (ns_title newStory) "") eqn:Et; cbn [negb orb].
  { cbn. intro H. apply toasts_app_inv in H. discriminate. }
  destruct (String.eqb (ns_description newStory) "") eqn:Ed; cbn [negb orb].
  { cbn. intro H. apply toasts_app_inv in H. discriminate. }
  unfold add_try, insert_story_returning, bind, throw, effect, ret.
  destruct (hd false (faults w)) eqn:F; cbn.
  { intro H. apply toasts_app_inv in H. discriminate. }
  intros _.
  assert (Hm : matches project (ns_title newStory)
                 (toast toast_story_created
                    (set_next_id (S (next_id w))
                       (set_user_stories
                          (fun rows =>
                             rows ++ [story_row (next_id w) project (ns_title newStory)
                                        (form_payload newStory)])
                          (set_faults (tl (faults w)) w))))
               = S (matches project (ns_title newStory) w)).
  { unfold matches. cbn. rewrite filter_app, length_app. cbn.
    unfold story_matches at 2. cbn. rewrite Nat.eqb_refl, String.eqb_refl. cbn. lia. }
  split; [exact Hm|]. intro H1.
  assert (He : existing_story project (ns_title newStory)
                 (toast toast_story_created
                    (set_next_id (S (next_id w))
                       (set_user_stories
                          (fun rows =>
                             rows ++ [story_row (next_id w) project (ns_title newStory)
                                        (form_payload newStory)])
                          (set_faults (tl (faults w)) w))))
               = None).
  { unfold existing_story. apply single_many. unfold matches in Hm. rewrite Hm.
    unfold matches in H1. lia. }
  split; [exact He|].
  intros payload story p Ht Hp Hf.
  match type of He with
  | existing_story _ _ ?w0 = None =>
      assert (He' : existing_story project (fs_title story) w0 = None)
        by (rewrite Ht; exact He);
      destruct (sync_story_insert payload project story p w0 He' Hp Hf) as (_ & _ & H)
  end.
  refine (eq_trans H _). rewrite Ht. reflexivity.
Qed.

Lemma handleAddStory_can_duplicate_a_title_witness :
  reports_created login_world
    (snd (handleAddStory true (Some 0) login_form [] login_world)) /\
  matches 0 "login" (snd (handleAddStory true (Some 0) login_form [] login_world)) = 2 /\
  existing_story 0 "login" (snd (handleAddStory true (Some 0) login_form [] login_world))
  = None.
Proof.
  assert (H : reports_created login_world
                (snd (handleAddStory true (Some 0) login_form [] login_world)))
    by reflexivity.
  split; [exact H|].
  destruct (handleAddStory_can_duplicate_a_title 0 login_form [] login_world H)
    as [H1 H2].
  split; [exact H1|]. apply H2. cbn. lia.
Defined.

(** ** The accessible projects *)

Lemma addMembership_spec (allProjects : list Project) (membership : Membership) :
  NoDup (map pr_id allProjects) ->
  let out := addMembership allProjects membership in
  NoDup (map pr_id out) /\
  (exists added, out = allProjects ++ added /\
                 forall q, In q added -> mb_projects membership = Some q) /\
  (forall p, mb_projects membership = Some p -> In (pr_id p) (map pr_id out)).
Proof.
  intro Hnd. unfold addMembership.
  destruct (mb_projects membership) as [p|].
  2:{ cbn. split; [exact Hnd|]. split; [|discriminate].
      exists []. rewrite app_nil_r. split; [reflexivity|intros q []]. }
  destruct (find (fun q => Nat.eqb (pr_id q) (pr_id p)) allProjects) as [q|] eqn:E; cbn.
  - split; [exact Hnd|]. split.
    + exists []. rewrite app_nil_r. split; [reflexivity|intros q' []].
    + intros p' [= <-]. apply find_some in E as [Hin Hq]. apply Nat.eqb_eq in Hq.
      rewrite <- Hq. now apply in_map.
  - split; [|split].
    + rewrite map_app. cbn. apply NoDup_app; [exact Hnd| |].
      * constructor; [intros []|constructor].
      * intros x Hx [<-|[]]. apply in_map_iff in Hx as (y & Hy & Hin).
        apply (find_none _ _ E) in Hin. apply Nat.eqb_neq in Hin. now elim Hin.
    + exists [{| pr_id := pr_id p; pr_name := pr_name p |}].
      split; [reflexivity|]. intros q [<-|[]]. now destruct p.
    + intros p' [= <-]. rewrite map_app. apply in_or_app. right. now left.
Qed.

Lemma fold_addMembership (members : list Membership) :
  forall allProjects,
    NoDup (map pr_id allProjects) ->
    let out := fold_left addMembership members allProjects in
    NoDup (map pr_id out) /\
    (exists added, out = allProjects ++ added /\
                   forall q, In q added ->
                             exists m, In m members /\ mb_projects m = Some q) /\
    (forall m p, In m members -> mb_projects m = Some p -> In (pr_id p) (map pr_id out)).
Proof.
  induction members as [|m members IH]; intros allProjects Hnd; cbn.
  - split; [exact Hnd|]. split; [|intros m p []].
    exists []. rewrite app_nil_r. split; [reflexivity|intros q []].
  - destruct (addMembership_spec allProjects m Hnd) as (H1 & (a1 & E1 & F1) & G1).
    destruct (IH (addMembership allProjects m) H1) as (H2 & (a2 & E2 & F2) & G2).
    cbn zeta in *. split; [exact H2|]. split.
    + exists (a1 ++ a2). split; [rewrite E2, E1, app_assoc; reflexivity|].
      intros q Hq. apply in_app_or in Hq as [Hq|Hq].
      * exists m. split; [now left|now apply F1].
      * destruct (F2 q Hq) as (m' & Hm' & Hq'). exists m'. split; [now right|exact Hq'].
    + intros m' p [<-|Hin] Hp; [|now apply (G2 m' p)].
      specialize (G1 p Hp). rewrite E2, map_app. apply in_or_app. now left.
Qed.

(** X22.  When the owned projects come without a repeated identifier,
    [getAccessibleProjects] lists every accessible project exactly once:
    the owned projects first, as they came, then the projects of the
    memberships that are not yet listed; no identifier is listed twice,
    and the project of every membership is listed. *)
Theorem getAccessibleProjects_lists_each_project_once
    (owned : list Project) (members : list Membership) (w : World) :
  NoDup (map pr_id owned) ->
  let projects :=
    fst (getAccessibleProjects true (SelectData (Some owned))
           (SelectData (Some members)) w) in
  NoDup (map pr_id projects) /\
  (exists added,
      projects = owned ++ added /\
      forall q, In q added -> exists m, In m members /\ mb_projects m = Some q) /\
  (forall m p, In m members -> mb_projects m = Some p ->
               In (pr_id p) (map pr_id projects)).
Proof.
  intro Hnd. cbn. now apply fold_addMembership.
Qed.

Lemma getAccessibleProjects_lists_each_project_once_witness :
  NoDup (map pr_id owned_projects) /\
  map pr_id (fst (getAccessibleProjects true (SelectData (Some owned_projects))
                    (SelectData (Some memberships)) checkout_world)) = [1; 2; 3] /\
  NoDup (map pr_id (fst (getAccessibleProjects true (SelectData (Some owned_projects))
                           (SelectData (Some memberships)) checkout_world))).
Proof.
  assert (H : NoDup (map pr_id owned_projects)).
  { cbn. repeat constructor; cbn; intuition discriminate. }
  split; [exact H|]. split; [reflexivity|].
  exact (proj1 (getAccessibleProjects_lists_each_project_once owned_projects memberships
                  checkout_world H)).
Defined.

(** ** The filters of the story list *)

Lemma starts_with_lower (sub s : string) :
  starts_with sub s = true -> starts_with (toLowerCase sub) (toLowerCase s) = true.
Proof.
  revert s. induction sub as [|a sub IH]; intros [|b s]; cbn; auto; try discriminate.
  intro H. apply andb_prop in H as [H1 H2]. apply Ascii.eqb_eq in H1. subst b.
  now rewrite Ascii.eqb_refl, IH.
Qed.

Lemma includes_lower (s sub : string) :
  includes s sub = true -> includes (toLowerCase s) (toLowerCase sub) = true.
Proof.
  induction s as [|c s IH]; intro H; cbn [includes toLowerCase] in *;
    apply orb_prop in H as [H|H]; try discriminate.
  - apply starts_with_lower in H. cbn [toLowerCase] in H. now rewrite H.
  - apply starts_with_lower in H. cbn [toLowerCase] in H. now rewrite H.
  - rewrite (IH H). apply orb_true_r.
Qed.

Lemma includes_empty (s : string) : includes s "" = true.
Proof. destruct s; reflexivity. Qed.

(** X23.  On Latin-1 text (titles, descriptions and search terms whose
    characters are all in U+0000..U+00FF, the strings of this
    development) the search of the story list ignores the letter case:
    with the priority, status and source filters on "all", a story is
    shown whenever its title or its description contains the search term
    in some spelling that differs from the one typed by case only.  With
    the filters in their default state every story is shown, in the
    order of the list.  Beyond Latin-1 the first part does not hold:
    [toLowerCase] lowers a capital sigma by its position in the word, so
    a title can contain the term as typed and yet not be shown. *)
Theorem filteredStories_search_ignores_case
    (f : StoryFilters) (stories : list ListedStory) :
  priorityFilter f = "all" -> statusFilter f = "all" -> sourceFilter f = "all" ->
  (forall story term,
      In story stories ->
      toLowerCase term = toLowerCase (searchTerm f) ->
      includes (st_title (ls_story story)) term = true
      \/ includes (st_description (ls_story story)) term = true ->
      In story (filteredStories f stories)) /\
  (searchTerm f = "" -> filteredStories f stories = stories).
Proof.
  intros Hp Hs Hso.
  assert (Hrest : forall story,
             matchesFilters f story
             = includes (toLowerCase (st_title (ls_story story)))
                 (toLowerCase (searchTerm f))
               || includes (toLowerCase (st_description (ls_story story)))
                    (toLowerCase (searchTerm f))).
  { intro story. unfold matchesFilters. rewrite Hp, Hs, Hso. cbn.
    now rewrite !andb_true_r. }
  split.
  - intros story term Hin Hterm H. apply filter_In. split; [exact Hin|].
    rewrite Hrest, <- Hterm.
    destruct H as [H|H]; rewrite (includes_lower _ _ H); [reflexivity|apply orb_true_r].
  - intro Hterm. apply filter_all, Forall_forall. intros story _.
    rewrite Hrest, Hterm. cbn. now rewrite includes_empty.
Qed.

Lemma filteredStories_search_ignores_case_witness :
  In {| ls_story := checkout_story; ls_source := "manual" |}
    (filteredStories
       {| searchTerm := "CHECKOUT"; priorityFilter := "all"; statusFilter := "all";
          sourceFilter := "all" |}
       [{| ls_story := checkout_story; ls_source := "manual" |}]).
Proof.
  apply (proj1 (filteredStories_search_ignores_case
                  {| searchTerm := "CHECKOUT"; priorityFilter := "all";
                     statusFilter := "all"; sourceFilter := "all" |}
                  [{| ls_story := checkout_story; ls_source := "manual" |}]
                  eq_refl eq_refl eq_refl)
           {| ls_story := checkout_story; ls_source := "manual" |} "Checkout").
  - now left.
  - reflexivity.
  - left. reflexivity.
Defined.

(** ** The steps of a test case, stored and loaded *)

Lemma split_lines_cons (s : string) : exists piece pieces, split_lines s = piece :: pieces.
Proof.
  induction s as [|c s (piece & pieces & IH)]; cbn; [eauto|].
  destruct (Ascii.eqb c "010"); [eauto|]. rewrite IH. eauto.
Qed.

Lemma split_lines_app (a b : string) :
  split_lines (a ++ newline ++ b) = split_lines a ++ split_lines b.
Proof.
  induction a as [|c a IH]; cbn; [reflexivity|].
  destruct (Ascii.eqb c "010"); cbn in IH |- *; rewrite IH; [reflexivity|].
  destruct (split_lines_cons a) as (piece & pieces & E). now rewrite E.
Qed.

Lemma split_lines_concat (l : list string) :
  l <> [] -> split_lines (String.concat newline l) = flat_map split_lines l.
Proof.
  induction l as [|x l IH]; [now intros []|]. intros _.
  destruct l as [|y l].
  - cbn. now rewrite app_nil_r.
  - change (String.concat newline (x :: y :: l))
      with (x ++ newline ++ String.concat newline (y :: l))%string.
    rewrite split_lines_app, IH by discriminate. reflexivity.
Qed.

Lemma concat_empty (l : list string) :
  String.concat newline l = "" -> filter nonblank (flat_map split_lines l) = [].
Proof.
  destruct l as [|x [|y l]]; cbn.
  - reflexivity.
  - intros ->. reflexivity.
  - destruct x; discriminate.
Qed.

(** X24.  The steps that the generation stores for a test case (the
    array of the completion joined by line feeds) are loaded back by the
    test-case list as the non-blank lines of the steps, in their order:
    a step that is one non-blank line comes back as it was, a blank
    step is dropped, a step of several lines comes back as several
    steps. *)
Theorem generated_steps_are_loaded_as_lines (steps : list string) :
  loaded_steps (steps_text (Some (JArr (map JStr steps))))
  = Ok (filter nonblank (flat_map split_lines steps)) /\
  (Forall clean_step steps ->
   loaded_steps (steps_text (Some (JArr (map JStr steps)))) = Ok steps).
Proof.
  assert (H : loaded_steps (steps_text (Some (JArr (map JStr steps))))
              = Ok (filter nonblank (flat_map split_lines steps))).
  { unfold steps_text. cbn [truthy_opt truthy]. rewrite join_strings.
    unfold loaded_steps. cbn [truthy_opt truthy].
    destruct (String.eqb (String.concat newline steps) "") eqn:E; cbn [negb].
    - apply String.eqb_eq in E. now rewrite concat_empty.
    - rewrite split_lines_concat; [reflexivity|].
      intros ->. discriminate. }
  split; [exact H|]. intro Hc. rewrite H. clear H. f_equal.
  induction Hc as [|x l [Hx1 Hx2] _ IH]; [reflexivity|].
  cbn [flat_map]. rewrite filter_app, Hx1, IH. cbn. now rewrite Hx2.
Qed.

(** ** The spreadsheet import *)

Lemma import_row_valid (projectId : uuid) (i : nat) (row : list (string * json))
    (testCase : ImportedCase) :
  import_row projectId i row = Ok (inr testCase) ->
  incomplete_row row = false /\
  is_priority (ic_priority testCase) = true /\
  truthy_opt (ic_title testCase) = true /\
  truthy_opt (ic_userStoryTitle testCase) = true /\
  Forall (fun step => nonblank step = true) (ic_steps testCase) /\
  ic_project_id testCase = projectId.
Proof.
  unfold import_row, incomplete_row, lacks.
  destruct (truthy_opt (assoc "title" row)) eqn:T1;
    destruct (truthy_opt (assoc "Title" row)) eqn:T2;
    destruct (truthy_opt (assoc "TITLE" row)) eqn:T3; cbn [negb andb orb];
    try discriminate.
  all: destruct (truthy_opt (assoc "user_story_title" row)) eqn:U1;
    destruct (truthy_opt (assoc "User Story Title" row)) eqn:U2;
    destruct (truthy_opt (assoc "USER STORY TITLE" row)) eqn:U3; cbn [negb andb orb];
    try discriminate.
  all: destruct (toLowerCase_of _) as [priority|]; cbn [rbind]; [|discriminate].
  all: intros [= <-]; cbn.
  all: split; [reflexivity|].
  all: split; [destruct (is_priority priority) eqn:P; [exact P|reflexivity]|].
  all: unfold or_js; rewrite ?T1, ?T2, ?T3, ?U1, ?U2, ?U3.
  all: split; [auto|]; split; [auto|]; split; [|reflexivity].
  all: apply Forall_forall; intros step Hs; now apply filter_In in Hs.
Qed.

Lemma import_row_error (projectId : uuid) (i : nat) (row : list (string * json))
    (e : string) :
  import_row projectId i row = Ok (inl e) -> incomplete_row row = true.
Proof.
  unfold import_row, incomplete_row, lacks.
  destruct (negb (truthy_opt (assoc "title" row)) && negb (truthy_opt (assoc "Title" row))
            && negb (truthy_opt (assoc "TITLE" row))); [reflexivity|].
  destruct (negb (truthy_opt (assoc "user_story_title" row))
            && negb (truthy_opt (assoc "User Story Title" row))
            && negb (truthy_opt (assoc "USER STORY TITLE" row))); [reflexivity|].
  destruct (toLowerCase_of _); discriminate.
Qed.

Lemma import_rows_spec (projectId : uuid) (rows : list (list (string * json))) :
  forall i valid errors,
    import_rows projectId i rows = Ok (valid, errors) ->
    List.length valid + List.length errors = List.length rows /\
    List.length errors = List.length (filter incomplete_row rows) /\
    Forall (fun testCase =>
              is_priority (ic_priority testCase) = true /\
              truthy_opt (ic_title testCase) = true /\
              truthy_opt (ic_userStoryTitle testCase) = true /\
              Forall (fun step => nonblank step = true) (ic_steps testCase) /\
              ic_project_id testCase = projectId) valid.
Proof.
  induction rows as [|row rows IH]; intros i valid errors H; cbn in H.
  - injection H as <- <-. repeat split; constructor.
  - destruct (import_row projectId i row) as [[e|testCase]|] eqn:R; cbn in H;
      [| |discriminate].
    all: destruct (import_rows projectId (S i) rows) as [[valid' errors']|] eqn:E;
      cbn in H; [|discriminate].
    all: injection H as <- <-; destruct (IH _ _ _ E) as (H1 & H2 & H3); cbn.
    + rewrite (import_row_error _ _ _ _ R). cbn. repeat split; auto; lia.
    + destruct (import_row_valid _ _ _ _ R) as (Hc & Hrest). rewrite Hc.
      repeat split; auto; lia.
Qed.

(** X25.  The import goes on to the store only with a complete sheet:
    when [handleFileUpload] gets past its validation, the file has an
    Excel name and at least one row, no row misses its title or its
    user-story title, no toast was shown, and there is one test case per
    row, each with a title, a user-story title, a priority that is low,
    medium or high, and steps that are non-blank lines. *)
Theorem import_proceeds_only_with_complete_rows
    (projectId : uuid) (file : option (string * SheetRead))
    (validTestCases : list ImportedCase) (w w' : World) :
  import_screening projectId file w = (ImportProceeds validTestCases, w') ->
  w' = w /\
  exists name rows,
    file = Some (name, SheetRows rows) /\
    is_excel_name name = true /\
    0 < List.length rows /\
    List.length validTestCases = List.length rows /\
    filter incomplete_row rows = [] /\
    Forall (fun testCase =>
              is_priority (ic_priority testCase) = true /\
              truthy_opt (ic_title testCase) = true /\
              truthy_opt (ic_userStoryTitle testCase) = true /\
              Forall (fun step => nonblank step = true) (ic_steps testCase) /\
              ic_project_id testCase = projectId) validTestCases.
Proof.
  unfold import_screening.
  destruct file as [[name read]|]; [|discriminate].
  destruct (is_excel_name name) eqn:N; cbn [negb]; [|discriminate].
  destruct read as [|[|row rows]]; try discriminate.
  destruct (import_rows projectId 0 (row :: rows)) as [[valid errors]|] eqn:E;
    [|discriminate].
  destruct (0 <? List.length errors)%nat eqn:L; [discriminate|].
  destruct (Nat.eqb (List.length valid) 0); [discriminate|].
  intros [= <- <-]. split; [reflexivity|].
  exists name, (row :: rows).
  destruct (import_rows_spec _ _ _ _ _ E) as (H1 & H2 & H3).
  apply Nat.ltb_ge in L.
  assert (Hz : List.length errors = 0) by lia.
  repeat split; auto.
  - cbn. lia.
  - lia.
  - rewrite Hz in H2. symmetry in H2. now apply length_zero_iff_nil in H2.
Qed.

Lemma import_proceeds_only_with_complete_rows_witness :
  exists name rows,
    Some ("cases.xlsx",
          SheetRows [[("Title", JStr "Guest pays by card"); ("PRIORITY", JStr "Urgent");
                      ("user_story_title", JStr "guest checkout");
                      ("steps", JStr "Open the cart")]])
    = Some (name, SheetRows rows) /\
    is_excel_name name = true /\
    0 < List.length rows /\
    1 = List.length rows /\
    filter incomplete_row rows = [] /\
    Forall (fun testCase =>
              is_priority (ic_priority testCase) = true /\
              truthy_opt (ic_title testCase) = true /\
              truthy_opt (ic_userStoryTitle testCase) = true /\
              Forall (fun step => nonblank step = true) (ic_steps testCase) /\
              ic_project_id testCase = 0)
      [{| ic_testId := None; ic_title := Some (JStr "Guest pays by card");
          ic_description := Some (JStr ""); ic_steps := ["Open the cart"];
          ic_expectedResult := Some (JStr ""); ic_priority := "medium";
          ic_userStoryTitle := Some (JStr "guest checkout"); ic_project_id := 0 |}].
Proof.
  exact (proj2 (import_proceeds_only_with_complete_rows 0
                  (Some ("cases.xlsx",
                         SheetRows [[("Title", JStr "Guest pays by card");
                                     ("PRIORITY", JStr "Urgent");
                                     ("user_story_title", JStr "guest checkout");
                                     ("steps", JStr "Open the cart")]]))
                  [{| ic_testId := None; ic_title := Some (JStr "Guest pays by card");
                      ic_description := Some (JStr ""); ic_steps := ["Open the cart"];
                      ic_expectedResult := Some (JStr ""); ic_priority := "medium";
                      ic_userStoryTitle := Some (JStr "guest checkout");
                      ic_project_id := 0 |}]
                  checkout_world checkout_world eq_refl)).
Defined.

(** X26.  The validation is all or nothing, and one of its toasts is
    dead: when a row of the sheet misses its title or its user-story
    title, [handleFileUpload] stops before its queries, whatever the
    other rows hold; and it never shows the "No Valid Data" toast,
    since a sheet with a row and without an error has a valid test
    case. *)
Theorem import_stops_on_an_incomplete_row
    (projectId : uuid) (file : option (string * SheetRead)) (w : World) :
  (forall name rows row,
      file = Some (name, SheetRows rows) -> In row rows -> incomplete_row row = true ->
      fst (import_screening projectId file w) = ImportStopped) /\
  toasts (snd (import_screening projectId file w)) <> toasts w ++ [toast_no_valid_data].
Proof.
  split.
  - intros name rows row -> Hin Hrow. unfold import_screening.
    destruct (is_excel_name name); cbn [negb fst]; [|reflexivity].
    destruct rows as [|row0 rows]; [destruct Hin|].
    destruct (import_rows projectId 0 (row0 :: rows)) as [[valid errors]|] eqn:E;
      [|reflexivity].
    destruct (import_rows_spec _ _ _ _ _ E) as (_ & H2 & _).
    assert (Hf : In row (filter incomplete_row (row0 :: rows)))
      by (apply filter_In; now split).
    destruct (filter incomplete_row (row0 :: rows)); [destruct Hf|].
    destruct errors; [discriminate|]. reflexivity.
  - unfold import_screening.
    destruct file as [[name read]|]; [|apply toasts_app_neq].
    destruct (is_excel_name name); cbn [negb];
      [|cbn; intro H; apply toasts_app_inv in H; discriminate].
    destruct read as [|[|row rows]];
      try (cbn; intro H; apply toasts_app_inv in H; discriminate).
    destruct (import_rows projectId 0 (row :: rows)) as [[valid errors]|] eqn:E;
      [|cbn; intro H; apply toasts_app_inv in H; discriminate].
    destruct (0 <? List.length errors)%nat eqn:L;
      [cbn; intro H; apply toasts_app_inv in H; discriminate|].
    destruct (import_rows_spec _ _ _ _ _ E) as (H1 & _ & _).
    apply Nat.ltb_ge in L. cbn [List.length] in H1.
    destruct (Nat.eqb (List.length valid) 0) eqn:V.
    + apply Nat.eqb_eq in V. lia.
    + apply toasts_app_neq.
Qed.

Lemma import_stops_on_an_incomplete_row_witness :
  fst (import_screening 0
         (Some ("cases.xlsx",
                SheetRows [[("title", JStr "Guest pays by card");
                            ("user_story_title", JStr "Guest Checkout")];
                           [("title", JStr "Guest pays by invoice")]]))
         checkout_world)
  = ImportStopped.
Proof.
  apply (proj1 (import_stops_on_an_incomplete_row 0
                  (Some ("cases.xlsx",
                         SheetRows [[("title", JStr "Guest pays by card");
                                     ("user_story_title", JStr "Guest Checkout")];
                                    [("title", JStr "Guest pays by invoice")]]))
                  checkout_world)
           "cases.xlsx"
           [[("title", JStr "Guest pays by card");
             ("user_story_title", JStr "Guest Checkout")];
            [("title", JStr "Guest pays by invoice")]]
           [("title", JStr "Guest pays by invoice")] eq_refl).
  - right. now left.
  - reflexivity.
Defined.

(** X27.  The import finds the user story of a test case by its title
    without regard to letter case, where the synchronization compares
    titles exactly: when a story of the project has the title of the
    sheet up to case, the import attaches the test case to a story of
    the project with such a title, also when no story has exactly this
    title, in which case the look-up of the synchronization finds
    none. *)
Theorem import_matches_stories_ignoring_case
    (project : uuid) (testCase : ImportedCase) (title : string) (r : UserStoryRow)
    (w : World) :
  ic_userStoryTitle testCase = Some (JStr title) ->
  In r (user_stories w) -> us_project_id r = project ->
  same_title_ci (us_title r) title = true ->
  (exists r',
      matchingStory (project_stories project w) testCase = Ok (Some r') /\
      In r' (user_stories w) /\ us_project_id r' = project /\
      same_title_ci (us_title r') title = true) /\
  ((forall x, In x (user_stories w) -> us_project_id x = project -> us_title x <> title) ->
   existing_story project title w = None).
Proof.
  intros Ht Hin Hp Hci. split.
  - assert (Hr : In r (project_stories project w)).
    { apply filter_In. split; [exact Hin|]. rewrite Hp. apply Nat.eqb_refl. }
    unfold matchingStory. rewrite Ht. cbn [toLowerCase_of rbind].
    destruct (project_stories project w) as [|s0 rest] eqn:E; [destruct Hr|].
    rewrite <- E in *.
    destruct (find (fun story => String.eqb (toLowerCase (us_title story))
                                   (toLowerCase title))
                (project_stories project w)) as [r'|] eqn:F.
    + exists r'. split; [reflexivity|].
      apply find_some in F as [Hin' Hm]. apply filter_In in Hin' as [Hin' Hp'].
      apply Nat.eqb_eq in Hp'. now repeat split.
    + apply (find_none _ _ F) in Hr. unfold same_title_ci in Hci.
      rewrite Hci in Hr. discriminate.
  - intro Hnone. unfold existing_story.
    destruct (filter (story_matches project title) (user_stories w)) as [|x l] eqn:E;
      [reflexivity|].
    assert (Hx : In x (filter (story_matches project title) (user_stories w)))
      by (rewrite E; now left).
    apply filter_In in Hx as [Hx Hm]. apply story_matches_spec in Hm as [Hxp Hxt].
    now elim (Hnone x Hx Hxp).
Qed.

Lemma import_matches_stories_ignoring_case_witness :
  (exists r',
      matchingStory (project_stories 0 login_world) login_case = Ok (Some r') /\
      In r' (user_stories login_world) /\ us_project_id r' = 0 /\
      same_title_ci (us_title r') "LOGIN" = true) /\
  existing_story 0 "LOGIN" login_world = None.
Proof.
  destruct (import_matches_stories_ignoring_case 0 login_case "LOGIN"
              (demo_story_row 1 0 "login") login_world eq_refl
              (or_introl eq_refl) eq_refl eq_refl) as [H1 H2].
  split; [exact H1|]. apply H2.
  intros x [<-|[]] _. discriminate.
Defined.

(** ** The Jira endpoint *)

Lemma sanitize_clean (key : string) :
  all_chars is_key_char key = true -> sanitizeProjectKey key = key.
Proof.
  induction key as [|c key IH]; cbn; [reflexivity|].
  intro H. apply andb_prop in H as [Hc Hk]. now rewrite Hc, IH.
Qed.

Lemma sanitize_is_clean (key : string) :
  all_chars is_key_char (sanitizeProjectKey key) = true.
Proof.
  induction key as [|c key IH]; cbn; [reflexivity|].
  destruct (is_key_char c) eqn:E; cbn; [now rewrite E|exact IH].
Qed.

(** X28.  The project key reaches the address of the search only in
    its sanitized form, which is made of letters, digits, underscores
    and hyphens alone: sanitizing keeps such a key as it is, is
    idempotent and never makes the key longer, and two keys with the
    same sanitized form lead to the same address. *)
Theorem sanitizeProjectKey_keeps_key_characters_only (jiraUrl key : string) :
  all_chars is_key_char (sanitizeProjectKey key) = true /\
  sanitizeProjectKey (sanitizeProjectKey key) = sanitizeProjectKey key /\
  (all_chars is_key_char key = true -> sanitizeProjectKey key = key) /\
  String.length (sanitizeProjectKey key) <= String.length key /\
  jiraApiUrl jiraUrl key = jiraApiUrl jiraUrl (sanitizeProjectKey key).
Proof.
  split; [apply sanitize_is_clean|].
  split; [apply sanitize_clean, sanitize_is_clean|].
  split; [apply sanitize_clean|].
  split.
  - induction key as [|c key IH]; cbn; [lia|].
    destruct (is_key_char c); cbn; lia.
  - unfold jiraApiUrl. now rewrite (sanitize_clean _ (sanitize_is_clean key)).
Qed.

Lemma prop_Ok (k : string) (x : json) (v : jsval) :
  prop k x = Ok v -> v = prop_opt k (Some x).
Proof. destruct x; cbn; intros [= <-]; reflexivity. Qed.

Lemma get_Ok (k : string) (f v : jsval) : get k f = Ok v -> v = prop_opt k f.
Proof.
  destruct f as [x|]; cbn; [|discriminate].
  destruct x; cbn; intros [= <-]; reflexivity.
Qed.

Lemma assoc_optional_same (k : string) (v : jsval) (rest : list (string * json)) :
  assoc k (optional k v ++ rest)
  = match v with Some x => Some x | None => assoc k rest end.
Proof. destruct v as [x|]; cbn; [|reflexivity]. now rewrite String.eqb_refl. Qed.

Lemma assoc_optional_other (k k' : string) (v : jsval) (rest : list (string * json)) :
  String.eqb k' k = false -> assoc k (optional k' v ++ rest) = assoc k rest.
Proof. intro E. destruct v as [x|]; cbn; [|reflexivity]. now rewrite E. Qed.

Lemma assoc_optional_last (k k' : string) (v : jsval) :
  String.eqb k' k = false -> assoc k (optional k' v) = None.
Proof. intro E. destruct v as [x|]; cbn; [|reflexivity]. now rewrite E. Qed.

Lemma or_js_default (v : jsval) (d : json) (other : jsval) :
  match or_js v (Some d) with Some x => Some x | None => other end = or_js v (Some d).
Proof.
  unfold or_js. destruct (truthy_opt v) eqn:T; [|reflexivity].
  destruct v; [reflexivity|discriminate].
Qed.

Ltac look_up :=
  repeat first
    [ rewrite assoc_optional_same
    | rewrite assoc_optional_other by reflexivity
    | rewrite assoc_optional_last by reflexivity
    | progress cbn [app assoc String.eqb Ascii.eqb Bool.eqb] ].

(** The properties of the story that the endpoint makes of an issue. *)
Lemma jiraIssueStory_props (issue story : json) :
  jiraIssueStory issue = Ok story ->
  exists ps,
    story = JObj ps /\
    assoc "title" ps = issue_field "summary" issue /\
    assoc "description" ps
    = or_js (issue_field "description" issue) (Some (JStr "No description provided")) /\
    assoc "priority" ps
    = or_js (issue_field_name "priority" issue) (Some (JStr "Medium")) /\
    assoc "status" ps = or_js (issue_field_name "status" issue) (Some (JStr "To Do")) /\
    assoc "acceptanceCriteria" ps = None.
Proof.
  unfold jiraIssueStory, issue_field_name, issue_field.
  destruct (prop "key" issue) as [key|] eqn:K; cbn [rbind]; [|discriminate].
  destruct (prop "fields" issue) as [fields|] eqn:F; cbn [rbind]; [|discriminate].
  apply prop_Ok in F. subst fields.
  set (fields := prop_opt "fields" (Some issue)).
  destruct (get "summary" fields) as [summary|] eqn:S; cbn [rbind]; [|discriminate].
  destruct (get "description" fields) as [description|] eqn:D; cbn [rbind];
    [|discriminate].
  destruct (get "priority" fields) as [priority|] eqn:P; cbn [rbind]; [|discriminate].
  destruct (get "status" fields) as [status|] eqn:St; cbn [rbind]; [|discriminate].
  destruct (get "issuetype" fields) as [issuetype|] eqn:I; cbn [rbind]; [|discriminate].
  apply get_Ok in S, D, P, St, I. subst.
  intros [= <-]. eexists. split; [reflexivity|].
  split; [|split; [|split; [|split]]]; look_up.
  - now destruct (prop_opt "summary" fields).
  - apply or_js_default.
  - apply or_js_default.
  - apply or_js_default.
  - reflexivity.
Qed.

(** X29.  The defaults of the Jira endpoint and of the synchronization
    add up: an issue is stored with the priority "medium" when it has
    none and with the status "to-do" when it has none (the endpoint
    answers "Medium" and "To Do", the synchronization lowers them and
    puts a hyphen for the space), with the description "No description
    provided" when it has none, and always with empty acceptance
    criteria. *)
Theorem jira_defaults_reach_the_store
    (issue story : json) (fetched : FetchedStory) (p : StoryPayload) :
  jiraIssueStory issue = Ok story ->
  fetched_story story = Some fetched ->
  jira_payload fetched = Ok p ->
  (truthy_opt (issue_field_name "priority" issue) = false ->
   sp_priority p = Some (JStr "medium")) /\
  (truthy_opt (issue_field_name "status" issue) = false ->
   sp_status p = Some (JStr "to-do")) /\
  (truthy_opt (issue_field "description" issue) = false ->
   sp_description p = Some (JStr "No description provided")) /\
  sp_acceptance_criteria p = Some (JStr "").
Proof.
  intros Hs Hf Hp.
  destruct (jiraIssueStory_props issue story Hs)
    as (ps & -> & Ht & Hd & Hpr & Hst & Hac).
  unfold fetched_story in Hf. cbn [prop_opt] in Hf.
  destruct (assoc "title" ps) as [[| b | n | title | xs | qs]|]; try discriminate.
  injection Hf as <-. rewrite Hd, Hpr, Hst, Hac in Hp.
  unfold jira_payload in Hp. cbn [fs_description fs_priority fs_status
                                    fs_acceptanceCriteria] in Hp.
  destruct (extractTextFromJiraContent _) as [description|] eqn:Ed; cbn [rbind] in Hp;
    [|discriminate].
  destruct (toLowerCase_opt (or_js (issue_field_name "priority" issue) _))
    as [priority|] eqn:Ep; cbn [rbind] in Hp; [|discriminate].
  destruct (toLowerCase_opt (or_js (issue_field_name "status" issue) _))
    as [status|] eqn:Es; cbn [rbind] in Hp; [|discriminate].
  injection Hp as <-. cbn.
  split; [|split; [|split; [|reflexivity]]].
  - intro H. unfold or_js in Ep. rewrite H in Ep. cbn in Ep. now injection Ep as <-.
  - intro H. unfold or_js in Es. rewrite H in Es. cbn in Es. now injection Es as <-.
  - intro H. unfold or_js in Ed. rewrite H in Ed. cbn in Ed. now injection Ed as <-.
Qed.

Lemma jira_defaults_reach_the_store_witness :
  jiraIssueStory bare_issue
  = Ok (JObj [("id", JStr "SHOP-1"); ("title", JStr "Guest Checkout");
              ("description", JStr "No description provided");
              ("priority", JStr "Medium"); ("status", JStr "To Do");
              ("source", JStr "Jira"); ("issueType", JStr "Story");
              ("jiraKey", JStr "SHOP-1")]) /\
  sp_priority {| sp_description := Some (JStr "No description provided");
                 sp_acceptance_criteria := Some (JStr "");
                 sp_priority := Some (JStr "medium");
                 sp_status := Some (JStr "to-do") |} = Some (JStr "medium") /\
  sp_status {| sp_description := Some (JStr "No description provided");
               sp_acceptance_criteria := Some (JStr "");
               sp_priority := Some (JStr "medium");
               sp_status := Some (JStr "to-do") |} = Some (JStr "to-do").
Proof.
  split; [reflexivity|].
  destruct (jira_defaults_reach_the_store bare_issue
              (JObj [("id", JStr "SHOP-1"); ("title", JStr "Guest Checkout");
                     ("description", JStr "No description provided");
                     ("priority", JStr "Medium"); ("status", JStr "To Do");
                     ("source", JStr "Jira"); ("issueType", JStr "Story");
                     ("jiraKey", JStr "SHOP-1")])
              {| fs_title := "Guest Checkout";
                 fs_description := Some (JStr "No description provided");
                 fs_acceptanceCriteria := None;
                 fs_priority := Some (JStr "Medium");
                 fs_status := Some (JStr "To Do") |}
              {| sp_description := Some (JStr "No description provided");
                 sp_acceptance_criteria := Some (JStr "");
                 sp_priority := Some (JStr "medium");
                 sp_status := Some (JStr "to-do") |}
              eq_refl eq_refl eq_refl) as (H1 & H2 & _).
  split; [exact (H1 eq_refl)|exact (H2 eq_refl)].
Defined.

Section JiraAnswers.

Variable URL_protocol : string -> option string.
Variable error_message : exn -> string.

Lemma jira_integration_try_answers (body : option json) (fetch : string -> JiraFetch)
    (w w' : World) (response : Response) :
  jira_integration_try URL_protocol body fetch w = (Ok response, w') ->
  same_store w' w /\
  ((resp_status response = 200 /\
    exists stories total,
      resp_body response
      = JObj [("success", JBool true); ("stories", JArr stories); ("totalCount", total)])
   \/
   (exists msg,
       prop "error" (resp_body response) = Ok (Some (JStr msg)) /\
       prop "success" (resp_body response) = Ok None /\
       prop "stories" (resp_body response) = Ok None)).
Proof.
  unfold jira_integration_try, bind, lift, ret, throw, effect. intro H.
  repeat split_match H.
  all: injection H as <- <-.
  all: split; [now repeat split|].
  all: try (right; eexists; repeat split; reflexivity).
  left. split; [reflexivity|].
  match goal with
  | |- context [or_js ?t ?d] =>
      assert (Ht : exists x, or_js t d = Some x)
        by (unfold or_js; destruct (truthy_opt t) eqn:T; [|eauto];
            destruct t; [eauto|discriminate]);
      destruct Ht as [x ->]
  end.
  cbn. eauto.
Qed.

(** X30.  The Jira endpoint never writes to the store, and it answers
    in one of two ways only: with status 200, [success] and the array of
    stories, or with an [error] message and neither [success] nor
    [stories], which is the kind of answer that the synchronization
    skips. *)
Theorem jira_integration_answers_stories_or_an_error
    (body : option json) (fetch : string -> JiraFetch) (w : World) :
  let out := jira_integration URL_protocol error_message body fetch w in
  same_store (snd out) w /\
  ((resp_status (fst out) = 200 /\
    exists stories total,
      resp_body (fst out)
      = JObj [("success", JBool true); ("stories", JArr stories); ("totalCount", total)])
   \/
   (exists msg,
       prop "error" (resp_body (fst out)) = Ok (Some (JStr msg)) /\
       prop "success" (resp_body (fst out)) = Ok None /\
       prop "stories" (resp_body (fst out)) = Ok None)).
Proof.
  cbn zeta. unfold jira_integration.
  destruct (jira_integration_try URL_protocol body fetch w) as [[response|e] w'] eqn:E.
  - now apply jira_integration_try_answers in E.
  - cbn [fst snd]. split.
    + assert (H : same_store w' w).
      { revert E. unfold jira_integration_try, bind, lift, ret, throw, effect. intro H.
        repeat split_match H.
        all: injection H as <- <-; now repeat split. }
      now apply same_store_console.
    + right. eexists. repeat split; reflexivity.
Qed.

End JiraAnswers.
